(** * Le port de plaisance: authentication gate and controller error mapping

    A shallow embedding of the Express application (the JWT middleware, the
    three controllers, their services and the Mongoose schemas they rely
    on) together with the properties stated about it.

    Conventions of the embedding.
    - A JavaScript string is modelled as the [string] of the bytes of its
      UTF-8 encoding (a lone surrogate is written as the three bytes of its
      code point).  What JavaScript counts in UTF-16 code units is counted
      in code units here: [jsLength] is [s.length], [sliceFrom] cuts after
      a number of code units, and [trim] removes the white space and line
      terminators of ECMAScript, whatever their length in bytes.
      [toLowerCase] acts on the ASCII letters, which is all that a
      comparison with the literal ['bearer'] can observe: no other
      character has a lower case that begins with one of its letters.
    - [req.cookies] holds values, not only strings: cookie-parser replaces
      a cookie that begins with [j:] by the JSON value it encodes.
    - Handlers are written in the monad [Js]: a state transformer over
      [World] that either completes normally or throws a [JsError].  A
      throw keeps every state change made before it, as in JavaScript.
      A handler that ends with [Throw] has let an exception escape.
    - [req.body] is typed: numbers and dates are already what the schema
      casts them to, and a missing field is [None].
    - The third-party packages (jsonwebtoken, bcryptjs, the ObjectId cast
      and generator of the MongoDB driver, the printing of dates) are the
      fields of the class [Externals].  bcryptjs runs the callback of
      [compare] on a later tick; [authenticate] is modelled accordingly.
    - The collections are lists of documents in [World].  The unique index
      that the catway schema declares on [catwayNumber] is the insertion
      throwing the driver's duplicate-key error (code 11000).
    - The controllers take the service functions they call as section
      variables, in the way the tests replace them by sinon stubs; the
      module [app] instantiates them with the services of the repository.
      [findByIdAndUpdate] and [user.save()] on a stored user have no
      model of their own and only occur as such variables; so does
      [bcrypt.hash] in the creation of a user. *)

From Stdlib Require Import ZArith String Ascii List Bool Lia.
From stdpp Require Import base option list strings gmap.
Import ListNotations.

Set Warnings "-register-all".

Local Open Scope Z_scope.
Local Open Scope string_scope.

(** ** Strings *)

Definition lowerAscii (c : ascii) : ascii :=
  let n := nat_of_ascii c in
  if Nat.leb 65 n && Nat.leb n 90 then ascii_of_nat (n + 32) else c.

Fixpoint toLowerCase (s : string) : string :=
  match s with
  | EmptyString => EmptyString
  | String c r => String (lowerAscii c) (toLowerCase r)
  end.

(** [s.startsWith(p)] *)
Definition startsWith (s p : string) : bool := String.prefix p s.

(** A continuation byte [10xxxxxx] of a character of several bytes. *)
Definition isCont (c : ascii) : bool :=
  let n := nat_of_ascii c in Nat.leb 128 n && Nat.leb n 191.

(** The number of continuation bytes that a leading byte announces. *)
Definition followers (c : ascii) : nat :=
  let n := nat_of_ascii c in
  if Nat.ltb n 192 then 0%nat
  else if Nat.ltb n 224 then 1%nat
  else if Nat.ltb n 240 then 2%nat
  else if Nat.ltb n 248 then 3%nat
  else 0%nat.

(** A character of one byte *)
Definition isAscii (c : ascii) : bool := Nat.ltb (nat_of_ascii c) 128.

(** [s.length]: the number of UTF-16 code units.  A character of one, two
    or three bytes is one code unit, a character of four bytes is a
    surrogate pair. *)
Fixpoint jsLength (s : string) : nat :=
  match s with
  | EmptyString => 0%nat
  | String c r =>
      ((if isCont c then 0 else if Nat.eqb (followers c) 3 then 2 else 1)
       + jsLength r)%nat
  end.

(** What is left of a character of four bytes when its first code unit is
    cut off: the low surrogate, followed by the rest of the string.  [r]
    is what follows the leading byte. *)
Definition lowSurrogate (r : string) : string :=
  match r with
  | String _ (String b2 (String b3 r')) =>
      String (ascii_of_nat 237)
        (String (ascii_of_nat (176 + nat_of_ascii b2 mod 16)) (String b3 r'))
  | _ => EmptyString
  end.

(** [s] without its first [n] code units; [pending] counts the continuation
    bytes that still belong to the character dropped last. *)
Fixpoint dropUnits (pending n : nat) (s : string) : string :=
  match s with
  | EmptyString => EmptyString
  | String c r =>
      if Nat.ltb 0 pending && isCont c then dropUnits (pending - 1) n r
      else
        match n with
        | O => s
        | S n' =>
            if Nat.eqb (followers c) 3 then
              match n' with
              | O => lowSurrogate r
              | S n'' => dropUnits 3 n'' r
              end
            else dropUnits (followers c) n' r
        end
  end.

(** [s.slice(b, s.length)] for [0 <= b] *)
Definition sliceFrom (s : string) (b : nat) : string := dropUnits 0 b s.

(** [s.includes(p)]: [p] occurs somewhere in [s] *)
Fixpoint includes (s p : string) : bool :=
  String.prefix p s ||
  match s with
  | EmptyString => false
  | String _ r => includes r p
  end.

(** Truthiness of a string value: only the empty string is falsy. *)
Definition truthy (s : string) : bool :=
  match s with EmptyString => false | _ => true end.

(** String conversion in a template literal or a [+] concatenation. *)
Definition toStr (o : option string) : string := default "undefined" o.

(** White space and line terminators of ECMAScript, by their bytes. *)
Definition isWhite1 (a : nat) : bool :=
  Nat.eqb a 32 || (Nat.leb 9 a && Nat.leb a 13).      (* U+0020, U+0009-000D *)

Definition isWhite2 (a b : nat) : bool :=
  Nat.eqb a 194 && Nat.eqb b 160.                             (* U+00A0 *)

Definition isWhite3 (a b c : nat) : bool :=
  (Nat.eqb a 225 && Nat.eqb b 154 && Nat.eqb c 128)           (* U+1680 *)
  || (Nat.eqb a 226 && Nat.eqb b 128
      && ((Nat.leb 128 c && Nat.leb c 138)               (* U+2000-200A *)
          || Nat.eqb c 168 || Nat.eqb c 169              (* U+2028, U+2029 *)
          || Nat.eqb c 175))                                  (* U+202F *)
  || (Nat.eqb a 226 && Nat.eqb b 129 && Nat.eqb c 159)        (* U+205F *)
  || (Nat.eqb a 227 && Nat.eqb b 128 && Nat.eqb c 128)        (* U+3000 *)
  || (Nat.eqb a 239 && Nat.eqb b 187 && Nat.eqb c 191).       (* U+FEFF *)

(** The number of bytes of the white space character that [s] begins
    with, and 0 when it begins with none. *)
Definition whiteBytes (s : string) : nat :=
  match s with
  | EmptyString => 0%nat
  | String a r =>
      if isWhite1 (nat_of_ascii a) then 1%nat
      else
        match r with
        | EmptyString => 0%nat
        | String b r2 =>
            if isWhite2 (nat_of_ascii a) (nat_of_ascii b) then 2%nat
            else
              match r2 with
              | EmptyString => 0%nat
              | String c _ =>
                  if isWhite3 (nat_of_ascii a) (nat_of_ascii b)
                       (nat_of_ascii c)
                  then 3%nat else 0%nat
              end
        end
  end.

(** [s] is one white space character. *)
Definition isWhite (s : string) : bool :=
  Nat.ltb 0 (whiteBytes s) && Nat.eqb (whiteBytes s) (String.length s).

Fixpoint trimStart (s : string) : string :=
  match s with
  | EmptyString => EmptyString
  | String _ r =>
      match whiteBytes s with
      | 0%nat => s
      | 1%nat => trimStart r
      | 2%nat => match r with
                 | String _ r2 => trimStart r2
                 | _ => s
                 end
      | _ => match r with
             | String _ (String _ r3) => trimStart r3
             | _ => s
             end
      end
  end.

Fixpoint trimEnd (s : string) : string :=
  match s with
  | EmptyString => EmptyString
  | String c r =>
      let r' := trimEnd r in
      if isWhite (String c r') then EmptyString else String c r'
  end.

(** [s.trim()] *)
Definition trim (s : string) : string := trimEnd (trimStart s).

Definition isLetter (c : ascii) : bool :=
  let n := nat_of_ascii c in
  (Nat.leb 65 n && Nat.leb n 90) || (Nat.leb 97 n && Nat.leb n 122).

(** [/[a-zA-Z]/.test(v)] *)
Fixpoint hasLetter (s : string) : bool :=
  match s with
  | EmptyString => false
  | String c r => isLetter c || hasLetter r
  end.

(** ** Errors and documents *)

(** The properties of an error object that the catch blocks inspect.
    [errors] is the [errors] object of a Mongoose ValidationError, as the
    list of its (path, message) entries. *)
Record JsError := mkError {
  err_name : string;
  err_message : string;
  err_kind : option string;
  err_code : option Z;
  err_errors : list (string * string)
}.

(** [new Error(msg)] *)
Definition Error (msg : string) : JsError :=
  mkError "Error" msg None None [].

(** The error of a property access on [null] or [undefined]. *)
Definition TypeError (msg : string) : JsError :=
  mkError "TypeError" msg None None [].

(** Mongoose's error for an identifier that does not cast to ObjectId. *)
Definition CastError (value : string) : JsError :=
  mkError "CastError"
    ("Cast to ObjectId failed for value " ++ value) (Some "ObjectId") None [].

(** Mongoose's validation error, with one message per failing path. *)
Definition ValidationError (errs : list (string * string)) : JsError :=
  mkError "ValidationError" "Validation failed" None None errs.

(** The driver's duplicate-key error (E11000) on a unique index. *)
Definition DuplicateKeyError (path : string) : JsError :=
  mkError "MongoServerError"
    ("E11000 duplicate key error, index: " ++ path) None (Some 11000) [].

Module Catway.
Record doc := mk {
  _id : string;
  catwayNumber : Z;
  type : string;
  catwayState : string;
  boatName : string
}.
End Catway.

Module Reservation.
(** Dates are milliseconds since the epoch. *)
Record doc := mk {
  _id : string;
  catwayNumber : Z;
  clientName : string;
  boatName : string;
  checkIn : Z;
  checkOut : Z
}.
End Reservation.

Module User.
(** [password] is optional because [authenticate] deletes it from the
    document it has loaded. *)
Record doc := mk {
  _id : string;
  name : string;
  email : string;
  password : option string
}.
End User.

(** Values handed to [res.json], [res.render] and [jwt.sign]. *)
Inductive JsVal :=
| VUndefined
| VNull
| VBool (b : bool)
| VNum (n : Z)
| VStr (s : string)
| VArr (l : list JsVal)
| VObj (fields : list (string * JsVal))
| VError (e : JsError)
| VCatway (c : Catway.doc)
| VReservation (r : Reservation.doc)
| VUser (u : User.doc).

(** Truthiness of a value *)
Definition jsTruthy (v : JsVal) : bool :=
  match v with
  | VUndefined | VNull => false
  | VBool b => b
  | VNum n => negb (Z.eqb n 0)
  | VStr s => truthy s
  | _ => true
  end.

(** [typeof v === 'string'] *)
Definition isString (v : JsVal) : bool :=
  match v with VStr _ => true | _ => false end.

(** [v.user] style property access on a value *)
Fixpoint assoc (k : string) (fields : list (string * JsVal)) : JsVal :=
  match fields with
  | [] => VUndefined
  | (k', v) :: rest => if String.eqb k k' then v else assoc k rest
  end.

Definition getProp (v : JsVal) (k : string) : JsVal :=
  match v with
  | VObj fields => assoc k fields
  | _ => VUndefined
  end.

(** ** Request, response and the world *)

(** [req.body] after body parsing, with the fields the handlers read.
    Numbers and dates are kept in the type the schema casts them to. *)
Record Body := mkBody {
  b_catwayNumber : option Z;
  b_type : option string;
  b_catwayState : option string;
  b_boatName : option string;
  b_clientName : option string;
  b_checkIn : option Z;
  b_checkOut : option Z;
  b_name : option string;
  b_email : option string;
  b_password : option string
}.

Definition emptyBody : Body :=
  mkBody None None None None None None None None None None.

Record Request := mkRequest {
  params : gmap string string;
  query : gmap string string;
  body : Body;
  cookies : gmap string JsVal;
  headers : gmap string string
}.

Record Cookie := mkCookie {
  cookie_name : string;
  cookie_value : string;
  httpOnly : bool;
  maxAge : Z                     (* milliseconds, as Express takes it *)
}.

Inductive Sent :=
| Rendered (view : string) (locals : JsVal)
| Json (v : JsVal)
| Redirected (url : string).

(** Everything a handler can read or change: the three collections, the
    clock, the mutable parts of [req] ([req.session.message], [req.user]),
    the response object, and the number of times [next()] was called. *)
Record World := mkWorld {
  users : list User.doc;
  catways : list Catway.doc;
  reservations : list Reservation.doc;
  clock : Z;
  idCounter : nat;
  session_message : option string;
  req_user : JsVal;
  statusCode : Z;
  setCookies : list Cookie;
  sent : option Sent;
  nextCalls : nat
}.

(** A world in which a request has just arrived. *)
Definition arriving (us : list User.doc) (cs : list Catway.doc)
    (rs : list Reservation.doc) (now : Z) : World :=
  mkWorld us cs rs now 0 None VUndefined 200 [] None 0.

(** ** The monad of handlers *)

Inductive Completion (A : Type) :=
| Normal (a : A)
| Throw (e : JsError).
Arguments Normal {A} a.
Arguments Throw {A} e.

Definition Js (A : Type) : Type := World -> Completion A * World.

Definition ret {A} (a : A) : Js A := fun w => (Normal a, w).

Definition bind {A B} (m : Js A) (k : A -> Js B) : Js B :=
  fun w =>
    match m w with
    | (Normal a, w') => k a w'
    | (Throw e, w') => (Throw e, w')
    end.

Definition throw {A} (e : JsError) : Js A := fun w => (Throw e, w).

(** [try { body } catch (error) { handler error }] *)
Definition try_catch {A} (body : Js A) (handler : JsError -> Js A) : Js A :=
  fun w =>
    match body w with
    | (Normal a, w') => (Normal a, w')
    | (Throw e, w') => handler e w'
    end.

Definition gets {A} (f : World -> A) : Js A := fun w => (Normal (f w), w).
Definition modify (f : World -> World) : Js unit := fun w => (Normal tt, f w).

Declare Scope js_scope.
Delimit Scope js_scope with js.
Notation "x <- m ;; k" := (bind m (fun x => k))
  (at level 100, m at next level, right associativity) : js_scope.
Notation "m ;; k" := (bind m (fun _ => k))
  (at level 100, right associativity) : js_scope.
Local Open Scope js_scope.

(** The world after running a handler, and how the handler completed. *)
Definition exec {A} (m : Js A) (w : World) : World := snd (m w).
Definition completion {A} (m : Js A) (w : World) : Completion A := fst (m w).

(** ** Express response methods *)

Definition set_statusCode (c : Z) (w : World) : World :=
  mkWorld (users w) (catways w) (reservations w) (clock w) (idCounter w)
    (session_message w) (req_user w) c (setCookies w) (sent w) (nextCalls w).

Definition set_sent (s : Sent) (w : World) : World :=
  mkWorld (users w) (catways w) (reservations w) (clock w) (idCounter w)
    (session_message w) (req_user w) (statusCode w) (setCookies w) (Some s)
    (nextCalls w).

Definition add_cookie (c : Cookie) (w : World) : World :=
  mkWorld (users w) (catways w) (reservations w) (clock w) (idCounter w)
    (session_message w) (req_user w) (statusCode w) (setCookies w ++ [c])%list
    (sent w) (nextCalls w).

Definition set_req_user (u : JsVal) (w : World) : World :=
  mkWorld (users w) (catways w) (reservations w) (clock w) (idCounter w)
    (session_message w) u (statusCode w) (setCookies w) (sent w) (nextCalls w).

Definition set_session_message (m : option string) (w : World) : World :=
  mkWorld (users w) (catways w) (reservations w) (clock w) (idCounter w)
    m (req_user w) (statusCode w) (setCookies w) (sent w) (nextCalls w).

Definition count_next (w : World) : World :=
  mkWorld (users w) (catways w) (reservations w) (clock w) (idCounter w)
    (session_message w) (req_user w) (statusCode w) (setCookies w) (sent w)
    (S (nextCalls w)).

Module res.
Definition status (c : Z) : Js unit := modify (set_statusCode c).
Definition render (view : string) (locals : JsVal) : Js unit :=
  modify (set_sent (Rendered view locals)).
Definition json (v : JsVal) : Js unit := modify (set_sent (Json v)).
(** [res.redirect(url)] always sets the status itself (302). *)
Definition redirect (url : string) : Js unit :=
  modify (fun w => set_sent (Redirected url) (set_statusCode 302 w)).
Definition cookie (n v : string) (httpOnly : bool) (maxAge : Z) : Js unit :=
  modify (add_cookie (mkCookie n v httpOnly maxAge)).
End res.

(** [next()]: hand the request to the downstream handler. *)
Definition next : Js unit := modify count_next.

(** ** Third-party collaborators *)

(** The two arguments [jwt.verify] passes to its callback. *)
Inductive JwtResult :=
| JwtError (err : JsError)
| JwtDecoded (decoded : JsVal).

Class Externals := {
  (** [process.env.SECRET_KEY] *)
  SECRET_KEY : string;
  (** [jwt.sign(payload, secret, { expiresIn })] at a given time *)
  jwt_sign : JsVal -> string -> Z -> Z -> string;
  (** [jwt.verify(token, secret, callback)] at a given time *)
  jwt_verify : string -> string -> Z -> JwtResult;
  (** [bcrypt.compare(s, hash, callback)]: the [(err, response)] pair the
      callback receives; [response] is [false] when it is [undefined] *)
  bcrypt_compare : option string -> option string -> option string * bool;
  (** whether a string casts to an ObjectId *)
  isValidObjectId : string -> bool;
  (** the n-th identifier the driver generates *)
  newObjectId : nat -> string;
  (** the string conversion of a Date in a template literal *)
  dateToString : Z -> string
}.

(** ** middlewares/private: the JWT gate *)

Module Private.
Section WithExternals.
Context `{Externals}.

(** Lines 131-134 on a token that is a string: strip the 'Bearer ' prefix
    if it exists. *)
Definition stripBearer (token : string) : string :=
  if truthy token && startsWith (toLowerCase token) "bearer"
  then sliceFrom token 7
  else token.

(** [req.cookies.authToken] is [undefined] without the cookie, a string
    for an ordinary cookie, and another value for a cookie that
    cookie-parser read as JSON.  A truthy value that is not a string has
    no [toLowerCase]: the call on line 132 throws, outside any [try]. *)
Definition checkJWT (req : Request) : Js unit :=
  match default VUndefined (cookies req !! "authToken") with
  | VStr token =>
      let token := stripBearer token in
      if truthy token then
        now <- gets clock ;;
        match jwt_verify token SECRET_KEY now with
        | JwtError err =>
            res.status 401 ;; res.json (VStr "token_not_valid")
        | JwtDecoded decoded =>
            modify (set_req_user (getProp decoded "user")) ;;
            next
        end
      else
        res.status 401 ;;
        res.render "error/error"
          (VObj [("errors",
                  VArr [VStr "Connectez vous pour acc√©der a cette page"])])
  | token =>
      if jsTruthy token
      then throw (TypeError "token.toLowerCase is not a function")
      else
        res.status 401 ;;
        res.render "error/error"
          (VObj [("errors",
                  VArr [VStr "Connectez vous pour acc√©der a cette page"])])
  end.

End WithExternals.
End Private.

(** ** Collections *)

Definition set_users (us : list User.doc) (w : World) : World :=
  mkWorld us (catways w) (reservations w) (clock w) (idCounter w)
    (session_message w) (req_user w) (statusCode w) (setCookies w) (sent w)
    (nextCalls w).

Definition set_catways (cs : list Catway.doc) (w : World) : World :=
  mkWorld (users w) cs (reservations w) (clock w) (idCounter w)
    (session_message w) (req_user w) (statusCode w) (setCookies w) (sent w)
    (nextCalls w).

Definition set_reservations (rs : list Reservation.doc) (w : World) : World :=
  mkWorld (users w) (catways w) rs (clock w) (idCounter w)
    (session_message w) (req_user w) (statusCode w) (setCookies w) (sent w)
    (nextCalls w).

Definition bump_idCounter (w : World) : World :=
  mkWorld (users w) (catways w) (reservations w) (clock w) (S (idCounter w))
    (session_message w) (req_user w) (statusCode w) (setCookies w) (sent w)
    (nextCalls w).

(** The first document with the given identifier, and the collection
    without it ([findById], [findByIdAndDelete]). *)
Fixpoint findDoc {A} (idOf : A -> string) (id : string) (l : list A)
    : option A :=
  match l with
  | [] => None
  | d :: rest => if String.eqb (idOf d) id then Some d else findDoc idOf id rest
  end.

Fixpoint removeDoc {A} (idOf : A -> string) (id : string) (l : list A)
    : list A :=
  match l with
  | [] => []
  | d :: rest =>
      if String.eqb (idOf d) id then rest else d :: removeDoc idOf id rest
  end.

(** ** Schema validation (models/catway, models/reservation) *)

(** The outcome of validating one path: the message of the first failing
    validator, or the value as the setters left it. *)
Definition pathError {A} (path : string) (r : string + A)
    : list (string * string) :=
  match r with
  | inl msg => [(path, msg)]
  | inr _ => []
  end.

Definition requiredMessage (path : string) : string :=
  "Path `" ++ path ++ "` is required.".

Record CatwayData := mkCatwayData {
  cd_catwayNumber : option Z;
  cd_type : option string;
  cd_catwayState : option string;
  cd_boatName : option string
}.

Module catwaySchema.

Definition catwayNumber (v : option Z) : string + Z :=
  match v with
  | None => inl (requiredMessage "catwayNumber")
  | Some n => inr n
  end.

Definition type (v : option string) : string + string :=
  match trim <$> v with
  | None => inl (requiredMessage "type")
  | Some s =>
      if negb (truthy s) then inl (requiredMessage "type")
      else if String.eqb s "long" || String.eqb s "short" then inr s
      else inl ("`" ++ s ++ "` is not a valid enum value for path `type`.")
  end.

Definition catwayState (v : option string) : string + string :=
  match trim <$> v with
  | None => inl (requiredMessage "catwayState")
  | Some s =>
      if negb (truthy s) then inl (requiredMessage "catwayState")
      else if Nat.ltb (jsLength s) 3
      then inl "L'état du catway doit comporter au moins 3 caractères"
      else if Nat.ltb 100 (jsLength s)
      then inl "L'état du Catway ne peut pas dépasser 100 caractères"
      else inr s
  end.

Definition boatName (v : option string) : string + string :=
  match trim <$> v with
  | None => inl (requiredMessage "boatName")
  | Some s =>
      if negb (truthy s) then inl (requiredMessage "boatName")
      else if Nat.ltb (jsLength s) 2
      then inl "Le nom du bateau doit comporter au moins 2 caractères"
      else if Nat.ltb 50 (jsLength s)
      then inl "Le nom du bateau ne peut pas dépasser 50 caractères"
      else if hasLetter s then inr s
      else inl (s ++ " n'est pas valide ! Le nom du bateau doit contenir au moins une lettre.")
  end.

(** Validation of a new document: every failing path contributes its
    message; a valid document is returned with its fields cast. *)
Definition validate (d : CatwayData)
    : list (string * string) + (Z * string * string * string) :=
  match catwayNumber (cd_catwayNumber d), type (cd_type d),
        catwayState (cd_catwayState d), boatName (cd_boatName d) with
  | inr n, inr t, inr s, inr b => inr (n, t, s, b)
  | rn, rt, rs, rb =>
      inl (pathError "catwayNumber" rn ++ pathError "type" rt ++
           pathError "catwayState" rs ++ pathError "boatName" rb)%list
  end.

End catwaySchema.

Record ReservationData := mkReservationData {
  rd_catwayNumber : option Z;
  rd_clientName : option string;
  rd_boatName : option string;
  rd_checkIn : option Z;
  rd_checkOut : option Z
}.

Module reservationSchema.

Definition catwayNumber (v : option Z) : string + Z :=
  match v with
  | None => inl "Le numéro de catway est requis"
  | Some n => inr n
  end.

Definition clientName (v : option string) : string + string :=
  match trim <$> v with
  | None => inl "Le nom du client est obligatoire"
  | Some s =>
      if negb (truthy s) then inl "Le nom du client est obligatoire"
      else if Nat.ltb (jsLength s) 3
      then inl "Le nom du client doit comporter au moins 3 caractères"
      else if Nat.ltb 100 (jsLength s)
      then inl "Le nom du client ne peut pas dépasser 100 caractères"
      else inr s
  end.

Definition boatName (v : option string) : string + string :=
  match trim <$> v with
  | None => inl "Le nom du bateau est obligatoire"
  | Some s =>
      if negb (truthy s) then inl "Le nom du bateau est obligatoire"
      else inr s
  end.

(** [validator: function(v) { return v >= new Date(); }] *)
Definition checkIn (now : Z) (v : option Z) : string + Z :=
  match v with
  | None => inl "Date de check-in est obligatoire"
  | Some t =>
      if (now <=? t)%Z then inr t
      else inl "La date de check-in ne peut pas être dans le passé."
  end.

(** [validator: function(v) { return v > this.checkIn; }]; the comparison
    with an undefined [this.checkIn] is false. *)
Definition checkOut (this_checkIn : option Z) (v : option Z) : string + Z :=
  match v with
  | None => inl "Date de check-out est obligatoire"
  | Some t =>
      match this_checkIn with
      | Some i =>
          if (i <? t)%Z then inr t
          else inl "La date de check-out doit être postérieure à la date de check-in."
      | None =>
          inl "La date de check-out doit être postérieure à la date de check-in."
      end
  end.

Definition validate (now : Z) (d : ReservationData)
    : list (string * string) + (Z * string * string * Z * Z) :=
  match catwayNumber (rd_catwayNumber d), clientName (rd_clientName d),
        boatName (rd_boatName d), checkIn now (rd_checkIn d),
        checkOut (rd_checkIn d) (rd_checkOut d) with
  | inr n, inr c, inr b, inr i, inr o => inr (n, c, b, i, o)
  | rn, rc, rb, ri, ro =>
      inl (pathError "catwayNumber" rn ++ pathError "clientName" rc ++
           pathError "boatName" rb ++ pathError "checkIn" ri ++
           pathError "checkOut" ro)%list
  end.

End reservationSchema.

(** ** Mongoose queries over the collections *)

Module Mongoose.
Section WithExternals.
Context `{Externals}.

(** The identifier given to a newly inserted document. *)
Definition newId : Js string :=
  n <- gets idCounter ;;
  modify bump_idCounter ;;
  ret (newObjectId n).

(** The cast of an identifier in a query: a string that is not an
    ObjectId rejects the query with a CastError of kind ['ObjectId']. *)
Definition castId (id : string) : Js string :=
  if isValidObjectId id then ret id else throw (CastError id).

End WithExternals.
End Mongoose.

(** ** services/catways *)

Module catwayService.
Section WithExternals.
Context `{Externals}.

Definition getAllCatways : Js (list Catway.doc) := gets catways.

Definition getCatwayById (id : string) : Js (option Catway.doc) :=
  id <- Mongoose.castId id ;;
  cs <- gets catways ;;
  ret (findDoc Catway._id id cs).

(** [new Catway(catwayData).save()]: validation, then the insertion, which
    the unique index on [catwayNumber] rejects with code 11000 when the
    number is already stored. *)
Definition addCatway (catwayData : CatwayData) : Js Catway.doc :=
  match catwaySchema.validate catwayData with
  | inl errs => throw (ValidationError errs)
  | inr (n, t, s, b) =>
      cs <- gets catways ;;
      if existsb (fun c => Catway.catwayNumber c =? n)%Z cs
      then throw (DuplicateKeyError "catwayNumber")
      else
        id <- Mongoose.newId ;;
        let newCatway := Catway.mk id n t s b in
        modify (set_catways (cs ++ [newCatway])%list) ;;
        ret newCatway
  end.

Definition deleteCatway (id : string) : Js (option Catway.doc) :=
  id <- Mongoose.castId id ;;
  cs <- gets catways ;;
  match findDoc Catway._id id cs with
  | Some c => modify (set_catways (removeDoc Catway._id id cs)) ;; ret (Some c)
  | None => ret None
  end.

End WithExternals.
End catwayService.

(** ** services/reservations *)

Module reservationService.
Section WithExternals.
Context `{Externals}.

Definition getAllCatwayReservations (catwayNumber : Z)
    : Js (list Reservation.doc) :=
  rs <- gets reservations ;;
  ret (filter (fun r => Reservation.catwayNumber r = catwayNumber) rs).

Definition getAllReservation : Js (list Reservation.doc) := gets reservations.

(** [new Reservation(reservationData).save()]; the validators read the
    clock when they run. *)
Definition creatReservation (reservationData : ReservationData)
    : Js Reservation.doc :=
  now <- gets clock ;;
  match reservationSchema.validate now reservationData with
  | inl errs => throw (ValidationError errs)
  | inr (n, c, b, i, o) =>
      id <- Mongoose.newId ;;
      let newReservation := Reservation.mk id n c b i o in
      rs <- gets reservations ;;
      modify (set_reservations (rs ++ [newReservation])%list) ;;
      ret newReservation
  end.

Definition getReservationById (id : string) : Js (option Reservation.doc) :=
  id <- Mongoose.castId id ;;
  rs <- gets reservations ;;
  ret (findDoc Reservation._id id rs).

Definition deleteReservation (id : string) : Js (option Reservation.doc) :=
  id <- Mongoose.castId id ;;
  rs <- gets reservations ;;
  match findDoc Reservation._id id rs with
  | Some r =>
      modify (set_reservations (removeDoc Reservation._id id rs)) ;;
      ret (Some r)
  | None => ret None
  end.

End WithExternals.
End reservationService.

(** ** services/users and the User model *)

Module userService.
Section WithExternals.
Context `{Externals}.

Definition findUserById (id : string) : Js (option User.doc) :=
  id <- Mongoose.castId id ;;
  us <- gets users ;;
  ret (findDoc User._id id us).

Definition deleteUser (id : string) : Js (option User.doc) :=
  id <- Mongoose.castId id ;;
  us <- gets users ;;
  match findDoc User._id id us with
  | Some u => modify (set_users (removeDoc User._id id us)) ;; ret (Some u)
  | None => ret None
  end.

End WithExternals.
End userService.

Module UserModel.

(** [User.findOne({ email: email }, '-__v -createdAt -updatedAt')]: the
    first stored user whose email is exactly the given one.  A request
    without an email matches no user. *)
Definition findOne (email : option string) : Js (option User.doc) :=
  us <- gets users ;;
  ret (match email with
       | Some e => find (fun u => String.eqb (User.email u) e) us
       | None => None
       end).

End UserModel.

(** ** What the catch blocks test and build *)

(** [error.name === 'ValidationError'] *)
Definition isValidationError (error : JsError) : bool :=
  String.eqb (err_name error) "ValidationError".

(** [error.code === 11000] *)
Definition isDuplicateKey (error : JsError) : bool :=
  match err_code error with
  | Some c => (c =? 11000)%Z
  | None => false
  end.

(** [error.kind === "ObjectId"] *)
Definition isObjectIdKind (error : JsError) : bool :=
  match err_kind error with
  | Some k => String.eqb k "ObjectId"
  | None => false
  end.

(** [{ errors: Object.values(error.errors).map(e => e.message) }] *)
Definition errorMessages (error : JsError) : JsVal :=
  VObj [("errors", VArr (VStr <$> (snd <$> err_errors error)))].

(** [{ errors: [msg] }] *)
Definition oneError (msg : string) : JsVal :=
  VObj [("errors", VArr [VStr msg])].

(** [{ message: 'Internal Server Error', error }] *)
Definition internalServerError (error : JsError) : JsVal :=
  VObj [("message", VStr "Internal Server Error"); ("error", VError error)].

(** [{ message: msg }] *)
Definition messageObj (msg : string) : JsVal := VObj [("message", VStr msg)].

Definition optStr (o : option string) : JsVal := from_option VStr VUndefined o.

(** Reading the property [prop] of a value that may be missing, [nothing]
    being what it is then (['null'] or ['undefined']): a TypeError when it
    is missing. *)
Definition deref {A} (o : option A) (nothing prop : string) : Js A :=
  match o with
  | Some a => ret a
  | None =>
      throw (TypeError ("Cannot read properties of " ++ nothing
                        ++ " (reading '" ++ prop ++ "')"))
  end.

(** [req.params.<k>]; the route pattern provides the parameter. *)
Definition param (req : Request) (k : string) : string :=
  default EmptyString (params req !! k).

(** ** controllers/catwaysController *)

Module catwaysController.
Section WithServices.
Variable getAllCatways : Js (list Catway.doc).
Variable getCatwayById : string -> Js (option Catway.doc).
Variable addCatway : CatwayData -> Js Catway.doc.
Variable updateCatway : string -> Body -> Js (option Catway.doc).
Variable deleteCatway : string -> Js (option Catway.doc).

Definition getAll (req : Request) : Js unit :=
  try_catch
    (catways <- getAllCatways ;;
     let message := query req !! "message" in
     if Nat.eqb (length catways) 0 then
       res.status 404 ;;
       res.render "catways/list"
         (VObj [("catways", VArr []);
                ("message", VStr (toStr message ++ "<br>Aucun catway trouvée"))])
     else
       res.render "catways/list"
         (VObj [("catways", VArr (VCatway <$> catways));
                ("message", optStr message)]))
    (fun error =>
       res.status 500 ;; res.json (internalServerError error)).

Definition getById (req : Request) : Js unit :=
  let id := param req "id" in
  try_catch
    (catway <- getCatwayById id ;;
     match catway with
     | None =>
         res.status 404 ;; res.render "error/error" (oneError "Catway non trouvé")
     | Some catway =>
         res.status 200 ;;
         res.render "catways/details" (VObj [("catway", VCatway catway)])
     end)
    (fun error =>
       if isObjectIdKind error then
         res.status 404 ;;
         res.render "error/error" (oneError "Entrez un identifiant valide")
       else
         res.status 500 ;; res.json (internalServerError error)).

Definition add (req : Request) : Js unit :=
  let catwayData :=
    mkCatwayData (b_catwayNumber (body req)) (b_type (body req))
      (b_catwayState (body req)) (b_boatName (body req)) in
  try_catch
    (newCatway <- addCatway catwayData ;;
     res.redirect ("/catways?message=Catway " ++ Catway.boatName newCatway
                   ++ " a été créé avec succès"))
    (fun error =>
       if isValidationError error then
         res.status 400 ;; res.render "error/error" (errorMessages error)
       else if isDuplicateKey error then
         res.status 400 ;;
         res.render "error/error" (oneError "Ce numéro de catway existe déjà")
       else
         res.status 500 ;; res.json (internalServerError error)).

Definition renderAddforum (req : Request) : Js unit :=
  try_catch
    (res.status 200 ;; res.render "catways/add" VUndefined)
    (fun error =>
       res.status 500 ;; res.json (internalServerError error)).

Definition update (req : Request) : Js unit :=
  let id := param req "id" in
  try_catch
    (updatedCatway <- updateCatway id (body req) ;;
     match updatedCatway with
     | None => res.status 404 ;; res.json (VStr "Catway non trouvé")
     | Some updatedCatway =>
         res.status 200 ;;
         res.render "catways/edit"
           (VObj [("catway", VCatway updatedCatway);
                  ("message", VStr "Catway mis à jour avec succès")])
     end)
    (fun error =>
       if isValidationError error then
         res.status 400 ;; res.render "error/error" (errorMessages error)
       else
         res.status 500 ;; res.json (internalServerError error)).

Definition edit (req : Request) : Js unit :=
  let id := param req "id" in
  try_catch
    (catway <- getCatwayById id ;;
     match catway with
     | None =>
         res.status 404 ;; res.render "error/error" (oneError "Catway non trouvé")
     | Some catway =>
         res.render "catways/edit" (VObj [("catway", VCatway catway)])
     end)
    (fun error =>
       if isObjectIdKind error then
         res.status 400 ;;
         res.render "error/error" (oneError "Entrez un identifiant valide")
       else
         res.status 500 ;; res.json (internalServerError error)).

Definition delete (req : Request) : Js unit :=
  let id := param req "id" in
  try_catch
    (catway <- deleteCatway id ;;
     catway <- deref catway "null" "boatName" ;;
     let message :=
       "Catway " ++ Catway.boatName catway ++ " a été supprimé avec succès" in
     modify (set_session_message (Some message)) ;;
     referer <- deref (headers req !! "referer") "undefined" "includes" ;;
     if includes referer "dashboard" then
       res.status 200 ;; res.json (messageObj message)
     else
       res.status 200 ;; res.redirect ("/catways?message=" ++ message))
    (fun error =>
       if isObjectIdKind error then
         res.status 400 ;; res.json (VObj [("errorKind", optStr (err_kind error))])
       else
         res.status 500 ;; res.json (internalServerError error)).

End WithServices.
End catwaysController.

(** ** controllers/usersController *)

Record UserData := mkUserData {
  ud_name : option string;
  ud_email : option string;
  ud_password : option string
}.

(** [if (!!updateData[key]) { user[key] = updateData[key]; }] *)
Definition assignTruthy (new : option string) (old : string) : string :=
  match new with
  | Some s => if truthy s then s else old
  | None => old
  end.

Definition assignTruthyOpt (new : option string) (old : option string)
    : option string :=
  match new with
  | Some s => if truthy s then Some s else old
  | None => old
  end.

Module usersController.
Section WithServices.
Context `{Externals}.
Variable findUserById : string -> Js (option User.doc).
Variable addUser : UserData -> Js User.doc.
Variable deleteUser : string -> Js (option User.doc).
Variable getAllUsers : Js (list User.doc).
(** [user.save()] and [User.findOne] of the model *)
Variable save : User.doc -> Js User.doc.
Variable findOne : option string -> Js (option User.doc).

Definition getById (req : Request) : Js unit :=
  let id := param req "id" in
  try_catch
    (user <- findUserById id ;;
     match user with
     | Some user => res.status 200 ;; res.json (VUser user)
     | None => res.status 404 ;; res.json (messageObj "Utilisateur non trouvé")
     end)
    (fun error =>
       res.status 500 ;; res.json (internalServerError error)).

Definition add (req : Request) : Js unit :=
  let userData :=
    mkUserData (b_name (body req)) (b_email (body req)) (b_password (body req)) in
  try_catch
    (user <- addUser userData ;;
     res.render "dashboard/dashboard"
       (messageObj ("L'utilisateur " ++ User.name user ++ "a été créé avec succès")))
    (fun error =>
       if isValidationError error then
         res.status 400 ;; res.render "error/error" (errorMessages error)
       else if isDuplicateKey error then
         res.status 400 ;;
         res.render "error/error"
           (oneError "Cet email existe déjà dans notre base de données")
       else
         res.status 500 ;; res.json (internalServerError error)).

Definition renderCreationPage (req : Request) : Js unit :=
  res.render "users/create_user" VUndefined.

Definition update (req : Request) : Js unit :=
  let id := param req "id" in
  let updateData :=
    mkUserData (b_name (body req)) (b_email (body req)) (b_password (body req)) in
  try_catch
    (user <- findUserById id ;;
     match user with
     | Some user =>
         let user :=
           User.mk (User._id user)
             (assignTruthy (ud_name updateData) (User.name user))
             (assignTruthy (ud_email updateData) (User.email user))
             (assignTruthyOpt (ud_password updateData) (User.password user)) in
         user <- save user ;;
         res.status 200 ;;
         res.render "users/edit_user"
           (VObj [("user", VUser user);
                  ("message", VStr "L'utilisateur a été mis à jour avec succès")])
     | None => res.status 404 ;; res.json (VStr "Utilisateur non trouvé")
     end)
    (fun error =>
       if isValidationError error then
         res.status 400 ;; res.render "error/error" (errorMessages error)
       else
         res.status 501 ;; res.json (VError error)).

Definition edit (req : Request) : Js unit :=
  let id := param req "id" in
  try_catch
    (user <- findUserById id ;;
     match user with
     | None =>
         res.status 404 ;;
         res.render "error/error" (oneError "Utilisateur non trouvé")
     | Some user =>
         res.render "users/edit_user"
           (VObj [("user", VUser user); ("message", VNull)])
     end)
    (fun error =>
       if isObjectIdKind error then
         res.status 404 ;;
         res.render "error/error" (oneError "Entrez un identifiant valide")
       else
         res.status 501 ;; res.json (VError error)).

Definition delete (req : Request) : Js unit :=
  let id := param req "id" in
  try_catch
    (user <- deleteUser id ;;
     user <- deref user "null" "name" ;;
     res.render "dashboard/dashboard"
       (messageObj ("L'utilisateur " ++ User.name user
                    ++ " a été supprimé avec succès")))
    (fun error =>
       if isObjectIdKind error then
         res.status 400 ;; res.json (VObj [("errorKind", optStr (err_kind error))])
       else
         res.status 501 ;; res.json (VError error)).

(** The callback given to [bcrypt.compare] (lines 212-228). *)
Definition compareCallback (user : User.doc) (err : option string)
    (response : bool) : Js unit :=
  if response then
    (* delete user._doc.password *)
    let user := User.mk (User._id user) (User.name user) (User.email user) None in
    let expireIn := 24 * 60 * 60 in
    now <- gets clock ;;
    let token := jwt_sign (VObj [("user", VUser user)]) SECRET_KEY expireIn now in
    res.cookie "authToken" token true (expireIn * 1000) ;;
    res.render "dashboard/dashboard" VUndefined
  else
    match err with
    | Some err => throw (Error err)
    | None =>
        res.render "home/home"
          (messageObj "mot de passe erroné, veuillez réessayer.")
    end.

(** [bcrypt.compare] only schedules its callback: the callback runs on a
    later tick, when the [try] block of [authenticate] has already been
    left, so an exception thrown by the callback is not caught by the
    [catch] block and leaves the handler uncaught. *)
Definition authenticate (req : Request) : Js unit :=
  let email := b_email (body req) in
  let password := b_password (body req) in
  scheduled <-
    try_catch
      (user <- findOne email ;;
       match user with
       | Some user => ret (Some user)
       | None =>
           res.render "home/home"
             (messageObj "Identifiants erronés, veuillez réessayer.") ;;
           ret None
       end)
      (fun error =>
         res.status 501 ;; res.json (VError error) ;; ret None) ;;
  match scheduled with
  | Some user =>
      let '(err, response) := bcrypt_compare password (User.password user) in
      compareCallback user err response
  | None => ret tt
  end.

Definition getUsersList (req : Request) : Js unit :=
  try_catch
    (users <- getAllUsers ;;
     if Nat.eqb (length users) 0 then
       res.status 404 ;;
       res.render "dashboard/dashboard" (messageObj "Aucun utilisateur trouvé")
     else
       res.render "users/list_users" (VObj [("users", VArr (VUser <$> users))]))
    (fun error =>
       res.status 501 ;; res.json (VError error)).

End WithServices.
End usersController.

(** ** controllers/reservationsController *)

Module reservationsController.
Section WithServices.
Context `{Externals}.
Variable getAllCatways : Js (list Catway.doc).
Variable getCatwayById : string -> Js (option Catway.doc).
Variable getAllCatwayReservations : Z -> Js (list Reservation.doc).
Variable getAllReservation : Js (list Reservation.doc).
Variable creatReservation : ReservationData -> Js Reservation.doc.
Variable getReservationById : string -> Js (option Reservation.doc).
Variable deleteReservation : string -> Js (option Reservation.doc).

Definition getAllOfCatway (req : Request) : Js unit :=
  let catwayId := param req "id" in
  try_catch
    (catway <- getCatwayById catwayId ;;
     match catway with
     | None => res.status 404 ;; res.json (messageObj "Catway non trouvé")
     | Some catway =>
         reservations <- getAllCatwayReservations (Catway.catwayNumber catway) ;;
         if Nat.eqb (length reservations) 0 then
           res.status 404 ;; res.json (messageObj "Aucune réservation trouvée")
         else
           res.status 200 ;; res.json (VArr (VReservation <$> reservations))
     end)
    (fun error =>
       res.status 500 ;; res.json (internalServerError error)).

Definition getAll (req : Request) : Js unit :=
  try_catch
    (reservations <- getAllReservation ;;
     res.render "reservations/list"
       (VObj [("reservations", VArr (VReservation <$> reservations))]))
    (fun error =>
       res.status 500 ;; res.json (internalServerError error)).

Definition getbyId (req : Request) : Js unit :=
  let reservationId := param req "idReservation" in
  try_catch
    (reservation <- getReservationById reservationId ;;
     match reservation with
     | None =>
         res.status 404 ;;
         res.render "error/error" (oneError "Réservation non trouvée")
     | Some reservation =>
         res.status 200 ;;
         res.render "reservations/details"
           (VObj [("reservation", VReservation reservation)])
     end)
    (fun error =>
       if isObjectIdKind error then
         res.status 404 ;;
         res.render "error/error" (oneError "Entrez un identifiant valide")
       else
         res.status 500 ;; res.json (internalServerError error)).

Definition add (req : Request) : Js unit :=
  let catwayId := param req "id" in
  try_catch
    (catway <- getCatwayById catwayId ;;
     match catway with
     | None => res.status 404 ;; res.json (messageObj "Catway non trouvé")
     | Some catway =>
         let reservationData :=
           mkReservationData (Some (Catway.catwayNumber catway))
             (b_clientName (body req)) (Some (Catway.boatName catway))
             (b_checkIn (body req)) (b_checkOut (body req)) in
         reservation <- creatReservation reservationData ;;
         res.render "dashboard/dashboard"
           (messageObj ("La réservation du bateau "
                        ++ Reservation.boatName reservation
                        ++ " a été créée avec succès"))
     end)
    (fun error =>
       if isValidationError error then
         res.status 400 ;; res.render "error/error" (errorMessages error)
       else
         res.status 500 ;; res.json (internalServerError error)).

Definition renderAddForm (req : Request) : Js unit :=
  try_catch
    (catways <- getAllCatways ;;
     if Nat.eqb (length catways) 0 then
       res.status 404 ;;
       res.render "catways/list"
         (VObj [("catways", VArr []); ("message", VStr "Aucun catway trouvé")])
     else
       res.render "reservations/add"
         (VObj [("catways", VArr (VCatway <$> catways))]))
    (fun error =>
       res.status 500 ;; res.json (internalServerError error)).

Definition delete (req : Request) : Js unit :=
  let idReservation := param req "idReservation" in
  try_catch
    (reservation <- deleteReservation idReservation ;;
     reservation <- deref reservation "null" "boatName" ;;
     let message :=
       "La réservation du bateau " ++ Reservation.boatName reservation
       ++ ", le " ++ dateToString (Reservation.checkIn reservation)
       ++ " a été supprimée avec succès" in
     modify (set_session_message (Some message)) ;;
     referer <- deref (headers req !! "referer") "undefined" "includes" ;;
     if includes referer "dashboard" then
       res.status 200 ;; res.json (messageObj message)
     else
       res.status 200 ;; res.redirect ("/dashboard?message=" ++ message))
    (fun error =>
       if isObjectIdKind error then
         res.status 400 ;; res.json (VObj [("errorKind", optStr (err_kind error))])
       else
         res.status 500 ;; res.json (internalServerError error)).

End WithServices.
End reservationsController.

(** ** The application as it is wired: controllers over the Mongoose-backed
    services *)

Module app.
Section WithExternals.
Context `{Externals}.

Definition catways_add : Request -> Js unit :=
  catwaysController.add catwayService.addCatway.

Definition catways_delete : Request -> Js unit :=
  catwaysController.delete catwayService.deleteCatway.

Definition users_delete : Request -> Js unit :=
  usersController.delete userService.deleteUser.

Definition users_authenticate : Request -> Js unit :=
  usersController.authenticate UserModel.findOne.

Definition reservations_add : Request -> Js unit :=
  reservationsController.add catwayService.getCatwayById
    reservationService.creatReservation.

Definition reservations_delete : Request -> Js unit :=
  reservationsController.delete reservationService.deleteReservation.

End WithExternals.
End app.

(** ** controllers/homeController and controllers/dashboardController *)

Module homeController.

Definition renderHome (req : Request) : Js unit :=
  res.render "home/home" (VObj [("message", VNull)]).

End homeController.

Module dashboardController.

(** The message left in the session by a deletion is shown once:
    [const message = req.session.message; delete req.session.message;]. *)
Definition renderDashboard (req : Request) : Js unit :=
  message <- gets session_message ;;
  modify (set_session_message None) ;;
  res.render "dashboard/dashboard" (VObj [("message", optStr message)]).

Definition renderEditUserWid (req : Request) : Js unit :=
  res.render "dashboard/editUserWid" VUndefined.

Definition renderDeleteUserWid (req : Request) : Js unit :=
  res.render "dashboard/deleteUserWid" VUndefined.

Definition renderEditCatwayWid (req : Request) : Js unit :=
  res.render "dashboard/editCatwayWid" VUndefined.

Definition renderDeleteCatwayWid (req : Request) : Js unit :=
  res.render "dashboard/deleteCatwayWid" VUndefined.

Definition renderGetCatwayDetailsWid (req : Request) : Js unit :=
  res.render "dashboard/getCatwayDetailsWid" VUndefined.

Definition renderGetReservationDetailsWid (req : Request) : Js unit :=
  res.render "dashboard/getReservationDetailsWid" VUndefined.

Definition renderDeleteReservationWid (req : Request) : Js unit :=
  res.render "dashboard/deleteReservationWid" VUndefined.

End dashboardController.

(** ** The other controllers over the services of the repository, and the
    routes *)

Module server.
Section WithExternals.
Context `{Externals}.

Definition catways_getAll : Request -> Js unit :=
  catwaysController.getAll catwayService.getAllCatways.

Definition catways_getById : Request -> Js unit :=
  catwaysController.getById catwayService.getCatwayById.

Definition catways_edit : Request -> Js unit :=
  catwaysController.edit catwayService.getCatwayById.

Definition reservations_getAllOfCatway : Request -> Js unit :=
  reservationsController.getAllOfCatway catwayService.getCatwayById
    reservationService.getAllCatwayReservations.

Definition reservations_getAll : Request -> Js unit :=
  reservationsController.getAll reservationService.getAllReservation.

Definition reservations_getbyId : Request -> Js unit :=
  reservationsController.getbyId reservationService.getReservationById.

Definition reservations_renderAddForm : Request -> Js unit :=
  reservationsController.renderAddForm catwayService.getAllCatways.

Definition users_getById : Request -> Js unit :=
  usersController.getById userService.findUserById.

Definition users_edit : Request -> Js unit :=
  usersController.edit userService.findUserById.

(** services/users exports [addUser], [findUserById], [updateUser] and
    [deleteUser], and no [getAllUsers]: the call
    [userService.getAllUsers()] made by [getUsersList] is the call of
    [undefined]. *)
Definition userService_getAllUsers : Js (list User.doc) :=
  throw (TypeError "userService.getAllUsers is not a function").

Definition users_getUsersList : Request -> Js unit :=
  usersController.getUsersList userService_getAllUsers.

(** [router.METHOD(path, middleware, handler)]: Express runs the handler
    when, and only when, the middleware calls [next()].  [checkJWT] calls
    [next()] as its last statement, so running the handler after the
    middleware has returned is running it inside that call. *)
Definition route (middleware handler : Request -> Js unit) (req : Request)
    : Js unit :=
  before <- gets nextCalls ;;
  middleware req ;;
  after <- gets nextCalls ;;
  if Nat.ltb before after then handler req else ret tt.

(** routes/dashboard, routes/catways and routes/reservations put every
    handler behind [privateMiddleware.checkJWT]. *)
Definition protected (handler : Request -> Js unit) : Request -> Js unit :=
  route Private.checkJWT handler.

End WithExternals.
End server.

(** The world as the next request of the same session finds it: the
    collections, the clock and the session are kept; the response and
    [req.user] are new. *)
Definition nextRequest (w : World) : World :=
  mkWorld (users w) (catways w) (reservations w) (clock w) (idCounter w)
    (session_message w) VUndefined 200 [] None 0.

(** ** Regular expressions of the schemas

    The anchored regular expressions that the validators of the user schema
    test, as terms, with their matcher (by derivatives) and the language
    they denote. *)

Inductive regex :=
| Void
| Eps
| Class (p : ascii -> bool)
| Cat (r1 r2 : regex)
| Alt (r1 r2 : regex)
| Star (r : regex).

(** [r+], [r?] *)
Definition Plus (r : regex) : regex := Cat r (Star r).
Definition Opt (r : regex) : regex := Alt Eps r.

Fixpoint nullable (r : regex) : bool :=
  match r with
  | Void => false
  | Eps => true
  | Class _ => false
  | Cat r1 r2 => nullable r1 && nullable r2
  | Alt r1 r2 => nullable r1 || nullable r2
  | Star _ => true
  end.

Fixpoint deriv (c : ascii) (r : regex) : regex :=
  match r with
  | Void => Void
  | Eps => Void
  | Class p => if p c then Eps else Void
  | Cat r1 r2 =>
      if nullable r1 then Alt (Cat (deriv c r1) r2) (deriv c r2)
      else Cat (deriv c r1) r2
  | Alt r1 r2 => Alt (deriv c r1) (deriv c r2)
  | Star r1 => Cat (deriv c r1) (Star r1)
  end.

(** [/^r$/.test(s)] *)
Fixpoint test (r : regex) (s : string) : bool :=
  match s with
  | EmptyString => nullable r
  | String c s' => test (deriv c r) s'
  end.

Inductive lang : regex -> string -> Prop :=
| lang_eps : lang Eps EmptyString
| lang_class p c : p c = true -> lang (Class p) (String c EmptyString)
| lang_cat r1 r2 s t : lang r1 s -> lang r2 t -> lang (Cat r1 r2) (s ++ t)
| lang_alt_l r1 r2 s : lang r1 s -> lang (Alt r1 r2) s
| lang_alt_r r1 r2 s : lang r2 s -> lang (Alt r1 r2) s
| lang_star_nil r : lang (Star r) EmptyString
| lang_star_cons r s t : lang r s -> lang (Star r) t -> lang (Star r) (s ++ t).

Definition isDigit (c : ascii) : bool :=
  let n := nat_of_ascii c in Nat.leb 48 n && Nat.leb n 57.

(** [\w] *)
Definition isWord (c : ascii) : bool :=
  isLetter c || isDigit c || Ascii.eqb c "_".

(** [[\w-\.]] and [[\w-]] *)
Definition isLocalChar (c : ascii) : bool :=
  isWord c || Ascii.eqb c "-" || Ascii.eqb c ".".

Definition isLabelChar (c : ascii) : bool := isWord c || Ascii.eqb c "-".

Definition isChar (c : ascii) : ascii -> bool := Ascii.eqb c.

(** [/^[A-Za-z]+$/] *)
Definition nameRegex : regex := Plus (Class isLetter).

(** [/^[\w-\.]+@([\w-]+\.)+[\w-]{2,4}$/] *)
Definition emailRegex : regex :=
  Cat (Plus (Class isLocalChar))
    (Cat (Class (isChar "@"))
       (Cat (Plus (Cat (Plus (Class isLabelChar)) (Class (isChar "."))))
          (Cat (Class isLabelChar)
             (Cat (Class isLabelChar)
                (Opt (Cat (Class isLabelChar) (Opt (Class isLabelChar)))))))).

(** ** models/user *)

Module userSchema.

Definition name (v : option string) : string + string :=
  match trim <$> v with
  | None => inl "Le nom est obligatoire"
  | Some s =>
      if negb (truthy s) then inl "Le nom est obligatoire"
      else if Nat.ltb (jsLength s) 3
      then inl "Le nom doit comporter au moins 3 caractères"
      else if Nat.ltb 50 (jsLength s)
      then inl "Le nom ne peut pas dépasser 50 caractères"
      else if test nameRegex s then inr s
      else inl (s ++ " n'est pas valide ! Le nom ne doit contenir que des lettres.")
  end.

Definition email (v : option string) : string + string :=
  match trim <$> v with
  | None => inl "L'email est obligatoire"
  | Some s =>
      if negb (truthy s) then inl "L'email est obligatoire"
      else if test emailRegex s then inr s
      else inl (s ++ " n'est pas une adresse email valide !")
  end.

Definition password (v : option string) : string + string :=
  match trim <$> v with
  | None => inl "Le mot de passe est requis"
  | Some s =>
      if negb (truthy s) then inl "Le mot de passe est requis"
      else if Nat.ltb (jsLength s) 6
      then inl "Le mot de passe doit comporter au moins 6 caractères"
      else inr s
  end.

Definition validate (d : UserData)
    : list (string * string) + (string * string * string) :=
  match name (ud_name d), email (ud_email d), password (ud_password d) with
  | inr n, inr e, inr p => inr (n, e, p)
  | rn, re, rp =>
      inl (pathError "name" rn ++ pathError "email" re
           ++ pathError "password" rp)%list
  end.

Section WithHash.
(** [bcrypt.hash(s, 10)]: the salt is drawn anew at each call. *)
Variable bcrypt_hash : option string -> nat -> Js string.

(** [userSchema.pre('save', ...)]: the password is hashed when it has been
    modified, and only then; an error of the hashing is passed to
    [next]. *)
Definition preSave (isModified_password : bool) (user : User.doc)
    : Js User.doc :=
  if negb isModified_password then ret user
  else
    hashedPassword <- bcrypt_hash (User.password user) 10 ;;
    ret (User.mk (User._id user) (User.name user) (User.email user)
           (Some hashedPassword)).

End WithHash.
End userSchema.

Module userCreation.
Section WithExternals.
Context `{Externals}.
Variable bcrypt_hash : option string -> nat -> Js string.

(** services/users [addUser]: [new User(userData).save()].  The document
    is validated, then the hook hashes the password, then the document is
    inserted, which the unique index on [email] rejects with code 11000
    when the email is already stored. *)
Definition addUser (userData : UserData) : Js User.doc :=
  match userSchema.validate userData with
  | inl errs => throw (ValidationError errs)
  | inr (n, e, p) =>
      id <- Mongoose.newId ;;
      newUser <- userSchema.preSave bcrypt_hash true
                   (User.mk id n e (Some p)) ;;
      us <- gets users ;;
      if existsb (fun u => String.eqb (User.email u) e) us
      then throw (DuplicateKeyError "email")
      else
        modify (set_users (us ++ [newUser])%list) ;;
        ret newUser
  end.

Definition users_add : Request -> Js unit :=
  usersController.add addUser.

End WithExternals.
End userCreation.

(** * Properties *)

(** ** Notions used in the statements *)

(** The stored user that [authenticate] loads for a request, if any. *)
Definition storedUser (req : Request) (w : World) : option User.doc :=
  match b_email (body req) with
  | Some e => find (fun u => String.eqb (User.email u) e) (users w)
  | None => None
  end.

(** The two failures of a login: the email matches no stored user, or it
    matches one and the hash comparison answers [false] without error. *)
Definition unknownEmail (req : Request) (w : World) : Prop :=
  storedUser req w = None.

Definition wrongPassword `{Externals} (req : Request) (w : World) : Prop :=
  exists user,
    storedUser req w = Some user /\
    bcrypt_compare (b_password (body req)) (User.password user) = (None, false).

(** An error that is neither a validation failure, nor a duplicate key,
    nor a malformed identifier. *)
Definition UnexpectedFailure (error : JsError) : Prop :=
  isValidationError error = false /\
  isDuplicateKey error = false /\
  isObjectIdKind error = false.

(** The handler [h] answers with status [code] and the JSON body [b], and
    completes normally, whenever the service calls [calls] that it makes
    throw [error]. *)
Definition mapsFailure {A} (calls : Js A) (h : Js unit) (error : JsError)
    (code : Z) (b : JsVal) : Prop :=
  forall w w1,
    calls w = (Throw error, w1) ->
    completion h w = Normal tt /\
    statusCode (exec h w) = code /\
    sent (exec h w) = Some (Json b).

(** Every operation of the catways controller answers [code] and [b] when
    its service call throws [error]. *)
Definition catwaysOperationsAnswer (error : JsError) (req : Request)
    (code : Z) (b : JsVal) : Prop :=
  (forall getAllCatways,
     mapsFailure getAllCatways (catwaysController.getAll getAllCatways req)
       error code b) /\
  (forall getCatwayById,
     mapsFailure (getCatwayById (param req "id"))
       (catwaysController.getById getCatwayById req) error code b) /\
  (forall addCatway,
     mapsFailure
       (addCatway (mkCatwayData (b_catwayNumber (body req)) (b_type (body req))
                     (b_catwayState (body req)) (b_boatName (body req))))
       (catwaysController.add addCatway req) error code b) /\
  (forall updateCatway,
     mapsFailure (updateCatway (param req "id") (body req))
       (catwaysController.update updateCatway req) error code b) /\
  (forall getCatwayById,
     mapsFailure (getCatwayById (param req "id"))
       (catwaysController.edit getCatwayById req) error code b) /\
  (forall deleteCatway,
     mapsFailure (deleteCatway (param req "id"))
       (catwaysController.delete deleteCatway req) error code b).

(** The same for the reservations controller; [getAllOfCatway] and [add]
    make two service calls, either of which may throw. *)
Definition reservationsOperationsAnswer `{Externals} (error : JsError)
    (req : Request) (code : Z) (b : JsVal) : Prop :=
  (forall getCatwayById getAllCatwayReservations,
     mapsFailure
       (catway <- getCatwayById (param req "id") ;;
        match catway with
        | Some catway =>
            getAllCatwayReservations (Catway.catwayNumber catway) ;; ret tt
        | None => ret tt
        end)
       (reservationsController.getAllOfCatway getCatwayById
          getAllCatwayReservations req) error code b) /\
  (forall getAllReservation,
     mapsFailure getAllReservation
       (reservationsController.getAll getAllReservation req) error code b) /\
  (forall getReservationById,
     mapsFailure (getReservationById (param req "idReservation"))
       (reservationsController.getbyId getReservationById req) error code b) /\
  (forall getCatwayById creatReservation,
     mapsFailure
       (catway <- getCatwayById (param req "id") ;;
        match catway with
        | Some catway =>
            creatReservation
              (mkReservationData (Some (Catway.catwayNumber catway))
                 (b_clientName (body req)) (Some (Catway.boatName catway))
                 (b_checkIn (body req)) (b_checkOut (body req))) ;;
            ret tt
        | None => ret tt
        end)
       (reservationsController.add getCatwayById creatReservation req)
       error code b) /\
  (forall getAllCatways,
     mapsFailure getAllCatways
       (reservationsController.renderAddForm getAllCatways req) error code b) /\
  (forall deleteReservation,
     mapsFailure (deleteReservation (param req "idReservation"))
       (reservationsController.delete deleteReservation req) error code b).

(** The users controller, in two groups: [getById] and [add], and
    [update], [edit], [delete] and [getUsersList]. *)
Definition usersGetByIdAddAnswer (error : JsError) (req : Request)
    (code : Z) (b : JsVal) : Prop :=
  (forall findUserById,
     mapsFailure (findUserById (param req "id"))
       (usersController.getById findUserById req) error code b) /\
  (forall addUser,
     mapsFailure
       (addUser (mkUserData (b_name (body req)) (b_email (body req))
                   (b_password (body req))))
       (usersController.add addUser req) error code b).

Definition usersUpdateEditDeleteListAnswer (error : JsError) (req : Request)
    (code : Z) (b : JsVal) : Prop :=
  (forall findUserById save,
     mapsFailure
       (user <- findUserById (param req "id") ;;
        match user with
        | Some user =>
            save (User.mk (User._id user)
                    (assignTruthy (b_name (body req)) (User.name user))
                    (assignTruthy (b_email (body req)) (User.email user))
                    (assignTruthyOpt (b_password (body req))
                       (User.password user))) ;;
            ret tt
        | None => ret tt
        end)
       (usersController.update findUserById save req) error code b) /\
  (forall findUserById,
     mapsFailure (findUserById (param req "id"))
       (usersController.edit findUserById req) error code b) /\
  (forall deleteUser,
     mapsFailure (deleteUser (param req "id"))
       (usersController.delete deleteUser req) error code b) /\
  (forall getAllUsers,
     mapsFailure getAllUsers
       (usersController.getUsersList getAllUsers req) error code b).

(** [a > b] and [a < now] on dates that may be missing: a comparison with
    [undefined] is false. *)
Definition dateAfter (a b : option Z) : Prop :=
  match a, b with
  | Some x, Some y => y < x
  | _, _ => False
  end.

Definition dateBefore (a : option Z) (now : Z) : Prop :=
  match a with
  | Some x => x < now
  | None => False
  end.

(** The fields of a reservation other than its two dates are valid. *)
Definition otherFieldsValid (d : ReservationData) (n : Z) (c b : string)
    : Prop :=
  reservationSchema.catwayNumber (rd_catwayNumber d) = inr n /\
  reservationSchema.clientName (rd_clientName d) = inr c /\
  reservationSchema.boatName (rd_boatName d) = inr b.

(** The catway data that [add] reads from the body of a request. *)
Definition catwayDataOf (req : Request) : CatwayData :=
  mkCatwayData (b_catwayNumber (body req)) (b_type (body req))
    (b_catwayState (body req)) (b_boatName (body req)).

(** The catway numbers held by the store. *)
Definition catwayNumbers (w : World) : list Z :=
  Catway.catwayNumber <$> catways w.

(** ** Test doubles

    Concrete collaborators and requests on which the general theorems are
    exercised, in the way the repository's tests replace the services by
    stubs. *)

Definition isHexDigit (c : ascii) : bool :=
  let n := nat_of_ascii c in
  (Nat.leb 48 n && Nat.leb n 57) || (Nat.leb 97 n && Nat.leb n 102)
  || (Nat.leb 65 n && Nat.leb n 70).

Fixpoint allHex (s : string) : bool :=
  match s with
  | EmptyString => true
  | String c r => isHexDigit c && allHex r
  end.

Definition hexDigit (n : nat) : ascii :=
  if Nat.ltb n 10 then ascii_of_nat (48 + n) else ascii_of_nat (87 + n).

Definition stubToken : string := "eyJhbGciOiJIUzI1NiJ9.eyJ1c2VyIjoiYWRtaW4ifQ.c2ln".

Definition stubExternals : Externals := {|
  SECRET_KEY := "secret";
  jwt_sign := fun _ _ _ _ => stubToken;
  jwt_verify := fun token _ _ =>
    if String.eqb token stubToken
    then JwtDecoded (VObj [("user", VStr "admin"); ("exp", VNum 86400)])
    else JwtError (mkError "JsonWebTokenError" "invalid token" None None []);
  bcrypt_compare := fun s hash =>
    match s, hash with
    | Some s, Some h => (None, String.eqb ("$2a$10$" ++ s) h)
    | _, _ => (Some "Illegal arguments: undefined, string", false)
    end;
  isValidObjectId := fun id => Nat.eqb (String.length id) 24 && allHex id;
  newObjectId := fun n =>
    "6500000000000000000000"
    ++ String (hexDigit (Nat.modulo (Nat.div n 16) 16))
         (String (hexDigit (Nat.modulo n 16)) EmptyString);
  dateToString := fun _ => "Thu Jan 01 1970"
|}.

Definition withCookie (token : string) : Request :=
  mkRequest ∅ ∅ emptyBody {[ "authToken" := VStr token ]} ∅.

(** A request whose cookie cookie-parser read as JSON, as it does for
    [Cookie: authToken=j:{"a":1}]. *)
Definition withJsonCookie (v : JsVal) : Request :=
  mkRequest ∅ ∅ emptyBody {[ "authToken" := v ]} ∅.

Definition noCookie : Request := mkRequest ∅ ∅ emptyBody ∅ ∅.

Definition stubUser : User.doc :=
  User.mk "60c72b2f9f1b2c001c9a9e84" "Alice" "alice@example.com"
    (Some "$2a$10$sesame").

Definition loginRequest (email password : option string) : Request :=
  mkRequest ∅ ∅
    (mkBody None None None None None None None None email password) ∅ ∅.

(** Services that throw, as [sinon.stub(...).throws(new Error('Error'))]. *)
Definition throwingFind : string -> Js (option User.doc) :=
  fun _ => throw (Error "Error").

Definition sameSave : User.doc -> Js User.doc := fun user => ret user.

Definition requestFor (id : string) : Request :=
  mkRequest {[ "id" := id ]} ∅ emptyBody ∅ ∅.

Definition stubReservation (checkIn checkOut : Z) : ReservationData :=
  mkReservationData (Some 7) (Some "John Doe") (Some "Seahorse")
    (Some checkIn) (Some checkOut).

Definition catwayRequest (n : Z) (type state boat : string) : Request :=
  mkRequest ∅ ∅
    (mkBody (Some n) (Some type) (Some state) (Some boat) None None None None
       None None) ∅ ∅.

Definition stubCatway : Catway.doc :=
  Catway.mk "60c72b2f9f1b2c001c9a9e84" 101 "long" "available" "Serenity".

Definition stubStay : Reservation.doc :=
  Reservation.mk "60c72b2f9f1b2c001c9a9e85" 101 "John Doe" "Serenity"
    2000 3000.

(** A DELETE request for the given identifiers, without a referer. *)
Definition deleteRequest (id idReservation : string) : Request :=
  mkRequest {[ "id" := id; "idReservation" := idReservation ]} ∅ emptyBody ∅ ∅.

(** A DELETE request carrying a cookie and a referer. *)
Definition deleteRequestWith (id idReservation : string)
    (cookie referer : option string) : Request :=
  mkRequest {[ "id" := id; "idReservation" := idReservation ]} ∅ emptyBody
    (match cookie with Some c => {[ "authToken" := VStr c ]} | None => ∅ end)
    (match referer with Some r => {[ "referer" := r ]} | None => ∅ end).

(** Catway data as a form submits them. *)
Definition catwayDataStub : CatwayData :=
  mkCatwayData (Some 101) (Some " long ") (Some "available") (Some "Serenity").

(** A falsy field of a form: missing or empty. *)
Definition falsy (o : option string) : Prop := o = None \/ o = Some EmptyString.

(** A POST request for a reservation on the catway [id]. *)
Definition reservationRequest (id : string) (client : string) (boat : string)
    (checkIn checkOut : Z) : Request :=
  mkRequest {[ "id" := id ]} ∅
    (mkBody (Some 999) None None (Some boat) (Some client) (Some checkIn)
       (Some checkOut) None None None) ∅ ∅.

(** Stubs of [findUserById] and [user.save()]. *)
Definition findNobody : string -> Js (option User.doc) := fun _ => ret None.

Definition findAlice : string -> Js (option User.doc) :=
  fun _ => ret (Some stubUser).

Definition throwingSave : User.doc -> Js User.doc :=
  fun _ => throw (Error "save must not be called").

(** Every character of a string satisfies [p]. *)
(** U+00A0, the no-break space, and U+FEFF, the byte order mark: white
    space of more than one byte. *)
Definition nbsp : string :=
  String (ascii_of_nat 194) (String (ascii_of_nat 160) EmptyString).

Definition bom : string :=
  String (ascii_of_nat 239)
    (String (ascii_of_nat 187) (String (ascii_of_nat 191) EmptyString)).

(** U+1F600, a character outside the Basic Multilingual Plane, and its low
    surrogate U+DE00. *)
Definition grinning : string :=
  String (ascii_of_nat 240)
    (String (ascii_of_nat 159)
       (String (ascii_of_nat 152) (String (ascii_of_nat 128) EmptyString))).

Definition grinningLow : string :=
  String (ascii_of_nat 237)
    (String (ascii_of_nat 184) (String (ascii_of_nat 128) EmptyString)).

(** [u] is the encoding of one character that is one code unit: a
    character of one, two or three bytes. *)
Definition oneUnit (u : string) : bool :=
  match u with
  | String a EmptyString => isAscii a
  | String a (String b EmptyString) => Nat.eqb (followers a) 1 && isCont b
  | String a (String b (String c EmptyString)) =>
      Nat.eqb (followers a) 2 && isCont b && isCont c
  | _ => false
  end.

Fixpoint allChars (p : ascii -> bool) (s : string) : bool :=
  match s with
  | EmptyString => true
  | String c r => p c && allChars p r
  end.

(** The labels of a domain, each followed by a dot. *)
Fixpoint dotted (labels : list string) : string :=
  match labels with
  | [] => EmptyString
  | l :: rest => l ++ "." ++ dotted rest
  end.

(** A label of a domain: not empty, made of word characters and
    hyphens. *)
Definition labelOk (l : string) : Prop :=
  l <> EmptyString /\ allChars isLabelChar l = true.

(** The number of occurrences of a character. *)
Fixpoint occurrences (c : ascii) (s : string) : nat :=
  match s with
  | EmptyString => 0
  | String x r => ((if Ascii.eqb c x then 1 else 0) + occurrences c r)%nat
  end.

(** The user data that [add] reads from the body of a request. *)
Definition userDataOf (req : Request) : UserData :=
  mkUserData (b_name (body req)) (b_email (body req)) (b_password (body req)).

(** Some stored user has the email [e]. *)
Definition emailStored (e : string) (w : World) : bool :=
  existsb (fun u => String.eqb (User.email u) e) (users w).

(** A sign-up form. *)
Definition signupRequest (name email password : string) : Request :=
  mkRequest ∅ ∅
    (mkBody None None None None None None None (Some name) (Some email)
       (Some password)) ∅ ∅.

(** A stub of [bcrypt.hash] in keeping with the stub of [bcrypt.compare]. *)
Definition stubHash : option string -> nat -> Js string :=
  fun s _ =>
    match s with
    | Some s => ret ("$2a$10$" ++ s)
    | None => throw (Error "Illegal arguments: undefined, number")
    end.

Definition throwingHash : option string -> nat -> Js string :=
  fun _ _ => throw (Error "hash must not be called").

(** ** Reasoning about handlers *)

Ltac js_unfold :=
  unfold exec, completion, res.status, res.render, res.json, res.redirect,
    res.cookie, next, deref, try_catch, bind, ret, throw, gets, modify in *.

Ltac conjuncts := repeat match goal with |- _ /\ _ => split end.

(** The tests of a catch block on an unexpected failure all answer no. *)
Ltac unexpected He :=
  let Hv := fresh "Hv" in
  let Hd := fresh "Hd" in
  let Ho := fresh "Ho" in
  pose proof He as (Hv & Hd & Ho);
  rewrite ?Hv, ?Hd, ?Ho; simpl; auto.

(** One service call that throws. *)
Ltac failing_call He :=
  let w := fresh "w" in
  let w1 := fresh "w1" in
  let Hcall := fresh "Hcall" in
  intros w w1 Hcall; js_unfold; rewrite Hcall; simpl; unexpected He.

(** Two service calls in sequence, either of which throws. *)
Ltac failing_calls He :=
  let w := fresh "w" in
  let w1 := fresh "w1" in
  let Hcall := fresh "Hcall" in
  let Hfirst := fresh "Hfirst" in
  let Hsecond := fresh "Hsecond" in
  intros w w1 Hcall; js_unfold;
  match type of Hcall with
  | context [match ?first w with _ => _ end] =>
      destruct (first w) as [[[?|]|?] ?] eqn:Hfirst; simpl in *;
      [ match type of Hcall with
        | context [match ?second with _ => _ end] =>
            destruct second as [[?|?] ?] eqn:Hsecond; simpl in *;
            [ discriminate Hcall
            | injection Hcall as -> ->; simpl; unexpected He ]
        end
      | discriminate Hcall
      | injection Hcall as -> ->; simpl; unexpected He ]
  end.

Lemma toLowerCase_app (a b : string) :
  toLowerCase (a ++ b) = toLowerCase a ++ toLowerCase b.
Proof.
  induction a as [| c a IH]; simpl; [reflexivity | now rewrite IH].
Qed.

Lemma toLowerCase_length (s : string) :
  String.length (toLowerCase s) = String.length s.
Proof.
  induction s as [| c s IH]; simpl; [reflexivity | now rewrite IH].
Qed.

Lemma lowerAscii_isAscii (c : ascii) :
  isAscii (lowerAscii c) = true -> isAscii c = true.
Proof.
  unfold lowerAscii, isAscii.
  destruct (Nat.leb_spec 65 (nat_of_ascii c)); simpl; [| auto].
  destruct (Nat.leb_spec (nat_of_ascii c) 90); simpl; [| auto].
  intros _. apply Nat.ltb_lt. lia.
Qed.

Lemma toLowerCase_isAscii (s : string) :
  allChars isAscii (toLowerCase s) = true -> allChars isAscii s = true.
Proof.
  induction s as [| c s IH]; simpl; [reflexivity |].
  intros [Hc Hs]%andb_true_iff.
  now rewrite (lowerAscii_isAscii _ Hc), (IH Hs).
Qed.

Lemma isAscii_lead (c : ascii) :
  isAscii c = true -> isCont c = false /\ followers c = 0%nat.
Proof.
  unfold isAscii, isCont, followers. intros Hc%Nat.ltb_lt. split.
  - destruct (Nat.leb_spec 128 (nat_of_ascii c)); [lia | reflexivity].
  - destruct (Nat.ltb_spec (nat_of_ascii c) 192); [reflexivity | lia].
Qed.

Lemma dropUnits_zero (t : string) : dropUnits 0 0 t = t.
Proof. destruct t; reflexivity. Qed.

(** A character of one byte is one code unit. *)
Lemma dropUnits_ascii (c : ascii) (n : nat) (r : string) :
  isAscii c = true -> dropUnits 0 (S n) (String c r) = dropUnits 0 n r.
Proof.
  intros [_ Hf]%isAscii_lead. cbn [dropUnits]. now rewrite Hf.
Qed.

Lemma dropUnits_allAscii (p t : string) (n : nat) :
  allChars isAscii p = true ->
  dropUnits 0 (String.length p + n) (p ++ t) = dropUnits 0 n t.
Proof.
  induction p as [| c p IH]; [reflexivity |].
  cbn [allChars]. intros [Hc Hp]%andb_true_iff.
  change (dropUnits 0 (S (String.length p + n)) (String c (p ++ t))
          = dropUnits 0 n t).
  rewrite (dropUnits_ascii _ _ _ Hc). exact (IH Hp).
Qed.

(** What follows [n] characters of one byte each. *)
Lemma sliceFrom_ascii (p t : string) (n : nat) :
  String.length p = n -> allChars isAscii p = true ->
  sliceFrom (p ++ t) n = t.
Proof.
  intros <- Hp. unfold sliceFrom.
  rewrite <- (Nat.add_0_r (String.length p)).
  rewrite (dropUnits_allAscii _ _ _ Hp). apply dropUnits_zero.
Qed.

(** Any casing of an ASCII literal is made of characters of one byte. *)
Lemma casing_isAscii (p q : string) :
  toLowerCase p = q -> allChars isAscii q = true ->
  String.length p = String.length q /\ allChars isAscii p = true.
Proof.
  intros <- Hq. split.
  - symmetry. apply toLowerCase_length.
  - now apply toLowerCase_isAscii.
Qed.

(** A cookie made of any casing of ['Bearer '] followed by [t] is stripped
    to exactly [t]. *)
Lemma stripBearer_prefixed (p t : string) :
  toLowerCase p = "bearer " -> Private.stripBearer (p ++ t) = t.
Proof.
  intros Hp.
  destruct (casing_isAscii _ _ Hp eq_refl) as [Hlen Hascii].
  unfold Private.stripBearer, startsWith.
  rewrite toLowerCase_app, Hp.
  replace (truthy (p ++ t)) with true
    by (destruct p; [discriminate Hlen | reflexivity]).
  simpl. now apply sliceFrom_ascii.
Qed.

(** Lengths are counted in code units, not in bytes. *)
Example jsLength_code_units :
  jsLength "été" = 3%nat /\ String.length "été" = 5%nat /\
  jsLength grinning = 2%nat /\ jsLength ("a" ++ nbsp ++ "b") = 3%nat.
Proof. repeat split. Qed.

(** [trim] removes white space of any length in bytes, at both ends only. *)
Example trim_white_space :
  trim (nbsp ++ " Al " ++ bom) = "Al" /\
  trim ("  a" ++ nbsp ++ "b  ") = "a" ++ nbsp ++ "b" /\
  trim (" " ++ nbsp) = EmptyString /\
  trim "é " = "é".
Proof. repeat split. Qed.

(** A cut after code units: a character of two bytes goes as one, and a
    cut inside a surrogate pair leaves the low surrogate. *)
Example sliceFrom_code_units :
  sliceFrom "bearer€abc" 7 = "abc" /\
  sliceFrom ("bearer" ++ grinning ++ "abc") 8 = "abc" /\
  sliceFrom ("bearer" ++ grinning ++ "abc") 7 = grinningLow ++ "abc" /\
  sliceFrom "bear" 7 = EmptyString.
Proof. repeat split. Qed.

(** A token that does not itself begin with ['bearer'] is left alone. *)
Lemma stripBearer_plain (t : string) :
  startsWith (toLowerCase t) "bearer" = false -> Private.stripBearer t = t.
Proof.
  intros Ht. unfold Private.stripBearer. rewrite Ht.
  now rewrite andb_false_r.
Qed.

Section Gate.
Context `{Externals}.

Lemma checkJWT_no_cookie (req : Request) (w : World) :
  cookies req !! "authToken" = None ->
  Private.checkJWT req w =
    (Normal tt,
     set_sent (Rendered "error/error"
                 (oneError "Connectez vous pour acc√©der a cette page"))
       (set_statusCode 401 w)).
Proof.
  intros Hc. unfold Private.checkJWT. rewrite Hc. reflexivity.
Qed.

(** What the gate does with a cookie, in terms of the token left after
    the prefix has been stripped. *)
Lemma checkJWT_cookie (req : Request) (w : World) (c : string) :
  cookies req !! "authToken" = Some (VStr c) ->
  Private.checkJWT req w =
    if truthy (Private.stripBearer c) then
      match jwt_verify (Private.stripBearer c) SECRET_KEY (clock w) with
      | JwtError _ =>
          (Normal tt,
           set_sent (Json (VStr "token_not_valid")) (set_statusCode 401 w))
      | JwtDecoded decoded =>
          (Normal tt, count_next (set_req_user (getProp decoded "user") w))
      end
    else
      (Normal tt,
       set_sent (Rendered "error/error"
                   (oneError "Connectez vous pour acc√©der a cette page"))
         (set_statusCode 401 w)).
Proof.
  intros Hc. unfold Private.checkJWT. rewrite Hc. cbn [from_option id].
  destruct (truthy (Private.stripBearer c)); [| reflexivity].
  js_unfold. simpl.
  destruct (jwt_verify (Private.stripBearer c) SECRET_KEY (clock w));
    reflexivity.
Qed.

(** A value that is truthy and not a string has no [toLowerCase]: the
    exception leaves the gate before anything is written. *)
Lemma checkJWT_not_a_string (req : Request) (w : World) (v : JsVal) :
  cookies req !! "authToken" = Some v ->
  jsTruthy v = true ->
  isString v = false ->
  Private.checkJWT req w =
    (Throw (TypeError "token.toLowerCase is not a function"), w).
Proof.
  intros Hc Ht Hs. unfold Private.checkJWT. rewrite Hc. cbn [from_option id].
  destruct v; try discriminate Ht; try discriminate Hs;
    try (rewrite Ht; reflexivity); reflexivity.
Qed.

(** C1.  The gate does not answer every request whose token is invalid.
    When [req.cookies.authToken] is a truthy value that is not a string
    (cookie-parser turns a cookie that begins with [j:] into the JSON value
    it encodes: an object, an array, a number, [true]), the call of
    [toLowerCase] on line 132 throws a TypeError that nothing catches: the
    status code is untouched, no response is sent, [next] is not called
    and [req.user] is not set.  The documentation of the function promises
    a 401 for a token that is not valid. *)
Theorem checkJWT_json_cookie_uncaught (req : Request) (w : World)
    (v : JsVal) :
  cookies req !! "authToken" = Some v ->
  jsTruthy v = true ->
  isString v = false ->
  completion (Private.checkJWT req) w
    = Throw (TypeError "token.toLowerCase is not a function") /\
  let w' := exec (Private.checkJWT req) w in
  statusCode w' = statusCode w /\ sent w' = sent w /\
  nextCalls w' = nextCalls w /\ req_user w' = req_user w.
Proof.
  intros Hc Ht Hs. cbv zeta. unfold completion, exec.
  rewrite (checkJWT_not_a_string _ _ _ Hc Ht Hs). simpl. auto.
Qed.

(** The gate on a request whose [authToken] cookie is absent or a string.
    Without the cookie the response is 401; with a cookie whose token
    (after the prefix has been stripped) is empty or fails verification the
    response is 401; in both cases [next] is not called and [req.user] is
    untouched.  With a token that verifies, no response is sent, [next] is
    called exactly once and [req.user] is the [user] claim of the decoded
    payload. *)
Lemma checkJWT_gate (req : Request) (w : World) :
  let w' := exec (Private.checkJWT req) w in
  (cookies req !! "authToken" = None ->
     statusCode w' = 401 /\ is_Some (sent w') /\
     nextCalls w' = nextCalls w /\ req_user w' = req_user w) /\
  (forall c,
     cookies req !! "authToken" = Some (VStr c) ->
     truthy (Private.stripBearer c) = false \/
     (exists err,
        jwt_verify (Private.stripBearer c) SECRET_KEY (clock w) = JwtError err) ->
     statusCode w' = 401 /\ is_Some (sent w') /\
     nextCalls w' = nextCalls w /\ req_user w' = req_user w) /\
  (forall c decoded,
     cookies req !! "authToken" = Some (VStr c) ->
     truthy (Private.stripBearer c) = true ->
     jwt_verify (Private.stripBearer c) SECRET_KEY (clock w) = JwtDecoded decoded ->
     nextCalls w' = S (nextCalls w) /\
     req_user w' = getProp decoded "user" /\
     sent w' = sent w /\ statusCode w' = statusCode w).
Proof.
  cbv zeta. unfold exec. split; [| split].
  - intros Hc. rewrite (checkJWT_no_cookie _ _ Hc). simpl. eauto 10.
  - intros c Hc Hbad. rewrite (checkJWT_cookie _ _ _ Hc).
    destruct (truthy (Private.stripBearer c)) eqn:Ht.
    + destruct Hbad as [Hf | [err Herr]]; [discriminate |].
      rewrite Herr. simpl. eauto 10.
    + simpl. eauto 10.
  - intros c decoded Hc Ht Hv.
    rewrite (checkJWT_cookie _ _ _ Hc), Ht, Hv. simpl. auto.
Qed.

End Gate.

Section BearerPrefix.
Context `{Externals}.

(** Whatever follows a ['Bearer '] prefix, in any casing, is the token the
    gate verifies. *)
Lemma checkJWT_prefixed (req : Request) (w : World) (p t : string) :
  toLowerCase p = "bearer " ->
  cookies req !! "authToken" = Some (VStr (p ++ t)) ->
  Private.checkJWT req w =
    if truthy t then
      match jwt_verify t SECRET_KEY (clock w) with
      | JwtError _ =>
          (Normal tt,
           set_sent (Json (VStr "token_not_valid")) (set_statusCode 401 w))
      | JwtDecoded decoded =>
          (Normal tt, count_next (set_req_user (getProp decoded "user") w))
      end
    else
      (Normal tt,
       set_sent (Rendered "error/error"
                   (oneError "Connectez vous pour acc√©der a cette page"))
         (set_statusCode 401 w)).
Proof.
  intros Hp Hc. rewrite (checkJWT_cookie _ _ _ Hc).
  now rewrite (stripBearer_prefixed _ _ Hp).
Qed.

(** C4 (amended).  For a token [t] that does not itself begin with
    ['bearer'] (in any casing), a cookie holding [t] behind the prefix
    ['Bearer '] in any casing and a cookie holding [t] alone give the same
    outcome of the gate: same completion, same response, same [req.user],
    same number of calls of [next]. *)
Theorem bearer_prefix_same_outcome (req1 req2 : Request) (w : World)
    (p t : string) :
  toLowerCase p = "bearer " ->
  startsWith (toLowerCase t) "bearer" = false ->
  cookies req1 !! "authToken" = Some (VStr (p ++ t)) ->
  cookies req2 !! "authToken" = Some (VStr t) ->
  Private.checkJWT req1 w = Private.checkJWT req2 w.
Proof.
  intros Hp Ht H1 H2.
  rewrite (checkJWT_prefixed _ _ _ _ Hp H1), (checkJWT_cookie _ _ _ H2).
  now rewrite (stripBearer_plain _ Ht).
Qed.

(** A token that verifies, presented behind ['bearer '] and behind
    ['Bearer bearer ']: with a verifier that rejects the token behind its
    own prefix (the compact serialization of a JWT has no space in it), the
    first cookie is accepted and the second is rejected. *)
Lemma checkJWT_prefixed_twice (req1 req2 : Request) (w : World) (j : string)
    (err : JsError) (decoded : JsVal) :
  truthy j = true ->
  jwt_verify ("bearer " ++ j) SECRET_KEY (clock w) = JwtError err ->
  jwt_verify j SECRET_KEY (clock w) = JwtDecoded decoded ->
  cookies req1 !! "authToken" = Some (VStr ("Bearer " ++ "bearer " ++ j)) ->
  cookies req2 !! "authToken" = Some (VStr ("bearer " ++ j)) ->
  nextCalls (exec (Private.checkJWT req1) w) = nextCalls w /\
  nextCalls (exec (Private.checkJWT req2) w) = S (nextCalls w).
Proof.
  intros Hj Herr Hok H1 H2. unfold exec.
  rewrite (checkJWT_prefixed req1 w "Bearer " ("bearer " ++ j) eq_refl H1).
  rewrite (checkJWT_prefixed req2 w "bearer " j eq_refl H2).
  rewrite Hj, Herr, Hok. simpl. auto.
Qed.

End BearerPrefix.

Lemma bearer_prefix_same_outcome_witness :
  @Private.checkJWT stubExternals (withCookie ("BeArEr " ++ stubToken))
    (arriving [] [] [] 0)
  = @Private.checkJWT stubExternals (withCookie stubToken)
      (arriving [] [] [] 0).
Proof.
  apply (@bearer_prefix_same_outcome stubExternals
           (withCookie ("BeArEr " ++ stubToken)) (withCookie stubToken)
           (arriving [] [] [] 0) "BeArEr " stubToken);
    reflexivity.
Defined.

(** C4 as stated fails for a token that itself begins with ['bearer']: the
    gate strips one prefix from either cookie, so the cookie
    ['Bearer bearer <jwt>'] is verified as ['bearer <jwt>'] (rejected)
    while the cookie ['bearer <jwt>'] is verified as ['<jwt>']
    (accepted). *)
Lemma bearer_prefix_counterexample :
  ~ (forall (E : Externals) (p t : string) (w : World),
       toLowerCase p = "bearer " ->
       @Private.checkJWT E (withCookie (p ++ t)) w
       = @Private.checkJWT E (withCookie t) w).
Proof.
  intros Hall.
  specialize (Hall stubExternals "Bearer " ("bearer " ++ stubToken)
                (arriving [] [] [] 0) eq_refl).
  vm_compute in Hall. discriminate Hall.
Qed.

Lemma checkJWT_gate_witness :
  let w := arriving [] [] [] 0 in
  statusCode (exec (@Private.checkJWT stubExternals noCookie) w) = 401 /\
  statusCode (exec (@Private.checkJWT stubExternals (withCookie "garbage")) w)
  = 401 /\
  nextCalls (exec (@Private.checkJWT stubExternals (withCookie stubToken)) w)
  = 1%nat.
Proof.
  cbv zeta. split; [| split].
  - apply (@checkJWT_gate stubExternals noCookie (arriving [] [] [] 0)).
    reflexivity.
  - destruct (@checkJWT_gate stubExternals (withCookie "garbage")
                (arriving [] [] [] 0)) as (_ & Hbad & _).
    apply (Hbad "garbage"); [reflexivity |].
    right. eexists. reflexivity.
  - destruct (@checkJWT_gate stubExternals (withCookie stubToken)
                (arriving [] [] [] 0)) as (_ & _ & Hok).
    apply (Hok stubToken (VObj [("user", VStr "admin"); ("exp", VNum 86400)]));
      reflexivity.
Defined.

Lemma checkJWT_json_cookie_uncaught_witness :
  let req := withJsonCookie (VObj [("a", VNum 1)]) in
  let w := arriving [] [] [] 0 in
  completion (@Private.checkJWT stubExternals req) w
    = Throw (TypeError "token.toLowerCase is not a function") /\
  statusCode (exec (@Private.checkJWT stubExternals req) w) = 200 /\
  sent (exec (@Private.checkJWT stubExternals req) w) = None /\
  nextCalls (exec (@Private.checkJWT stubExternals req) w) = 0%nat.
Proof.
  cbv zeta.
  destruct (@checkJWT_json_cookie_uncaught stubExternals
              (withJsonCookie (VObj [("a", VNum 1)])) (arriving [] [] [] 0)
              (VObj [("a", VNum 1)]) eq_refl eq_refl eq_refl)
    as (Hthrow & Hstatus & Hsent & Hnext & _).
  split; [exact Hthrow |]. split; [exact Hstatus |].
  split; [exact Hsent | exact Hnext].
Defined.

Section Authenticate.
Context `{Externals}.

Lemma findOne_storedUser (req : Request) (w : World) :
  UserModel.findOne (b_email (body req)) w = (Normal (storedUser req w), w).
Proof. reflexivity. Qed.

(** [authenticate] once the user lookup is known. *)
Lemma authenticate_found (req : Request) (w : World) (user : User.doc) :
  storedUser req w = Some user ->
  app.users_authenticate req w =
    usersController.compareCallback user
      (fst (bcrypt_compare (b_password (body req)) (User.password user)))
      (snd (bcrypt_compare (b_password (body req)) (User.password user))) w.
Proof.
  intros Hu.
  unfold app.users_authenticate, usersController.authenticate, try_catch, bind.
  rewrite findOne_storedUser, Hu. simpl.
  now destruct (bcrypt_compare _ _).
Qed.

Lemma authenticate_not_found (req : Request) (w : World) :
  storedUser req w = None ->
  app.users_authenticate req w =
    (Normal tt,
     set_sent (Rendered "home/home"
                 (messageObj "Identifiants erronés, veuillez réessayer.")) w).
Proof.
  intros Hu.
  unfold app.users_authenticate, usersController.authenticate, try_catch, bind.
  rewrite findOne_storedUser, Hu. reflexivity.
Qed.

(** C3. When the email matches a stored user and the hash comparison
    answers [true], [authenticate] signs the payload [{ user }] in which
    [user] is the stored record without its password, with a lifetime of
    24 hours (86400 seconds); it sets exactly one cookie, [authToken],
    HTTP-only, holding that token, whose max-age (in milliseconds) is the
    same 24 hours; and it renders the dashboard. *)
Theorem authenticate_issues_token (req : Request) (w : World)
    (user : User.doc) (err : option string) :
  storedUser req w = Some user ->
  bcrypt_compare (b_password (body req)) (User.password user) = (err, true) ->
  let w' := exec (app.users_authenticate req) w in
  let claim := User.mk (User._id user) (User.name user) (User.email user) None in
  let ttl := 86400 in
  let token := jwt_sign (VObj [("user", VUser claim)]) SECRET_KEY ttl (clock w) in
  In user (users w) /\
  completion (app.users_authenticate req) w = Normal tt /\
  setCookies w' = (setCookies w ++ [mkCookie "authToken" token true (ttl * 1000)])%list /\
  sent w' = Some (Rendered "dashboard/dashboard" VUndefined) /\
  statusCode w' = statusCode w.
Proof.
  intros Hu Hc. cbv zeta. unfold exec, completion.
  rewrite (authenticate_found _ _ _ Hu), Hc. simpl.
  split; [| repeat split; reflexivity].
  unfold storedUser in Hu. destruct (b_email (body req)); [| discriminate].
  apply find_some in Hu. tauto.
Qed.

(** C2 (amended).  The two failures of a login give the same status (the
    one the response had, 200), the same view ['home/home'] and no
    cookie, but not the same message: an unknown email is answered with
    'Identifiants erronés, veuillez réessayer.' and a wrong password with
    'mot de passe erroné, veuillez réessayer.'. *)
Theorem authenticate_failure_responses (req : Request) (w : World) :
  let w' := exec (app.users_authenticate req) w in
  (unknownEmail req w ->
     sent w' = Some (Rendered "home/home"
                       (messageObj "Identifiants erronés, veuillez réessayer.")) /\
     statusCode w' = statusCode w /\ setCookies w' = setCookies w) /\
  (wrongPassword req w ->
     sent w' = Some (Rendered "home/home"
                       (messageObj "mot de passe erroné, veuillez réessayer.")) /\
     statusCode w' = statusCode w /\ setCookies w' = setCookies w).
Proof.
  cbv zeta. unfold exec. split.
  - intros Hu. rewrite (authenticate_not_found _ _ Hu). auto.
  - intros (user & Hu & Hc). rewrite (authenticate_found _ _ _ Hu), Hc. auto.
Qed.

(** C6 (the code at the failing input).  When the email matches a stored
    user and the hash comparison reports an error, the exception thrown by
    the callback leaves [authenticate] uncaught: the handler completes
    abruptly and the response is left as it was, nothing is sent. *)
Theorem authenticate_hash_error_uncaught (req : Request) (w : World)
    (user : User.doc) (err : string) :
  storedUser req w = Some user ->
  bcrypt_compare (b_password (body req)) (User.password user)
  = (Some err, false) ->
  app.users_authenticate req w = (Throw (Error err), w).
Proof.
  intros Hu Hc. now rewrite (authenticate_found _ _ _ Hu), Hc.
Qed.

End Authenticate.

Lemma authenticate_issues_token_witness :
  let req := loginRequest (Some "alice@example.com") (Some "sesame") in
  let w := arriving [stubUser] [] [] 0 in
  setCookies (exec (@app.users_authenticate stubExternals req) w)
  = [mkCookie "authToken" stubToken true 86400000] /\
  sent (exec (@app.users_authenticate stubExternals req) w)
  = Some (Rendered "dashboard/dashboard" VUndefined).
Proof.
  cbv zeta.
  destruct (@authenticate_issues_token stubExternals
              (loginRequest (Some "alice@example.com") (Some "sesame"))
              (arriving [stubUser] [] [] 0) stubUser None
              eq_refl eq_refl) as (_ & _ & Hcookie & Hsent & _).
  split; [exact Hcookie | exact Hsent].
Defined.

Lemma authenticate_failure_responses_witness :
  let w := arriving [stubUser] [] [] 0 in
  sent (exec (@app.users_authenticate stubExternals
                (loginRequest (Some "bob@example.com") (Some "sesame"))) w)
  = Some (Rendered "home/home"
            (messageObj "Identifiants erronés, veuillez réessayer.")) /\
  sent (exec (@app.users_authenticate stubExternals
                (loginRequest (Some "alice@example.com") (Some "guess"))) w)
  = Some (Rendered "home/home"
            (messageObj "mot de passe erroné, veuillez réessayer.")).
Proof.
  cbv zeta. split.
  - destruct (@authenticate_failure_responses stubExternals
                (loginRequest (Some "bob@example.com") (Some "sesame"))
                (arriving [stubUser] [] [] 0)) as (Hunknown & _).
    apply Hunknown. reflexivity.
  - destruct (@authenticate_failure_responses stubExternals
                (loginRequest (Some "alice@example.com") (Some "guess"))
                (arriving [stubUser] [] [] 0)) as (_ & Hwrong).
    apply Hwrong. exists stubUser. split; reflexivity.
Defined.

(** C2 as stated fails: an unknown email and a wrong password are answered
    with different messages. *)
Lemma authenticate_failures_distinguishable :
  ~ (forall (E : Externals) (req1 req2 : Request) (w : World),
       unknownEmail req1 w \/ @wrongPassword E req1 w ->
       unknownEmail req2 w \/ @wrongPassword E req2 w ->
       sent (exec (@app.users_authenticate E req1) w)
       = sent (exec (@app.users_authenticate E req2) w)).
Proof.
  intros Hall.
  specialize (Hall stubExternals
                (loginRequest (Some "bob@example.com") (Some "sesame"))
                (loginRequest (Some "alice@example.com") (Some "guess"))
                (arriving [stubUser] [] [] 0)).
  assert (Hsame : _) by
    (apply Hall; [left; reflexivity | right; exists stubUser; split; reflexivity]).
  vm_compute in Hsame. discriminate Hsame.
Qed.

Lemma authenticate_hash_error_uncaught_witness :
  let req := loginRequest (Some "alice@example.com") None in
  let w := arriving [stubUser] [] [] 0 in
  @app.users_authenticate stubExternals req w
  = (Throw (Error "Illegal arguments: undefined, string"), w).
Proof.
  cbv zeta.
  apply (@authenticate_hash_error_uncaught stubExternals
           (loginRequest (Some "alice@example.com") None)
           (arriving [stubUser] [] [] 0) stubUser
           "Illegal arguments: undefined, string");
    reflexivity.
Defined.

(** ** The status of an unexpected failure *)

Section UnexpectedFailures.
Context `{Externals}.
Variable error : JsError.
Hypothesis Herror : UnexpectedFailure error.
Variable req : Request.

Lemma catways_unexpected :
  catwaysOperationsAnswer error req 500 (internalServerError error).
Proof.
  unfold catwaysOperationsAnswer, catwaysController.getAll,
    catwaysController.getById, catwaysController.add,
    catwaysController.update, catwaysController.edit,
    catwaysController.delete.
  conjuncts; intros service; failing_call Herror.
Qed.

Lemma reservations_unexpected :
  reservationsOperationsAnswer error req 500 (internalServerError error).
Proof.
  unfold reservationsOperationsAnswer, reservationsController.getAllOfCatway,
    reservationsController.getAll, reservationsController.getbyId,
    reservationsController.add, reservationsController.renderAddForm,
    reservationsController.delete.
  conjuncts.
  - intros first second. failing_calls Herror.
  - intros service. failing_call Herror.
  - intros service. failing_call Herror.
  - intros first second. failing_calls Herror.
  - intros service. failing_call Herror.
  - intros service. failing_call Herror.
Qed.

Lemma users_getById_add_unexpected :
  usersGetByIdAddAnswer error req 500 (internalServerError error).
Proof.
  unfold usersGetByIdAddAnswer, usersController.getById, usersController.add.
  conjuncts; intros service; failing_call Herror.
Qed.

Lemma users_others_unexpected :
  usersUpdateEditDeleteListAnswer error req 501 (VError error).
Proof.
  unfold usersUpdateEditDeleteListAnswer, usersController.update,
    usersController.edit, usersController.delete, usersController.getUsersList.
  conjuncts.
  - intros first second. failing_calls Herror.
  - intros service. failing_call Herror.
  - intros service. failing_call Herror.
  - intros service. failing_call Herror.
Qed.

End UnexpectedFailures.

(** C5 (amended).  An unexpected failure (an error that is neither a
    validation failure, nor a duplicate key, nor a malformed identifier)
    thrown by a service call is answered with status 500 and the body
    [{ message: 'Internal Server Error', error }] by every operation of the
    catways and reservations controllers and by [getById] and [add] of the
    users controller; [update], [edit], [delete] and [getUsersList] of the
    users controller answer it with status 501 and the error object itself
    as the body. *)
Theorem unexpected_failure_status `{Externals} (error : JsError)
    (req : Request) :
  UnexpectedFailure error ->
  catwaysOperationsAnswer error req 500 (internalServerError error) /\
  reservationsOperationsAnswer error req 500 (internalServerError error) /\
  usersGetByIdAddAnswer error req 500 (internalServerError error) /\
  usersUpdateEditDeleteListAnswer error req 501 (VError error).
Proof.
  intros Herror.
  split; [now apply catways_unexpected |].
  split; [now apply reservations_unexpected |].
  split; [now apply users_getById_add_unexpected |].
  now apply users_others_unexpected.
Qed.

Lemma unexpected_failure_status_witness :
  let req := requestFor "60c72b2f9f1b2c001c9a9e84" in
  let w := arriving [] [] [] 0 in
  statusCode (exec (catwaysController.getAll (throw (Error "Error")) req) w)
  = 500 /\
  statusCode (exec (usersController.update throwingFind sameSave req) w)
  = 501.
Proof.
  cbv zeta.
  destruct (@unexpected_failure_status stubExternals (Error "Error")
              (requestFor "60c72b2f9f1b2c001c9a9e84"))
    as (Hcatways & _ & _ & Husers).
  { repeat split. }
  split.
  - destruct Hcatways as (HgetAll & _).
    apply (HgetAll (throw (Error "Error")) (arriving [] [] [] 0)
             (arriving [] [] [] 0)).
    reflexivity.
  - destruct Husers as (Hupdate & _).
    apply (Hupdate throwingFind sameSave (arriving [] [] [] 0)
             (arriving [] [] [] 0)).
    reflexivity.
Defined.

(** C5 as stated fails: the update of a user answers an unexpected failure
    of its service with status 501. *)
Lemma unexpected_failure_not_always_500 :
  ~ (forall (error : JsError) (req : Request)
            (findUserById : string -> Js (option User.doc))
            (save : User.doc -> Js User.doc) (w w1 : World),
       UnexpectedFailure error ->
       findUserById (param req "id") w = (Throw error, w1) ->
       statusCode (exec (usersController.update findUserById save req) w)
       = 500).
Proof.
  intros Hall.
  specialize (Hall (Error "Error") (requestFor "60c72b2f9f1b2c001c9a9e84")
                throwingFind sameSave (arriving [] [] [] 0)
                (arriving [] [] [] 0)).
  assert (Hstatus : _) by (apply Hall; [repeat split | reflexivity]).
  vm_compute in Hstatus. discriminate Hstatus.
Qed.

(** ** Reservation dates *)

Section ReservationDates.
Context `{Externals}.

Lemma validate_date_failure (now : Z) (d : ReservationData) (m : string) :
  reservationSchema.checkIn now (rd_checkIn d) = inl m \/
  reservationSchema.checkOut (rd_checkIn d) (rd_checkOut d) = inl m ->
  exists errs, errs <> [] /\ reservationSchema.validate now d = inl errs.
Proof.
  intros Hfail. unfold reservationSchema.validate.
  destruct (reservationSchema.catwayNumber (rd_catwayNumber d)),
    (reservationSchema.clientName (rd_clientName d)),
    (reservationSchema.boatName (rd_boatName d)),
    (reservationSchema.checkIn now (rd_checkIn d)),
    (reservationSchema.checkOut (rd_checkIn d) (rd_checkOut d));
    try (destruct Hfail; discriminate);
    eexists; (split; [| reflexivity]); simpl; discriminate.
Qed.

Lemma dates_rejected (now : Z) (d : ReservationData) :
  ~ dateAfter (rd_checkOut d) (rd_checkIn d) \/ dateBefore (rd_checkIn d) now ->
  exists m,
    reservationSchema.checkIn now (rd_checkIn d) = inl m \/
    reservationSchema.checkOut (rd_checkIn d) (rd_checkOut d) = inl m.
Proof.
  unfold dateAfter, dateBefore, reservationSchema.checkIn,
    reservationSchema.checkOut.
  destruct (rd_checkIn d) as [i |], (rd_checkOut d) as [o |]; simpl;
    intros Hbad; try (eexists; left; reflexivity).
  - destruct (Z.leb_spec now i); [| eexists; left; reflexivity].
    destruct (Z.ltb_spec i o); [| eexists; right; reflexivity].
    destruct Hbad; [tauto | lia].
  - destruct (Z.leb_spec now i); eexists; [right | left]; reflexivity.
Qed.

(** C7.  A reservation whose check-out is not strictly after its check-in,
    or whose check-in is before the time of creation, is rejected with a
    validation error and the store is left as it was.  A reservation whose
    check-out is strictly after its check-in and whose check-in is not
    before the time of creation is created, provided its other fields are
    valid: the new document is returned and appended to the store. *)
Theorem reservation_dates (d : ReservationData) (w : World) :
  (~ dateAfter (rd_checkOut d) (rd_checkIn d) \/
   dateBefore (rd_checkIn d) (clock w) ->
   exists errs,
     errs <> [] /\
     reservationService.creatReservation d w = (Throw (ValidationError errs), w)) /\
  (forall n c b,
     otherFieldsValid d n c b ->
     dateAfter (rd_checkOut d) (rd_checkIn d) ->
     ~ dateBefore (rd_checkIn d) (clock w) ->
     exists r,
       completion (reservationService.creatReservation d) w = Normal r /\
       reservations (exec (reservationService.creatReservation d) w)
       = (reservations w ++ [r])%list /\
       Some (Reservation.checkIn r) = rd_checkIn d /\
       Some (Reservation.checkOut r) = rd_checkOut d /\
       Reservation.catwayNumber r = n /\ Reservation.clientName r = c /\
       Reservation.boatName r = b).
Proof.
  split.
  - intros Hbad.
    destruct (dates_rejected (clock w) d Hbad) as (m & Hm).
    destruct (validate_date_failure (clock w) d m Hm) as (errs & Hne & Hv).
    exists errs. split; [exact Hne |].
    unfold reservationService.creatReservation. js_unfold. simpl.
    now rewrite Hv.
  - intros n c b (Hn & Hc & Hb) Hafter Hnow.
    unfold dateAfter, dateBefore in *.
    destruct (rd_checkIn d) as [i |] eqn:Hi, (rd_checkOut d) as [o |] eqn:Ho;
      try contradiction.
    exists (Reservation.mk (newObjectId (idCounter w)) n c b i o).
    unfold reservationService.creatReservation, reservationSchema.validate,
      reservationSchema.checkIn, reservationSchema.checkOut, Mongoose.newId.
    js_unfold. simpl. rewrite Hn, Hc, Hb, Hi, Ho.
    destruct (Z.leb_spec (clock w) i); [| lia].
    destruct (Z.ltb_spec i o); [| lia].
    simpl. repeat split.
Qed.

(** The same rejection seen through the controller: for a stored catway,
    [add] answers a reservation with such dates with status 400 and the
    messages of the failing validators, and stores nothing. *)
Lemma reservations_add_rejects_dates (req : Request) (w : World)
    (catway : Catway.doc) :
  isValidObjectId (param req "id") = true ->
  findDoc Catway._id (param req "id") (catways w) = Some catway ->
  ~ dateAfter (b_checkOut (body req)) (b_checkIn (body req)) \/
  dateBefore (b_checkIn (body req)) (clock w) ->
  let w' := exec (app.reservations_add req) w in
  statusCode w' = 400 /\
  reservations w' = reservations w /\
  exists errs,
    errs <> [] /\
    sent w' = Some (Rendered "error/error"
                      (errorMessages (ValidationError errs))).
Proof.
  intros Hid Hcatway Hbad. cbv zeta.
  set (d := mkReservationData (Some (Catway.catwayNumber catway))
              (b_clientName (body req)) (Some (Catway.boatName catway))
              (b_checkIn (body req)) (b_checkOut (body req))).
  destruct (dates_rejected (clock w) d Hbad) as (m & Hm).
  destruct (validate_date_failure (clock w) d m Hm) as (errs & Hne & Hv).
  unfold app.reservations_add, reservationsController.add,
    catwayService.getCatwayById, reservationService.creatReservation,
    Mongoose.castId.
  js_unfold. rewrite Hid. simpl. rewrite Hcatway. simpl.
  fold d. rewrite Hv. simpl.
  split; [reflexivity |]. split; [reflexivity |].
  exists errs. split; [exact Hne | reflexivity].
Qed.

End ReservationDates.

Lemma reservation_dates_witness :
  let w := arriving [] [] [] 1000 in
  (exists errs,
     errs <> [] /\
     @reservationService.creatReservation stubExternals
       (stubReservation 2000 2000) w = (Throw (ValidationError errs), w)) /\
  (exists r,
     completion (@reservationService.creatReservation stubExternals
                   (stubReservation 2000 3000)) w = Normal r /\
     Reservation.checkOut r = 3000).
Proof.
  cbv zeta. split.
  - destruct (@reservation_dates stubExternals (stubReservation 2000 2000)
                (arriving [] [] [] 1000)) as (Hreject & _).
    apply Hreject. left. simpl. lia.
  - destruct (@reservation_dates stubExternals (stubReservation 2000 3000)
                (arriving [] [] [] 1000)) as (_ & Haccept).
    destruct (Haccept 7 "John Doe" "Seahorse") as (r & Hr & _ & _ & Ho & _).
    + repeat split.
    + simpl. lia.
    + simpl. lia.
    + exists r. split; [exact Hr |]. simpl in Ho. now injection Ho.
Defined.

(** ** Uniqueness of catway numbers *)

Section CatwayNumbers.
Context `{Externals}.

Lemma existsb_catwayNumber (n : Z) (cs : list Catway.doc) :
  existsb (fun c => Catway.catwayNumber c =? n)%Z cs = true
  <-> In n (Catway.catwayNumber <$> cs).
Proof.
  induction cs as [| c cs IH]; simpl.
  - split; [discriminate | tauto].
  - rewrite orb_true_iff, IH, Z.eqb_eq. tauto.
Qed.

Lemma addCatway_fresh (d : CatwayData) (w : World) (n : Z) (t s b : string) :
  catwaySchema.validate d = inr (n, t, s, b) ->
  ~ In n (catwayNumbers w) ->
  catwayService.addCatway d w =
    let newCatway := Catway.mk (newObjectId (idCounter w)) n t s b in
    (Normal newCatway,
     set_catways (catways w ++ [newCatway])%list (bump_idCounter w)).
Proof.
  intros Hv Hfresh. unfold catwayService.addCatway. rewrite Hv.
  unfold Mongoose.newId. js_unfold. simpl.
  destruct (existsb _ (catways w)) eqn:Hex; [| reflexivity].
  apply existsb_catwayNumber in Hex. contradiction.
Qed.

Lemma addCatway_duplicate (d : CatwayData) (w : World) (n : Z) (t s b : string) :
  catwaySchema.validate d = inr (n, t, s, b) ->
  In n (catwayNumbers w) ->
  catwayService.addCatway d w = (Throw (DuplicateKeyError "catwayNumber"), w).
Proof.
  intros Hv Hin. unfold catwayService.addCatway. rewrite Hv.
  js_unfold. simpl.
  apply existsb_catwayNumber in Hin. unfold catwayNumbers in *.
  now rewrite Hin.
Qed.

Lemma addCatway_invalid (d : CatwayData) (w : World) errs :
  catwaySchema.validate d = inl errs ->
  catwayService.addCatway d w = (Throw (ValidationError errs), w).
Proof.
  intros Hv. unfold catwayService.addCatway. now rewrite Hv.
Qed.

Lemma NoDup_snoc_fresh (n : Z) (l : list Z) :
  NoDup l -> ~ In n l -> NoDup (l ++ [n]).
Proof.
  intros Hl Hn. apply NoDup_app. split; [exact Hl |].
  split; [| apply NoDup_singleton].
  intros x Hx Hx'. apply list_elem_of_In in Hx, Hx'.
  destruct Hx' as [<- | []]. contradiction.
Qed.

(** The unique index at work: whatever the data, [addCatway] keeps the
    stored catway numbers free of duplicates. *)
Lemma addCatway_NoDup (d : CatwayData) (w : World) :
  NoDup (catwayNumbers w) ->
  NoDup (catwayNumbers (exec (catwayService.addCatway d) w)).
Proof.
  intros Hw. unfold exec.
  destruct (catwaySchema.validate d) as [errs | [[[n t] s] b]] eqn:Hv.
  - now rewrite (addCatway_invalid _ _ _ Hv).
  - destruct (in_dec Z.eq_dec n (catwayNumbers w)) as [Hin | Hfresh].
    + now rewrite (addCatway_duplicate _ _ _ _ _ _ Hv Hin).
    + rewrite (addCatway_fresh _ _ _ _ _ _ Hv Hfresh). simpl.
      unfold catwayNumbers. simpl. rewrite fmap_app. simpl.
      now apply NoDup_snoc_fresh.
Qed.

(** Deleting a catway keeps them free of duplicates as well. *)
Lemma removeDoc_NoDup (id : string) (cs : list Catway.doc) :
  NoDup (Catway.catwayNumber <$> cs) ->
  NoDup (Catway.catwayNumber <$> removeDoc Catway._id id cs).
Proof.
  induction cs as [| c cs IH]; simpl; [auto |].
  intros Hnd. apply NoDup_cons in Hnd as [Hc Hcs].
  destruct (String.eqb (Catway._id c) id); [exact Hcs |].
  simpl. apply NoDup_cons. split; [| auto].
  intros Hin. apply Hc. clear -Hin.
  induction cs as [| c' cs IH]; simpl in *; [exact Hin |].
  destruct (String.eqb (Catway._id c') id).
  - now right.
  - simpl in Hin. apply elem_of_cons in Hin as [-> | Hin].
    + now left.
    + right. auto.
Qed.

Lemma catways_add_response (req : Request) (w : World) :
  app.catways_add req w =
    match catwayService.addCatway (catwayDataOf req) w with
    | (Normal newCatway, w1) =>
        (Normal tt,
         set_sent (Redirected ("/catways?message=Catway "
                               ++ Catway.boatName newCatway
                               ++ " a été créé avec succès"))
           (set_statusCode 302 w1))
    | (Throw error, w1) =>
        if isValidationError error then
          (Normal tt,
           set_sent (Rendered "error/error" (errorMessages error))
             (set_statusCode 400 w1))
        else if isDuplicateKey error then
          (Normal tt,
           set_sent (Rendered "error/error"
                       (oneError "Ce numéro de catway existe déjà"))
             (set_statusCode 400 w1))
        else
          (Normal tt,
           set_sent (Json (internalServerError error)) (set_statusCode 500 w1))
    end.
Proof.
  unfold app.catways_add, catwaysController.add, catwayDataOf. js_unfold.
  destruct (catwayService.addCatway _ w) as [[c | e] w1]; [reflexivity |].
  destruct (isValidationError e); [reflexivity |].
  destruct (isDuplicateKey e); reflexivity.
Qed.

End CatwayNumbers.

(** C8.  Two creations with the same catway number and valid fields, one
    after the other on the same store.  The first succeeds when the number
    is not stored yet: the catway is appended and the client is redirected
    to the list.  The second is rejected by the unique index with the
    duplicate-key error (code 11000), which [add] answers with status 400
    and the message 'Ce numéro de catway existe déjà', leaving the store as
    it was.  The stored catway numbers are free of duplicates after each
    of the two operations. *)
Theorem duplicate_catwayNumber `{Externals} (req1 req2 : Request) (w : World)
    (n : Z) (t1 s1 b1 t2 s2 b2 : string) :
  catwaySchema.validate (catwayDataOf req1) = inr (n, t1, s1, b1) ->
  catwaySchema.validate (catwayDataOf req2) = inr (n, t2, s2, b2) ->
  NoDup (catwayNumbers w) ->
  let w1 := exec (app.catways_add req1) w in
  let w2 := exec (app.catways_add req2) w1 in
  (~ In n (catwayNumbers w) ->
     catways w1
     = (catways w ++ [Catway.mk (newObjectId (idCounter w)) n t1 s1 b1])%list /\
     statusCode w1 = 302 /\
     sent w1 = Some (Redirected ("/catways?message=Catway " ++ b1
                                 ++ " a été créé avec succès"))) /\
  completion (catwayService.addCatway (catwayDataOf req2)) w1
  = Throw (DuplicateKeyError "catwayNumber") /\
  isDuplicateKey (DuplicateKeyError "catwayNumber") = true /\
  statusCode w2 = 400 /\
  sent w2 = Some (Rendered "error/error"
                    (oneError "Ce numéro de catway existe déjà")) /\
  catways w2 = catways w1 /\
  NoDup (catwayNumbers w1) /\
  NoDup (catwayNumbers w2).
Proof.
  intros Hv1 Hv2 Hnd. cbv zeta.
  assert (Hin1 : In n (catwayNumbers (exec (app.catways_add req1) w))).
  { unfold exec. rewrite catways_add_response.
    destruct (in_dec Z.eq_dec n (catwayNumbers w)) as [Hin | Hfresh].
    - now rewrite (addCatway_duplicate _ _ _ _ _ _ Hv1 Hin).
    - rewrite (addCatway_fresh _ _ _ _ _ _ Hv1 Hfresh). simpl.
      unfold catwayNumbers. simpl. rewrite fmap_app. apply in_app_iff.
      right. now left. }
  assert (Hnd1 : NoDup (catwayNumbers (exec (app.catways_add req1) w))).
  { pose proof (addCatway_NoDup (catwayDataOf req1) w Hnd) as Hadd.
    unfold exec in *. rewrite catways_add_response.
    destruct (catwayService.addCatway (catwayDataOf req1) w) as [[c | e] w1];
      [exact Hadd |].
    destruct (isValidationError e); [exact Hadd |].
    destruct (isDuplicateKey e); exact Hadd. }
  set (w1 := exec (app.catways_add req1) w) in *.
  pose proof (addCatway_duplicate _ w1 _ _ _ _ Hv2 Hin1) as Hdup.
  split.
  { intros Hfresh. subst w1. unfold exec. rewrite catways_add_response.
    rewrite (addCatway_fresh _ _ _ _ _ _ Hv1 Hfresh). simpl. auto. }
  unfold exec, completion. rewrite catways_add_response, Hdup. simpl.
  repeat split; assumption.
Qed.

Lemma duplicate_catwayNumber_witness :
  let req1 := catwayRequest 101 "long" "available" "Serenity" in
  let req2 := catwayRequest 101 "short" "occupied" "Orion" in
  let w := arriving [] [] [] 0 in
  let w1 := exec (@app.catways_add stubExternals req1) w in
  let w2 := exec (@app.catways_add stubExternals req2) w1 in
  statusCode w1 = 302 /\ statusCode w2 = 400 /\ catwayNumbers w2 = [101].
Proof.
  cbv zeta.
  destruct (@duplicate_catwayNumber stubExternals
              (catwayRequest 101 "long" "available" "Serenity")
              (catwayRequest 101 "short" "occupied" "Orion")
              (arriving [] [] [] 0) 101
              "long" "available" "Serenity" "short" "occupied" "Orion"
              eq_refl eq_refl (@NoDup_nil_2 Z))
    as (Hfirst & _ & _ & Hstatus & _ & Hsame & _).
  destruct Hfirst as (Hcatways & Hredirect & _); [simpl; tauto |].
  split; [exact Hredirect |]. split; [exact Hstatus |].
  unfold catwayNumbers. rewrite Hsame, Hcatways. reflexivity.
Defined.

(** ** Deletions *)

Section Deletions.
Context `{Externals}.

Lemma removeDoc_length {A} (idOf : A -> string) (id : string) (l : list A)
    (d : A) :
  findDoc idOf id l = Some d -> S (length (removeDoc idOf id l)) = length l.
Proof.
  induction l as [| x l IH]; simpl; [discriminate |].
  destruct (String.eqb (idOf x) id); [reflexivity |].
  intros Hd. simpl. now rewrite IH.
Qed.

(** C9.  A delete request whose identifier is well formed but matches no
    stored entity is not answered with 404: the service resolves to
    [null], reading a field of it raises a TypeError, and the catch block
    answers with the server-error status (500 for catways and
    reservations, 501 for users).  The store is unchanged. *)
Theorem delete_missing_entity (req : Request) (w : World) :
  (isValidObjectId (param req "id") = true ->
   findDoc Catway._id (param req "id") (catways w) = None ->
   let w' := exec (app.catways_delete req) w in
   completion (catwayService.deleteCatway (param req "id")) w = Normal None /\
   statusCode w' = 500 /\ statusCode w' <> 404 /\
   sent w' = Some (Json (internalServerError
                           (TypeError "Cannot read properties of null (reading 'boatName')"))) /\
   catways w' = catways w) /\
  (isValidObjectId (param req "id") = true ->
   findDoc User._id (param req "id") (users w) = None ->
   let w' := exec (app.users_delete req) w in
   completion (userService.deleteUser (param req "id")) w = Normal None /\
   statusCode w' = 501 /\ statusCode w' <> 404 /\
   sent w' = Some (Json (VError
                           (TypeError "Cannot read properties of null (reading 'name')"))) /\
   users w' = users w) /\
  (isValidObjectId (param req "idReservation") = true ->
   findDoc Reservation._id (param req "idReservation") (reservations w) = None ->
   let w' := exec (app.reservations_delete req) w in
   completion (reservationService.deleteReservation (param req "idReservation")) w
   = Normal None /\
   statusCode w' = 500 /\ statusCode w' <> 404 /\
   sent w' = Some (Json (internalServerError
                           (TypeError "Cannot read properties of null (reading 'boatName')"))) /\
   reservations w' = reservations w).
Proof.
  conjuncts; intros Hid Hnone; cbv zeta.
  - unfold app.catways_delete, catwaysController.delete,
      catwayService.deleteCatway, Mongoose.castId.
    js_unfold. rewrite Hid. simpl. rewrite Hnone. simpl.
    repeat split; try reflexivity. discriminate.
  - unfold app.users_delete, usersController.delete, userService.deleteUser,
      Mongoose.castId.
    js_unfold. rewrite Hid. simpl. rewrite Hnone. simpl.
    repeat split; try reflexivity. discriminate.
  - unfold app.reservations_delete, reservationsController.delete,
      reservationService.deleteReservation, Mongoose.castId.
    js_unfold. rewrite Hid. simpl. rewrite Hnone. simpl.
    repeat split; try reflexivity. discriminate.
Qed.

(** C10.  A delete request for a stored catway or reservation that carries
    no referer header: the entity is removed from the store, then reading
    [req.headers.referer.includes] raises a TypeError, and the catch block
    answers with status 500.  The error response goes with a store that
    has changed: the entity stays deleted. *)
Theorem delete_without_referer (req : Request) (w : World) :
  headers req !! "referer" = None ->
  (forall c,
     isValidObjectId (param req "id") = true ->
     findDoc Catway._id (param req "id") (catways w) = Some c ->
     let w' := exec (app.catways_delete req) w in
     statusCode w' = 500 /\
     sent w' = Some (Json (internalServerError
                             (TypeError "Cannot read properties of undefined (reading 'includes')"))) /\
     catways w' = removeDoc Catway._id (param req "id") (catways w) /\
     S (length (catways w')) = length (catways w)) /\
  (forall r,
     isValidObjectId (param req "idReservation") = true ->
     findDoc Reservation._id (param req "idReservation") (reservations w) = Some r ->
     let w' := exec (app.reservations_delete req) w in
     statusCode w' = 500 /\
     sent w' = Some (Json (internalServerError
                             (TypeError "Cannot read properties of undefined (reading 'includes')"))) /\
     reservations w' = removeDoc Reservation._id (param req "idReservation")
                         (reservations w) /\
     S (length (reservations w')) = length (reservations w)).
Proof.
  intros Href. split.
  - intros c Hid Hsome. cbv zeta.
    unfold app.catways_delete, catwaysController.delete,
      catwayService.deleteCatway, Mongoose.castId.
    js_unfold. rewrite Hid. simpl. rewrite Hsome. simpl. rewrite Href. simpl.
    repeat split; try reflexivity. now apply removeDoc_length with c.
  - intros r Hid Hsome. cbv zeta.
    unfold app.reservations_delete, reservationsController.delete,
      reservationService.deleteReservation, Mongoose.castId.
    js_unfold. rewrite Hid. simpl. rewrite Hsome. simpl. rewrite Href. simpl.
    repeat split; try reflexivity. now apply removeDoc_length with r.
Qed.

End Deletions.

Lemma delete_missing_entity_witness :
  let req := deleteRequest "60c72b2f9f1b2c001c9a9e84" "60c72b2f9f1b2c001c9a9e85" in
  let w := arriving [] [] [] 0 in
  statusCode (exec (@app.catways_delete stubExternals req) w) = 500 /\
  statusCode (exec (@app.users_delete stubExternals req) w) = 501 /\
  statusCode (exec (@app.reservations_delete stubExternals req) w) = 500.
Proof.
  cbv zeta.
  destruct (@delete_missing_entity stubExternals
              (deleteRequest "60c72b2f9f1b2c001c9a9e84" "60c72b2f9f1b2c001c9a9e85")
              (arriving [] [] [] 0)) as (Hcatway & Huser & Hreservation).
  split; [apply Hcatway; reflexivity |].
  split; [apply Huser; reflexivity | apply Hreservation; reflexivity].
Defined.

Lemma delete_without_referer_witness :
  let req := deleteRequest "60c72b2f9f1b2c001c9a9e84" "60c72b2f9f1b2c001c9a9e85" in
  let w := arriving [] [stubCatway] [stubStay] 0 in
  (statusCode (exec (@app.catways_delete stubExternals req) w) = 500 /\
   catways (exec (@app.catways_delete stubExternals req) w) = []) /\
  (statusCode (exec (@app.reservations_delete stubExternals req) w) = 500 /\
   reservations (exec (@app.reservations_delete stubExternals req) w) = []).
Proof.
  cbv zeta.
  destruct (@delete_without_referer stubExternals
              (deleteRequest "60c72b2f9f1b2c001c9a9e84" "60c72b2f9f1b2c001c9a9e85")
              (arriving [] [stubCatway] [stubStay] 0) eq_refl)
    as (Hcatway & Hreservation).
  split.
  - destruct (Hcatway stubCatway eq_refl eq_refl) as (Hs & _ & Hc & _).
    split; [exact Hs | exact Hc].
  - destruct (Hreservation stubStay eq_refl eq_refl) as (Hs & _ & Hr & _).
    split; [exact Hs | exact Hr].
Defined.

(** * Further properties of the code *)

(** ** The prefix test of the gate *)

Section BearerSlip.
Context `{Externals}.


(** A character of one, two or three bytes is one code unit. *)
Lemma dropUnits_oneUnit (u t : string) :
  oneUnit u = true -> dropUnits 0 1 (u ++ t) = t.
Proof.
  destruct u as [| a [| b [| c [| d u]]]]; try discriminate; cbn [oneUnit].
  - intros Ha. change (dropUnits 0 1 (String a t) = t).
    rewrite (dropUnits_ascii _ _ _ Ha). apply dropUnits_zero.
  - intros [Ha%Nat.eqb_eq Hb]%andb_true_iff.
    change (dropUnits 0 1 (String a (String b t)) = t).
    cbn [dropUnits Nat.ltb Nat.leb andb]. rewrite Ha. cbn [Nat.eqb].
    cbn [dropUnits Nat.ltb Nat.leb andb Nat.sub]. rewrite Hb.
    apply dropUnits_zero.
  - intros [[Ha%Nat.eqb_eq Hb]%andb_true_iff Hc]%andb_true_iff.
    change (dropUnits 0 1 (String a (String b (String c t))) = t).
    cbn [dropUnits Nat.ltb Nat.leb andb]. rewrite Ha. cbn [Nat.eqb].
    cbn [dropUnits Nat.ltb Nat.leb andb Nat.sub]. rewrite Hb.
    cbn [dropUnits Nat.ltb Nat.leb andb Nat.sub]. rewrite Hc.
    apply dropUnits_zero.
Qed.


Lemma prefix_append (a x : string) : String.prefix a (a ++ x) = true.
Proof.
  induction a as [| c a IH]; [destruct x; reflexivity |].
  change (String.prefix (String c a) (String c (a ++ x)) = true).
  cbn [String.prefix]. destruct (ascii_dec c c); [exact IH | congruence].
Qed.

Lemma prefix_test (p r : string) :
  toLowerCase p = "bearer" ->
  truthy (p ++ r) && startsWith (toLowerCase (p ++ r)) "bearer" = true.
Proof.
  intros Hp. unfold startsWith. rewrite toLowerCase_app, Hp, prefix_append.
  destruct p; [discriminate Hp | reflexivity].
Qed.

Lemma stripBearer_seventh (p u t : string) :
  toLowerCase p = "bearer" -> oneUnit u = true ->
  Private.stripBearer (p ++ u ++ t) = t.
Proof.
  intros Hp Hu.
  destruct (casing_isAscii _ _ Hp eq_refl) as [Hlen Hascii].
  unfold Private.stripBearer. rewrite (prefix_test _ _ Hp).
  unfold sliceFrom. change 7%nat with (String.length "bearer" + 1)%nat.
  rewrite <- Hlen, (dropUnits_allAscii _ _ _ Hascii).
  now apply dropUnits_oneUnit.
Qed.


(** X1.  The gate tests a cookie for the prefix ['bearer'] (in any casing,
    without the space) and then cuts seven code units: the character
    behind the prefix is dropped whatever it is, a space or not, of one
    byte or of several (a character outside the Basic Multilingual Plane
    is two code units and loses its first only).  The token verified is
    what follows that character, so two cookies that differ only in it
    have the same outcome. *)
Theorem bearer_seventh_character_dropped (req1 req2 : Request) (w : World)
    (p t u1 u2 : string) :
  toLowerCase p = "bearer" ->
  oneUnit u1 = true -> oneUnit u2 = true ->
  cookies req1 !! "authToken" = Some (VStr (p ++ u1 ++ t)) ->
  cookies req2 !! "authToken" = Some (VStr (p ++ u2 ++ t)) ->
  Private.stripBearer (p ++ u1 ++ t) = t /\
  Private.checkJWT req1 w = Private.checkJWT req2 w.
Proof.
  intros Hp Hu1 Hu2 H1 H2. split; [now apply stripBearer_seventh |].
  rewrite (checkJWT_cookie _ _ _ H1), (checkJWT_cookie _ _ _ H2).
  now rewrite !stripBearer_seventh.
Qed.


End BearerSlip.

Lemma bearer_seventh_character_dropped_witness :
  @Private.stripBearer ("bearer" ++ "é" ++ stubToken) = stubToken /\
  @Private.checkJWT stubExternals (withCookie ("bearer" ++ "é" ++ stubToken))
    (arriving [] [] [] 0)
  = @Private.checkJWT stubExternals (withCookie ("bearer" ++ " " ++ stubToken))
      (arriving [] [] [] 0).
Proof.
  apply (@bearer_seventh_character_dropped stubExternals
           (withCookie ("bearer" ++ "é" ++ stubToken))
           (withCookie ("bearer" ++ " " ++ stubToken))
           (arriving [] [] [] 0) "bearer" stubToken "é" " ");
    reflexivity.
Defined.


(** ** Protected routes *)

Section ProtectedRoutes.
Context `{Externals}.

(** X3.  On a protected route, a request without a cookie, or whose token
    is empty after stripping or is rejected by [jwt.verify], never reaches
    the handler, whatever the handler is: the answer is 401, and the
    three collections, the session and [req.user] are as they were. *)
Theorem protected_route_rejects (handler : Request -> Js unit)
    (req : Request) (w : World) :
  cookies req !! "authToken" = None \/
  (exists c,
     cookies req !! "authToken" = Some (VStr c) /\
     (truthy (Private.stripBearer c) = false \/
      exists err,
        jwt_verify (Private.stripBearer c) SECRET_KEY (clock w) = JwtError err)) ->
  let w' := exec (server.protected handler req) w in
  server.protected handler req w = Private.checkJWT req w /\
  statusCode w' = 401 /\
  users w' = users w /\ catways w' = catways w /\
  reservations w' = reservations w /\
  session_message w' = session_message w /\ req_user w' = req_user w.
Proof.
  intros Hbad. cbv zeta.
  unfold exec, server.protected, server.route, bind, gets.
  destruct Hbad as [Hnone | (c & Hc & Hbad)].
  - rewrite (checkJWT_no_cookie _ _ Hnone). simpl.
    rewrite Nat.ltb_irrefl. simpl. auto 10.
  - rewrite (checkJWT_cookie _ _ _ Hc).
    destruct (truthy (Private.stripBearer c)) eqn:Ht.
    + destruct Hbad as [Hf | [err Herr]]; [discriminate |].
      rewrite Herr. simpl. rewrite Nat.ltb_irrefl. simpl. auto 10.
    + simpl. rewrite Nat.ltb_irrefl. simpl. auto 10.
Qed.

(** X4.  On a protected route, a request whose token verifies reaches the
    handler: the handler runs in a world where nothing has been sent,
    [req.user] is the [user] claim of the decoded payload and [next] has
    been called once. *)
Theorem protected_route_runs_handler (handler : Request -> Js unit)
    (req : Request) (w : World) (c : string) (decoded : JsVal) :
  cookies req !! "authToken" = Some (VStr c) ->
  truthy (Private.stripBearer c) = true ->
  jwt_verify (Private.stripBearer c) SECRET_KEY (clock w) = JwtDecoded decoded ->
  server.protected handler req w
  = handler req (count_next (set_req_user (getProp decoded "user") w)).
Proof.
  intros Hc Ht Hv.
  unfold server.protected, server.route, bind, gets.
  rewrite (checkJWT_cookie _ _ _ Hc), Ht, Hv. simpl.
  replace (Nat.ltb (nextCalls w) (S (nextCalls w))) with true
    by (symmetry; apply Nat.ltb_lt; lia).
  reflexivity.
Qed.

End ProtectedRoutes.

Lemma protected_route_rejects_witness :
  let req := deleteRequestWith "60c72b2f9f1b2c001c9a9e84" "60c72b2f9f1b2c001c9a9e85"
               (Some "forged") (Some "/dashboard") in
  let w := arriving [] [stubCatway] [] 0 in
  statusCode (exec (@server.protected stubExternals
                      (@app.catways_delete stubExternals) req) w) = 401 /\
  catways (exec (@server.protected stubExternals
                   (@app.catways_delete stubExternals) req) w) = [stubCatway].
Proof.
  cbv zeta.
  destruct (@protected_route_rejects stubExternals
              (@app.catways_delete stubExternals)
              (deleteRequestWith "60c72b2f9f1b2c001c9a9e84"
                 "60c72b2f9f1b2c001c9a9e85" (Some "forged") (Some "/dashboard"))
              (arriving [] [stubCatway] [] 0))
    as (_ & Hstatus & _ & Hcatways & _).
  - right. exists "forged". split; [reflexivity |].
    right. eexists. reflexivity.
  - split; [exact Hstatus | exact Hcatways].
Defined.

Lemma protected_route_runs_handler_witness :
  let req := deleteRequestWith "60c72b2f9f1b2c001c9a9e84" "60c72b2f9f1b2c001c9a9e85"
               (Some stubToken) (Some "/dashboard") in
  let w := arriving [] [stubCatway] [] 0 in
  catways (exec (@server.protected stubExternals
                   (@app.catways_delete stubExternals) req) w) = [] /\
  req_user (exec (@server.protected stubExternals
                    (@app.catways_delete stubExternals) req) w) = VStr "admin".
Proof.
  cbv zeta. unfold exec.
  rewrite (@protected_route_runs_handler stubExternals
             (@app.catways_delete stubExternals)
             (deleteRequestWith "60c72b2f9f1b2c001c9a9e84"
                "60c72b2f9f1b2c001c9a9e85" (Some stubToken) (Some "/dashboard"))
             (arriving [] [stubCatway] [] 0) stubToken
             (VObj [("user", VStr "admin"); ("exp", VNum 86400)])
             eq_refl eq_refl eq_refl).
  split; reflexivity.
Defined.

(** ** The dashboard and the message of a deletion *)

Section Dashboard.
Context `{Externals}.

(** X5.  The dashboard shows the message of the session once: it renders
    the message that the session holds ([undefined] when it holds none)
    and removes it, so the dashboard of the next request shows no
    message.  Nothing else changes. *)
Theorem renderDashboard_shows_message_once (req1 req2 : Request) (w : World) :
  let w1 := exec (dashboardController.renderDashboard req1) w in
  let w2 := exec (dashboardController.renderDashboard req2) (nextRequest w1) in
  sent w1 = Some (Rendered "dashboard/dashboard"
                    (VObj [("message", optStr (session_message w))])) /\
  session_message w1 = None /\
  statusCode w1 = statusCode w /\
  users w1 = users w /\ catways w1 = catways w /\
  reservations w1 = reservations w /\
  sent w2 = Some (Rendered "dashboard/dashboard"
                    (VObj [("message", VUndefined)])).
Proof. cbv zeta. repeat split. Qed.

Lemma catways_delete_found (req : Request) (w : World) (c : Catway.doc) :
  isValidObjectId (param req "id") = true ->
  findDoc Catway._id (param req "id") (catways w) = Some c ->
  let message := "Catway " ++ Catway.boatName c ++ " a été supprimé avec succès" in
  let w1 := set_session_message (Some message)
              (set_catways (removeDoc Catway._id (param req "id") (catways w)) w) in
  app.catways_delete req w =
    match headers req !! "referer" with
    | Some referer =>
        if includes referer "dashboard" then
          (Normal tt, set_sent (Json (messageObj message)) (set_statusCode 200 w1))
        else
          (Normal tt,
           set_sent (Redirected ("/catways?message=" ++ message))
             (set_statusCode 302 (set_statusCode 200 w1)))
    | None =>
        (Normal tt,
         set_sent (Json (internalServerError
                           (TypeError "Cannot read properties of undefined (reading 'includes')")))
           (set_statusCode 500 w1))
    end.
Proof.
  intros Hid Hc. cbv zeta.
  unfold app.catways_delete, catwaysController.delete,
    catwayService.deleteCatway, Mongoose.castId.
  js_unfold. rewrite Hid. simpl. rewrite Hc. simpl.
  destruct (headers req !! "referer") as [r |]; simpl; [| reflexivity].
  destruct (includes r "dashboard"); reflexivity.
Qed.

Lemma reservations_delete_found (req : Request) (w : World)
    (r : Reservation.doc) :
  isValidObjectId (param req "idReservation") = true ->
  findDoc Reservation._id (param req "idReservation") (reservations w) = Some r ->
  let message :=
    "La réservation du bateau " ++ Reservation.boatName r ++ ", le "
    ++ dateToString (Reservation.checkIn r) ++ " a été supprimée avec succès" in
  let w1 := set_session_message (Some message)
              (set_reservations
                 (removeDoc Reservation._id (param req "idReservation")
                    (reservations w)) w) in
  app.reservations_delete req w =
    match headers req !! "referer" with
    | Some referer =>
        if includes referer "dashboard" then
          (Normal tt, set_sent (Json (messageObj message)) (set_statusCode 200 w1))
        else
          (Normal tt,
           set_sent (Redirected ("/dashboard?message=" ++ message))
             (set_statusCode 302 (set_statusCode 200 w1)))
    | None =>
        (Normal tt,
         set_sent (Json (internalServerError
                           (TypeError "Cannot read properties of undefined (reading 'includes')")))
           (set_statusCode 500 w1))
    end.
Proof.
  intros Hid Hr. cbv zeta.
  unfold app.reservations_delete, reservationsController.delete,
    reservationService.deleteReservation, Mongoose.castId.
  js_unfold. rewrite Hid. simpl. rewrite Hr. simpl.
  destruct (headers req !! "referer") as [ref |]; simpl; [| reflexivity].
  destruct (includes ref "dashboard"); reflexivity.
Qed.

(** X6.  A deletion of a stored catway or reservation that is answered
    with 500 for want of a referer has already left its message of success
    in the session: the dashboard of the next request announces that the
    entity has been deleted. *)
Theorem failed_delete_announces_success (req next : Request) (w : World) :
  headers req !! "referer" = None ->
  (forall c,
     isValidObjectId (param req "id") = true ->
     findDoc Catway._id (param req "id") (catways w) = Some c ->
     let w1 := exec (app.catways_delete req) w in
     statusCode w1 = 500 /\
     sent (exec (dashboardController.renderDashboard next) (nextRequest w1))
     = Some (Rendered "dashboard/dashboard"
               (messageObj ("Catway " ++ Catway.boatName c
                            ++ " a été supprimé avec succès")))) /\
  (forall r,
     isValidObjectId (param req "idReservation") = true ->
     findDoc Reservation._id (param req "idReservation") (reservations w) = Some r ->
     let w1 := exec (app.reservations_delete req) w in
     statusCode w1 = 500 /\
     sent (exec (dashboardController.renderDashboard next) (nextRequest w1))
     = Some (Rendered "dashboard/dashboard"
               (messageObj ("La réservation du bateau " ++ Reservation.boatName r
                            ++ ", le " ++ dateToString (Reservation.checkIn r)
                            ++ " a été supprimée avec succès")))).
Proof.
  intros Href. split.
  - intros c Hid Hc. cbv zeta. unfold exec.
    rewrite (catways_delete_found _ _ _ Hid Hc), Href. split; reflexivity.
  - intros r Hid Hr. cbv zeta. unfold exec.
    rewrite (reservations_delete_found _ _ _ Hid Hr), Href. split; reflexivity.
Qed.

(** X7.  A deletion of a stored catway or reservation with a referer: the
    document is removed from the store and the message of success is left
    in the session; when the referer contains ['dashboard'] the answer is
    status 200 with the message as JSON, otherwise it is a redirection to
    the list (catways) or to the dashboard (reservations) carrying the
    message. *)
Theorem delete_with_referer (req : Request) (w : World) (referer : string) :
  headers req !! "referer" = Some referer ->
  (forall c,
     isValidObjectId (param req "id") = true ->
     findDoc Catway._id (param req "id") (catways w) = Some c ->
     let w' := exec (app.catways_delete req) w in
     let message :=
       "Catway " ++ Catway.boatName c ++ " a été supprimé avec succès" in
     catways w' = removeDoc Catway._id (param req "id") (catways w) /\
     session_message w' = Some message /\
     (includes referer "dashboard" = true ->
      statusCode w' = 200 /\ sent w' = Some (Json (messageObj message))) /\
     (includes referer "dashboard" = false ->
      sent w' = Some (Redirected ("/catways?message=" ++ message)))) /\
  (forall r,
     isValidObjectId (param req "idReservation") = true ->
     findDoc Reservation._id (param req "idReservation") (reservations w) = Some r ->
     let w' := exec (app.reservations_delete req) w in
     let message :=
       "La réservation du bateau " ++ Reservation.boatName r ++ ", le "
       ++ dateToString (Reservation.checkIn r)
       ++ " a été supprimée avec succès" in
     reservations w' = removeDoc Reservation._id (param req "idReservation")
                         (reservations w) /\
     session_message w' = Some message /\
     (includes referer "dashboard" = true ->
      statusCode w' = 200 /\ sent w' = Some (Json (messageObj message))) /\
     (includes referer "dashboard" = false ->
      sent w' = Some (Redirected ("/dashboard?message=" ++ message)))).
Proof.
  intros Href. split.
  - intros c Hid Hc. cbv zeta. unfold exec.
    rewrite (catways_delete_found _ _ _ Hid Hc), Href.
    destruct (includes referer "dashboard"); simpl;
      repeat split; try reflexivity; intros; try discriminate; auto.
  - intros r Hid Hr. cbv zeta. unfold exec.
    rewrite (reservations_delete_found _ _ _ Hid Hr), Href.
    destruct (includes referer "dashboard"); simpl;
      repeat split; try reflexivity; intros; try discriminate; auto.
Qed.

End Dashboard.

Lemma failed_delete_announces_success_witness :
  let req := deleteRequest "60c72b2f9f1b2c001c9a9e84" "60c72b2f9f1b2c001c9a9e85" in
  let w := arriving [] [stubCatway] [stubStay] 0 in
  sent (exec (dashboardController.renderDashboard noCookie)
          (nextRequest (exec (@app.catways_delete stubExternals req) w)))
  = Some (Rendered "dashboard/dashboard"
            (messageObj "Catway Serenity a été supprimé avec succès")) /\
  sent (exec (dashboardController.renderDashboard noCookie)
          (nextRequest (exec (@app.reservations_delete stubExternals req) w)))
  = Some (Rendered "dashboard/dashboard"
            (messageObj "La réservation du bateau Serenity, le Thu Jan 01 1970 a été supprimée avec succès")).
Proof.
  cbv zeta.
  destruct (@failed_delete_announces_success stubExternals
              (deleteRequest "60c72b2f9f1b2c001c9a9e84" "60c72b2f9f1b2c001c9a9e85")
              noCookie (arriving [] [stubCatway] [stubStay] 0) eq_refl)
    as (Hcatway & Hreservation).
  split.
  - apply (Hcatway stubCatway); reflexivity.
  - apply (Hreservation stubStay); reflexivity.
Defined.

Lemma delete_with_referer_witness :
  let w := arriving [] [stubCatway] [stubStay] 0 in
  statusCode (exec (@app.catways_delete stubExternals
                      (deleteRequestWith "60c72b2f9f1b2c001c9a9e84"
                         "60c72b2f9f1b2c001c9a9e85" None (Some "/dashboard"))) w)
  = 200 /\
  sent (exec (@app.reservations_delete stubExternals
                (deleteRequestWith "60c72b2f9f1b2c001c9a9e84"
                   "60c72b2f9f1b2c001c9a9e85" None (Some "/other"))) w)
  = Some (Redirected "/dashboard?message=La réservation du bateau Serenity, le Thu Jan 01 1970 a été supprimée avec succès").
Proof.
  cbv zeta. split.
  - destruct (@delete_with_referer stubExternals
                (deleteRequestWith "60c72b2f9f1b2c001c9a9e84"
                   "60c72b2f9f1b2c001c9a9e85" None (Some "/dashboard"))
                (arriving [] [stubCatway] [stubStay] 0) "/dashboard" eq_refl)
      as (Hcatway & _).
    destruct (Hcatway stubCatway eq_refl eq_refl) as (_ & _ & Hjson & _).
    apply Hjson. reflexivity.
  - destruct (@delete_with_referer stubExternals
                (deleteRequestWith "60c72b2f9f1b2c001c9a9e84"
                   "60c72b2f9f1b2c001c9a9e85" None (Some "/other"))
                (arriving [] [stubCatway] [stubStay] 0) "/other" eq_refl)
      as (_ & Hreservation).
    destruct (Hreservation stubStay eq_refl eq_refl) as (_ & _ & _ & Hredirect).
    apply Hredirect. reflexivity.
Defined.

(** ** Identifiers *)

Section Identifiers.
Context `{Externals}.

Lemma getCatwayById_result (id : string) (w : World) :
  catwayService.getCatwayById id w =
    if isValidObjectId id then (Normal (findDoc Catway._id id (catways w)), w)
    else (Throw (CastError id), w).
Proof.
  unfold catwayService.getCatwayById, Mongoose.castId. js_unfold.
  destruct (isValidObjectId id); reflexivity.
Qed.

Lemma getReservationById_result (id : string) (w : World) :
  reservationService.getReservationById id w =
    if isValidObjectId id
    then (Normal (findDoc Reservation._id id (reservations w)), w)
    else (Throw (CastError id), w).
Proof.
  unfold reservationService.getReservationById, Mongoose.castId. js_unfold.
  destruct (isValidObjectId id); reflexivity.
Qed.

Lemma findUserById_result (id : string) (w : World) :
  userService.findUserById id w =
    if isValidObjectId id then (Normal (findDoc User._id id (users w)), w)
    else (Throw (CastError id), w).
Proof.
  unfold userService.findUserById, Mongoose.castId. js_unfold.
  destruct (isValidObjectId id); reflexivity.
Qed.

Ltac run_controller :=
  cbv zeta;
  unfold server.catways_getById, server.catways_edit, app.catways_delete,
    server.reservations_getbyId, server.reservations_getAllOfCatway,
    app.reservations_add, app.reservations_delete, server.users_getById,
    server.users_edit, app.users_delete,
    catwaysController.getById, catwaysController.edit, catwaysController.delete,
    reservationsController.getbyId, reservationsController.getAllOfCatway,
    reservationsController.add, reservationsController.delete,
    usersController.getById, usersController.edit, usersController.delete,
    catwayService.deleteCatway, reservationService.deleteReservation,
    userService.deleteUser, Mongoose.castId, exec, try_catch, bind;
  rewrite ?getCatwayById_result, ?getReservationById_result,
    ?findUserById_result.

(** X8.  The catways controller and an identifier that is not an ObjectId:
    [getById] answers 404 and [edit] answers 400, both with the page
    'Entrez un identifiant valide'; [delete] answers 400 with
    [{ errorKind: 'ObjectId' }].  The store is not touched. *)
Theorem catways_malformed_identifier (req : Request) (w : World) :
  isValidObjectId (param req "id") = false ->
  server.catways_getById req w =
    (Normal tt,
     set_sent (Rendered "error/error" (oneError "Entrez un identifiant valide"))
       (set_statusCode 404 w)) /\
  server.catways_edit req w =
    (Normal tt,
     set_sent (Rendered "error/error" (oneError "Entrez un identifiant valide"))
       (set_statusCode 400 w)) /\
  app.catways_delete req w =
    (Normal tt,
     set_sent (Json (VObj [("errorKind", VStr "ObjectId")])) (set_statusCode 400 w)).
Proof.
  intros Hid. conjuncts; run_controller; rewrite Hid; reflexivity.
Qed.

(** X9.  The reservations controller and an identifier that is not an
    ObjectId: [getbyId] answers 404 with the page 'Entrez un identifiant
    valide' and [delete] answers 400 with [{ errorKind: 'ObjectId' }]
    (on the reservation's identifier); [getAllOfCatway] and [add], whose
    catch blocks do not look at the kind of the error, answer 500 with the
    cast error in the body (on the catway's identifier).  The store is not
    touched. *)
Theorem reservations_malformed_identifier (req : Request) (w : World) :
  (isValidObjectId (param req "idReservation") = false ->
   server.reservations_getbyId req w =
     (Normal tt,
      set_sent (Rendered "error/error" (oneError "Entrez un identifiant valide"))
        (set_statusCode 404 w)) /\
   app.reservations_delete req w =
     (Normal tt,
      set_sent (Json (VObj [("errorKind", VStr "ObjectId")]))
        (set_statusCode 400 w))) /\
  (isValidObjectId (param req "id") = false ->
   server.reservations_getAllOfCatway req w =
     (Normal tt,
      set_sent (Json (internalServerError (CastError (param req "id"))))
        (set_statusCode 500 w)) /\
   app.reservations_add req w =
     (Normal tt,
      set_sent (Json (internalServerError (CastError (param req "id"))))
        (set_statusCode 500 w))).
Proof.
  split; intros Hid; split; run_controller; rewrite Hid; reflexivity.
Qed.

(** X10.  The users controller and an identifier that is not an ObjectId:
    [edit] answers 404 with the page 'Entrez un identifiant valide',
    [delete] answers 400 with [{ errorKind: 'ObjectId' }], and [getById],
    whose catch block does not look at the kind of the error, answers 500
    with the cast error in the body.  The store is not touched. *)
Theorem users_malformed_identifier (req : Request) (w : World) :
  isValidObjectId (param req "id") = false ->
  server.users_getById req w =
    (Normal tt,
     set_sent (Json (internalServerError (CastError (param req "id"))))
       (set_statusCode 500 w)) /\
  server.users_edit req w =
    (Normal tt,
     set_sent (Rendered "error/error" (oneError "Entrez un identifiant valide"))
       (set_statusCode 404 w)) /\
  app.users_delete req w =
    (Normal tt,
     set_sent (Json (VObj [("errorKind", VStr "ObjectId")])) (set_statusCode 400 w)).
Proof.
  intros Hid. conjuncts; run_controller; rewrite Hid; reflexivity.
Qed.

(** X11.  Reading with a well-formed identifier that matches no stored
    document is answered with 404 by every read operation: by the page
    'Catway non trouvé' ([getById] and [edit] of catways), 'Réservation
    non trouvée' ([getbyId]), 'Utilisateur non trouvé' ([edit] of users),
    or by a JSON message ([getById] of users, and [getAllOfCatway] and
    [add] of reservations for the catway).  [add] stores no reservation
    then, whatever the body of the request. *)
Theorem unknown_identifier_not_found (req : Request) (w : World) :
  (isValidObjectId (param req "id") = true ->
   findDoc Catway._id (param req "id") (catways w) = None ->
   server.catways_getById req w =
     (Normal tt,
      set_sent (Rendered "error/error" (oneError "Catway non trouvé"))
        (set_statusCode 404 w)) /\
   server.catways_edit req w =
     (Normal tt,
      set_sent (Rendered "error/error" (oneError "Catway non trouvé"))
        (set_statusCode 404 w)) /\
   server.reservations_getAllOfCatway req w =
     (Normal tt,
      set_sent (Json (messageObj "Catway non trouvé")) (set_statusCode 404 w)) /\
   app.reservations_add req w =
     (Normal tt,
      set_sent (Json (messageObj "Catway non trouvé")) (set_statusCode 404 w))) /\
  (isValidObjectId (param req "idReservation") = true ->
   findDoc Reservation._id (param req "idReservation") (reservations w) = None ->
   server.reservations_getbyId req w =
     (Normal tt,
      set_sent (Rendered "error/error" (oneError "Réservation non trouvée"))
        (set_statusCode 404 w))) /\
  (isValidObjectId (param req "id") = true ->
   findDoc User._id (param req "id") (users w) = None ->
   server.users_getById req w =
     (Normal tt,
      set_sent (Json (messageObj "Utilisateur non trouvé")) (set_statusCode 404 w)) /\
   server.users_edit req w =
     (Normal tt,
      set_sent (Rendered "error/error" (oneError "Utilisateur non trouvé"))
        (set_statusCode 404 w))).
Proof.
  conjuncts; intros Hid Hnone; conjuncts; run_controller;
    rewrite Hid, Hnone; reflexivity.
Qed.

End Identifiers.

Lemma catways_malformed_identifier_witness :
  let w := arriving [] [stubCatway] [] 0 in
  statusCode (exec (@server.catways_getById stubExternals (requestFor "invalidId")) w)
  = 404 /\
  statusCode (exec (@server.catways_edit stubExternals (requestFor "invalidId")) w)
  = 400 /\
  statusCode (exec (@app.catways_delete stubExternals (requestFor "invalidId")) w)
  = 400.
Proof.
  cbv zeta. unfold exec.
  destruct (@catways_malformed_identifier stubExternals (requestFor "invalidId")
              (arriving [] [stubCatway] [] 0) eq_refl) as (-> & -> & ->).
  repeat split.
Defined.

Lemma reservations_malformed_identifier_witness :
  let req := deleteRequest "invalidId" "invalid_id" in
  let w := arriving [] [stubCatway] [stubStay] 0 in
  statusCode (exec (@server.reservations_getbyId stubExternals req) w) = 404 /\
  statusCode (exec (@app.reservations_delete stubExternals req) w) = 400 /\
  statusCode (exec (@server.reservations_getAllOfCatway stubExternals req) w) = 500 /\
  statusCode (exec (@app.reservations_add stubExternals req) w) = 500.
Proof.
  cbv zeta. unfold exec.
  destruct (@reservations_malformed_identifier stubExternals
              (deleteRequest "invalidId" "invalid_id")
              (arriving [] [stubCatway] [stubStay] 0)) as (Hreservation & Hcatway).
  destruct (Hreservation eq_refl) as (-> & ->).
  destruct (Hcatway eq_refl) as (-> & ->).
  repeat split.
Defined.

Lemma users_malformed_identifier_witness :
  let w := arriving [stubUser] [] [] 0 in
  statusCode (exec (@server.users_getById stubExternals (requestFor "invalidId")) w)
  = 500 /\
  statusCode (exec (@server.users_edit stubExternals (requestFor "invalidId")) w)
  = 404 /\
  statusCode (exec (@app.users_delete stubExternals (requestFor "invalidId")) w)
  = 400.
Proof.
  cbv zeta. unfold exec.
  destruct (@users_malformed_identifier stubExternals (requestFor "invalidId")
              (arriving [stubUser] [] [] 0) eq_refl) as (-> & -> & ->).
  repeat split.
Defined.

Lemma unknown_identifier_not_found_witness :
  let req := deleteRequest "60c72b2f9f1b2c001c9a9e00" "60c72b2f9f1b2c001c9a9e01" in
  let w := arriving [stubUser] [stubCatway] [stubStay] 0 in
  statusCode (exec (@server.catways_getById stubExternals req) w) = 404 /\
  reservations (exec (@app.reservations_add stubExternals req) w) = [stubStay] /\
  statusCode (exec (@server.reservations_getbyId stubExternals req) w) = 404 /\
  statusCode (exec (@server.users_getById stubExternals req) w) = 404.
Proof.
  cbv zeta. unfold exec.
  destruct (@unknown_identifier_not_found stubExternals
              (deleteRequest "60c72b2f9f1b2c001c9a9e00" "60c72b2f9f1b2c001c9a9e01")
              (arriving [stubUser] [stubCatway] [stubStay] 0))
    as (Hcatway & Hreservation & Huser).
  destruct (Hcatway eq_refl eq_refl) as (-> & _ & _ & ->).
  rewrite (Hreservation eq_refl eq_refl).
  destruct (Huser eq_refl eq_refl) as (-> & _).
  repeat split.
Defined.

(** ** Creating, finding and deleting catways *)

Section CatwayStore.
Context `{Externals}.

Lemma findDoc_snoc {A} (idOf : A -> string) (id : string) (l : list A) (d : A) :
  findDoc idOf id l = None -> idOf d = id ->
  findDoc idOf id (l ++ [d]) = Some d.
Proof.
  intros Hnone Hid. induction l as [| x l IH]; simpl in *.
  - subst id. now rewrite String.eqb_refl.
  - destruct (String.eqb (idOf x) id); [discriminate | auto].
Qed.

Lemma findDoc_id {A} (idOf : A -> string) (id : string) (l : list A) (d : A) :
  findDoc idOf id l = Some d -> idOf d = id /\ In d l.
Proof.
  induction l as [| x l IH]; simpl; [discriminate |].
  destruct (String.eqb_spec (idOf x) id) as [Heq | Hne].
  - intros [= <-]. auto.
  - intros Hd. destruct (IH Hd). auto.
Qed.

Lemma findDoc_removeDoc_other {A} (idOf : A -> string) (id id' : string)
    (l : list A) :
  id' <> id -> findDoc idOf id' (removeDoc idOf id l) = findDoc idOf id' l.
Proof.
  intros Hne. induction l as [| x l IH]; simpl; [reflexivity |].
  destruct (String.eqb_spec (idOf x) id) as [Heq | Hx].
  - destruct (String.eqb_spec (idOf x) id'); [congruence | reflexivity].
  - simpl. now rewrite IH.
Qed.

Lemma findDoc_not_in {A} (idOf : A -> string) (id : string) (l : list A) :
  ~ In id (idOf <$> l) -> findDoc idOf id l = None.
Proof.
  induction l as [| x l IH]; simpl; [reflexivity |].
  intros Hnot. destruct (String.eqb_spec (idOf x) id); [tauto | auto].
Qed.

Lemma findDoc_removeDoc_same {A} (idOf : A -> string) (id : string)
    (l : list A) :
  NoDup (idOf <$> l) -> findDoc idOf id (removeDoc idOf id l) = None.
Proof.
  induction l as [| x l IH]; simpl; [reflexivity |].
  intros Hnd. apply NoDup_cons in Hnd as [Hx Hl].
  destruct (String.eqb_spec (idOf x) id) as [Heq | Hne].
  - apply findDoc_not_in. subst id. intros Hin. apply Hx.
    now apply list_elem_of_In.
  - simpl. destruct (String.eqb_spec (idOf x) id); [contradiction | auto].
Qed.

Lemma addCatway_normal (d : CatwayData) (w w1 : World) (c : Catway.doc) :
  catwayService.addCatway d w = (Normal c, w1) ->
  catways w1 = (catways w ++ [c])%list /\
  Catway._id c = newObjectId (idCounter w) /\
  idCounter w1 = S (idCounter w) /\
  catwaySchema.validate d
  = inr (Catway.catwayNumber c, Catway.type c, Catway.catwayState c,
         Catway.boatName c) /\
  ~ In (Catway.catwayNumber c) (catwayNumbers w).
Proof.
  destruct (catwaySchema.validate d) as [errs | [[[n t] s] b]] eqn:Hv.
  - rewrite (addCatway_invalid _ _ _ Hv). discriminate.
  - destruct (in_dec Z.eq_dec n (catwayNumbers w)) as [Hin | Hfresh].
    + rewrite (addCatway_duplicate _ _ _ _ _ _ Hv Hin). discriminate.
    + rewrite (addCatway_fresh _ _ _ _ _ _ Hv Hfresh). cbv zeta.
      intros [= <- <-]. simpl. auto.
Qed.

(** X12.  A catway that has just been created is found: when the
    identifier the driver generated is an ObjectId that no stored catway
    carries, [getCatwayById] on it gives the created document back, and
    [getById] answers 200 with its details. *)
Theorem created_catway_is_found (d : CatwayData) (req : Request)
    (w w1 : World) (c : Catway.doc) :
  catwayService.addCatway d w = (Normal c, w1) ->
  isValidObjectId (Catway._id c) = true ->
  findDoc Catway._id (Catway._id c) (catways w) = None ->
  param req "id" = Catway._id c ->
  catwayService.getCatwayById (Catway._id c) w1 = (Normal (Some c), w1) /\
  server.catways_getById req w1 =
    (Normal tt,
     set_sent (Rendered "catways/details" (VObj [("catway", VCatway c)]))
       (set_statusCode 200 w1)).
Proof.
  intros Hadd Hid Hfresh Hparam.
  destruct (addCatway_normal _ _ _ _ Hadd) as (Hcs & _).
  assert (Hfound : findDoc Catway._id (Catway._id c) (catways w1) = Some c).
  { rewrite Hcs. now apply findDoc_snoc. }
  split.
  - now rewrite getCatwayById_result, Hid, Hfound.
  - unfold server.catways_getById, catwaysController.getById, try_catch, bind.
    now rewrite Hparam, getCatwayById_result, Hid, Hfound.
Qed.

(** X13.  A catway that has just been deleted is gone, provided the
    stored identifiers are distinct: [getCatwayById] on its identifier
    gives [null].  The deleted document was the stored one with that
    identifier, and the lookup of every other identifier is as before. *)
Theorem deleted_catway_is_gone (id : string) (w w1 : World) (c : Catway.doc) :
  NoDup (Catway._id <$> catways w) ->
  catwayService.deleteCatway id w = (Normal (Some c), w1) ->
  catwayService.getCatwayById id w1 = (Normal None, w1) /\
  findDoc Catway._id id (catways w) = Some c /\
  (forall id',
     id' <> id ->
     findDoc Catway._id id' (catways w1) = findDoc Catway._id id' (catways w)).
Proof.
  intros Hnd Hdel.
  unfold catwayService.deleteCatway, Mongoose.castId in Hdel. js_unfold.
  destruct (isValidObjectId id) eqn:Hid; [| discriminate].
  simpl in Hdel.
  destruct (findDoc Catway._id id (catways w)) as [c' |] eqn:Hc;
    simpl in Hdel; [| discriminate].
  injection Hdel as <- <-.
  split; [| split; [reflexivity |]].
  - rewrite getCatwayById_result, Hid. simpl.
    now rewrite findDoc_removeDoc_same.
  - intros id' Hne. simpl. now apply findDoc_removeDoc_other.
Qed.

End CatwayStore.

Lemma created_catway_is_found_witness :
  let w := arriving [] [] [] 0 in
  let c := Catway.mk "650000000000000000000000" 101 "long" "available" "Serenity" in
  let w1 := exec (@catwayService.addCatway stubExternals catwayDataStub) w in
  @catwayService.getCatwayById stubExternals "650000000000000000000000" w1
  = (Normal (Some c), w1).
Proof.
  cbv zeta.
  apply (@created_catway_is_found stubExternals catwayDataStub
           (requestFor "650000000000000000000000") (arriving [] [] [] 0)
           (exec (@catwayService.addCatway stubExternals catwayDataStub)
              (arriving [] [] [] 0))
           (Catway.mk "650000000000000000000000" 101 "long" "available" "Serenity"));
    reflexivity.
Defined.

Lemma deleted_catway_is_gone_witness :
  let w := arriving [] [stubCatway] [] 0 in
  let w1 := exec (@catwayService.deleteCatway stubExternals
                    "60c72b2f9f1b2c001c9a9e84") w in
  @catwayService.getCatwayById stubExternals "60c72b2f9f1b2c001c9a9e84" w1
  = (Normal None, w1).
Proof.
  cbv zeta.
  apply (@deleted_catway_is_gone stubExternals "60c72b2f9f1b2c001c9a9e84"
           (arriving [] [stubCatway] [] 0)
           (exec (@catwayService.deleteCatway stubExternals
                    "60c72b2f9f1b2c001c9a9e84") (arriving [] [stubCatway] [] 0))
           stubCatway).
  - apply NoDup_singleton.
  - reflexivity.
Defined.

(** ** What a catway must be *)

(** The bounds are on code units and on the trimmed value: a state of two
    accented letters (four bytes) is too short, and a no-break space
    around a name does not count. *)
Example validators_code_units :
  catwaySchema.catwayState (Some "éé")
    = inl "L'état du catway doit comporter au moins 3 caractères" /\
  catwaySchema.catwayState (Some "ééé") = inr "ééé" /\
  catwaySchema.boatName (Some (nbsp ++ "Le Goéland" ++ nbsp))
    = inr "Le Goéland" /\
  userSchema.name (Some ("Al" ++ nbsp))
    = inl "Le nom doit comporter au moins 3 caractères" /\
  userSchema.password (Some "pässwö") = inr "pässwö".
Proof. repeat split. Qed.

Section CatwayValidation.
Context `{Externals}.

Lemma truthy_false (s : string) : truthy s = false <-> s = EmptyString.
Proof. destruct s; simpl; split; congruence. Qed.

Lemma type_accepted (v : option string) (t : string) :
  catwaySchema.type v = inr t <->
  exists t0, v = Some t0 /\ trim t0 = t /\ (t = "long" \/ t = "short").
Proof.
  unfold catwaySchema.type. destruct v as [t0 |]; simpl.
  - destruct (truthy (trim t0)) eqn:Ht; simpl.
    + destruct (String.eqb_spec (trim t0) "long") as [Hl | Hl];
        destruct (String.eqb_spec (trim t0) "short") as [Hs | Hs]; simpl;
        split;
        try (intros [= <-]; exists t0; tauto);
        try (intros (t1 & [= <-] & <- & Hor); tauto);
        try discriminate.
    + apply truthy_false in Ht. split; [discriminate |].
      intros (t1 & [= <-] & <- & [Hor | Hor]); rewrite Ht in Hor;
        discriminate.
  - split; [discriminate | intros (t1 & Hnone & _); discriminate].
Qed.

Lemma catwayState_accepted (v : option string) (s : string) :
  catwaySchema.catwayState v = inr s <->
  exists s0,
    v = Some s0 /\ trim s0 = s /\
    (3 <= jsLength s)%nat /\ (jsLength s <= 100)%nat.
Proof.
  unfold catwaySchema.catwayState. destruct v as [s0 |]; simpl.
  - destruct (truthy (trim s0)) eqn:Ht; simpl.
    + destruct (Nat.ltb_spec (jsLength (trim s0)) 3);
        [| destruct (Nat.ltb_spec 100 (jsLength (trim s0)))];
        split;
        try discriminate;
        try (intros [= <-]; exists s0; repeat split; lia);
        intros (s1 & [= <-] & <- & Hmin & Hmax); try lia; reflexivity.
    + apply truthy_false in Ht. split; [discriminate |].
      intros (s1 & [= <-] & <- & Hmin & _). rewrite Ht in Hmin.
      simpl in Hmin. lia.
  - split; [discriminate | intros (s1 & Hnone & _); discriminate].
Qed.

Lemma boatName_accepted (v : option string) (b : string) :
  catwaySchema.boatName v = inr b <->
  exists b0,
    v = Some b0 /\ trim b0 = b /\
    (2 <= jsLength b)%nat /\ (jsLength b <= 50)%nat /\
    hasLetter b = true.
Proof.
  unfold catwaySchema.boatName. destruct v as [b0 |]; simpl.
  - destruct (truthy (trim b0)) eqn:Ht; simpl.
    + destruct (Nat.ltb_spec (jsLength (trim b0)) 2);
        [| destruct (Nat.ltb_spec 50 (jsLength (trim b0)));
           [| destruct (hasLetter (trim b0)) eqn:Hl]];
        split;
        try discriminate;
        try (intros [= <-]; exists b0; repeat split; (lia || assumption));
        intros (b1 & [= <-] & <- & Hmin & Hmax & Hletter);
        try lia; try reflexivity; congruence.
    + apply truthy_false in Ht. split; [discriminate |].
      intros (b1 & [= <-] & <- & Hmin & _). rewrite Ht in Hmin.
      simpl in Hmin. lia.
  - split; [discriminate | intros (b1 & Hnone & _); discriminate].
Qed.

(** X14.  What the catway schema accepts, and what it stores: a catway is
    valid exactly when its number is given, its type is ['long'] or
    ['short'], its state has a length of 3 to 100 and the name of its boat
    has a length of 2 to 50 and holds a letter of the Latin alphabet, each
    string being taken as [trim] leaves it and each length being the
    [length] of JavaScript, in UTF-16 code units; the values kept are the
    strings so trimmed. *)
Theorem catway_accepted_iff (d : CatwayData) (n : Z) (t s b : string) :
  catwaySchema.validate d = inr (n, t, s, b) <->
  cd_catwayNumber d = Some n /\
  (exists t0, cd_type d = Some t0 /\ trim t0 = t /\ (t = "long" \/ t = "short")) /\
  (exists s0,
     cd_catwayState d = Some s0 /\ trim s0 = s /\
     (3 <= jsLength s)%nat /\ (jsLength s <= 100)%nat) /\
  (exists b0,
     cd_boatName d = Some b0 /\ trim b0 = b /\
     (2 <= jsLength b)%nat /\ (jsLength b <= 50)%nat /\
     hasLetter b = true).
Proof.
  rewrite <- type_accepted, <- catwayState_accepted, <- boatName_accepted.
  unfold catwaySchema.validate, catwaySchema.catwayNumber.
  destruct (cd_catwayNumber d) as [n0 |];
    destruct (catwaySchema.type (cd_type d)),
      (catwaySchema.catwayState (cd_catwayState d)),
      (catwaySchema.boatName (cd_boatName d));
    split;
    try discriminate;
    try (intros (Hn & Ht & Hs & Hb); discriminate);
    try (intros [= -> -> -> ->]; auto);
    intros ([= ->] & [= ->] & [= ->] & [= ->]); reflexivity.
Qed.

Lemma validate_errors (d : CatwayData) (errs : list (string * string)) :
  catwaySchema.validate d = inl errs ->
  errs <> [] /\ (length errs <= 4)%nat.
Proof.
  unfold catwaySchema.validate.
  destruct (catwaySchema.catwayNumber (cd_catwayNumber d)),
    (catwaySchema.type (cd_type d)),
    (catwaySchema.catwayState (cd_catwayState d)),
    (catwaySchema.boatName (cd_boatName d));
    intros [= <-]; simpl; split; try discriminate; lia.
Qed.

(** X15.  A catway that fails validation is answered by [add] with status
    400 and the page of errors, one message for each failing field (one to
    four); nothing is stored.  Validation comes
    before the unique index: the answer is the same whether or not the
    number is already stored. *)
Theorem invalid_catway_rejected (req : Request) (w : World)
    (errs : list (string * string)) :
  catwaySchema.validate (catwayDataOf req) = inl errs ->
  let w' := exec (app.catways_add req) w in
  errs <> [] /\ (length errs <= 4)%nat /\
  statusCode w' = 400 /\
  sent w' = Some (Rendered "error/error"
                    (VObj [("errors", VArr (VStr <$> (snd <$> errs)))])) /\
  catways w' = catways w.
Proof.
  intros Hv. cbv zeta. unfold exec.
  destruct (validate_errors _ _ Hv) as (Hne & Hlen).
  rewrite catways_add_response, (addCatway_invalid _ _ _ Hv). simpl.
  auto 10.
Qed.

End CatwayValidation.

Lemma invalid_catway_rejected_witness :
  let req := catwayRequest 101 "medium" "ok" "12345" in
  let w := arriving [] [stubCatway] [] 0 in
  statusCode (exec (@app.catways_add stubExternals req) w) = 400 /\
  sent (exec (@app.catways_add stubExternals req) w)
  = Some (Rendered "error/error"
            (VObj [("errors",
                    VArr [VStr "`medium` is not a valid enum value for path `type`.";
                          VStr "L'état du catway doit comporter au moins 3 caractères";
                          VStr "12345 n'est pas valide ! Le nom du bateau doit contenir au moins une lettre."])])).
Proof.
  cbv zeta.
  destruct (@invalid_catway_rejected stubExternals
              (catwayRequest 101 "medium" "ok" "12345")
              (arriving [] [stubCatway] [] 0) _ eq_refl)
    as (_ & _ & Hstatus & Hsent & _).
  split; [exact Hstatus | exact Hsent].
Defined.

(** ** Reservations of a catway *)

Section CatwayReservations.
Context `{Externals}.

(** X16.  A reservation is made for the catway of the route: its catway
    number and the name of its boat are those of the stored catway (the
    name without the white space around it), whatever the body of the
    request says; the client and the dates come from the body.  The
    reservation is appended to the store and the dashboard announces it. *)
Theorem reservation_takes_catway_fields (req : Request) (w : World)
    (catway : Catway.doc) (c b : string) (i o : Z) :
  isValidObjectId (param req "id") = true ->
  findDoc Catway._id (param req "id") (catways w) = Some catway ->
  reservationSchema.clientName (b_clientName (body req)) = inr c ->
  reservationSchema.boatName (Some (Catway.boatName catway)) = inr b ->
  b_checkIn (body req) = Some i ->
  b_checkOut (body req) = Some o ->
  clock w <= i -> i < o ->
  let w' := exec (app.reservations_add req) w in
  let r := Reservation.mk (newObjectId (idCounter w))
             (Catway.catwayNumber catway) c b i o in
  reservations w' = (reservations w ++ [r])%list /\
  b = trim (Catway.boatName catway) /\
  sent w' = Some (Rendered "dashboard/dashboard"
                    (messageObj ("La réservation du bateau " ++ b
                                 ++ " a été créée avec succès"))) /\
  statusCode w' = statusCode w /\ catways w' = catways w.
Proof.
  intros Hid Hcatway Hc Hb Hi Ho Hnow Hafter. cbv zeta.
  assert (Htrim : b = trim (Catway.boatName catway)).
  { unfold reservationSchema.boatName in Hb. simpl in Hb.
    destruct (truthy (trim (Catway.boatName catway))); simpl in Hb;
      congruence. }
  unfold exec, app.reservations_add, reservationsController.add, try_catch, bind.
  rewrite getCatwayById_result, Hid, Hcatway.
  unfold reservationService.creatReservation, reservationSchema.validate,
    reservationSchema.catwayNumber, reservationSchema.checkIn,
    reservationSchema.checkOut, Mongoose.newId.
  js_unfold. simpl. rewrite Hc, Hb, Hi, Ho.
  destruct (Z.leb_spec (clock w) i); [| lia].
  destruct (Z.ltb_spec i o); [| lia].
  simpl. auto.
Qed.

(** X17.  The reservations of a stored catway are those of the store that
    carry its number, in the order of the store; when there is none the
    answer is 404 with 'Aucune réservation trouvée', not an empty list. *)
Theorem catway_reservations_listed (req : Request) (w : World)
    (catway : Catway.doc) :
  isValidObjectId (param req "id") = true ->
  findDoc Catway._id (param req "id") (catways w) = Some catway ->
  let w' := exec (server.reservations_getAllOfCatway req) w in
  let found :=
    filter (fun r => Reservation.catwayNumber r = Catway.catwayNumber catway)
      (reservations w) in
  (forall r,
     r ∈ found <->
     r ∈ reservations w /\
     Reservation.catwayNumber r = Catway.catwayNumber catway) /\
  ((forall r,
      r ∈ reservations w ->
      Reservation.catwayNumber r <> Catway.catwayNumber catway) ->
   statusCode w' = 404 /\
   sent w' = Some (Json (messageObj "Aucune réservation trouvée"))) /\
  ((exists r,
      r ∈ reservations w /\
      Reservation.catwayNumber r = Catway.catwayNumber catway) ->
   statusCode w' = 200 /\
   sent w' = Some (Json (VArr (VReservation <$> found)))).
Proof.
  intros Hid Hcatway. cbv zeta.
  split; [intros r; rewrite list_elem_of_filter; tauto |].
  unfold exec, server.reservations_getAllOfCatway,
    reservationsController.getAllOfCatway, try_catch, bind,
    reservationService.getAllCatwayReservations.
  rewrite getCatwayById_result, Hid, Hcatway. js_unfold. simpl.
  set (found := filter _ (reservations w)).
  assert (Hfound : forall r,
             r ∈ found <->
             r ∈ reservations w /\
             Reservation.catwayNumber r = Catway.catwayNumber catway).
  { intros r. subst found. rewrite list_elem_of_filter. tauto. }
  split.
  - intros Hnone. destruct found as [| r rs]; [simpl; auto |].
    exfalso. destruct (proj1 (Hfound r)) as (Hin & Hn); [left |].
    exact (Hnone r Hin Hn).
  - intros (r & Hin & Hn). destruct found as [| r' rs] eqn:Hf.
    + assert (Hnil : r ∈ @nil Reservation.doc)
        by (apply (proj2 (Hfound r)); auto).
      inversion Hnil.
    + simpl. auto.
Qed.

(** X18.  Empty collections.  With no catway stored, the list of catways
    answers 404 with an empty list and the message made of the [message]
    of the query followed by '<br>Aucun catway trouvée' (which begins with
    'undefined' when the query has no message), and the form of a new
    reservation answers 404 with 'Aucun catway trouvé'.  With no
    reservation stored, the list of reservations is rendered empty, with
    the status left as it was. *)
Theorem empty_collections (req : Request) (w : World) :
  (catways w = [] ->
   server.catways_getAll req w =
     (Normal tt,
      set_sent (Rendered "catways/list"
                  (VObj [("catways", VArr []);
                         ("message",
                          VStr (toStr (query req !! "message")
                                ++ "<br>Aucun catway trouvée"))]))
        (set_statusCode 404 w)) /\
   (query req !! "message" = None ->
    toStr (query req !! "message") ++ "<br>Aucun catway trouvée"
    = "undefined<br>Aucun catway trouvée") /\
   server.reservations_renderAddForm req w =
     (Normal tt,
      set_sent (Rendered "catways/list"
                  (VObj [("catways", VArr []);
                         ("message", VStr "Aucun catway trouvé")]))
        (set_statusCode 404 w))) /\
  (reservations w = [] ->
   server.reservations_getAll req w =
     (Normal tt,
      set_sent (Rendered "reservations/list" (VObj [("reservations", VArr [])]))
        w)).
Proof.
  split.
  - intros Hempty.
    unfold server.catways_getAll, catwaysController.getAll,
      server.reservations_renderAddForm, reservationsController.renderAddForm,
      catwayService.getAllCatways.
    js_unfold. rewrite Hempty. simpl.
    split; [reflexivity |]. split; [| reflexivity].
    now intros ->.
  - intros Hempty.
    unfold server.reservations_getAll, reservationsController.getAll,
      reservationService.getAllReservation.
    js_unfold. now rewrite Hempty.
Qed.

End CatwayReservations.

Lemma reservation_takes_catway_fields_witness :
  let req := reservationRequest "60c72b2f9f1b2c001c9a9e84" "John Doe"
               "Another boat" 2000 3000 in
  let w := arriving [] [stubCatway] [] 1000 in
  reservations (exec (@app.reservations_add stubExternals req) w)
  = [Reservation.mk "650000000000000000000000" 101 "John Doe" "Serenity"
       2000 3000].
Proof.
  cbv zeta.
  destruct (@reservation_takes_catway_fields stubExternals
              (reservationRequest "60c72b2f9f1b2c001c9a9e84" "John Doe"
                 "Another boat" 2000 3000)
              (arriving [] [stubCatway] [] 1000) stubCatway
              "John Doe" "Serenity" 2000 3000
              eq_refl eq_refl eq_refl eq_refl eq_refl eq_refl)
    as (Hreservations & _).
  - simpl. lia.
  - lia.
  - exact Hreservations.
Defined.

Lemma catway_reservations_listed_witness :
  let req := requestFor "60c72b2f9f1b2c001c9a9e84" in
  statusCode (exec (@server.reservations_getAllOfCatway stubExternals req)
                (arriving [] [stubCatway] [] 0)) = 404 /\
  sent (exec (@server.reservations_getAllOfCatway stubExternals req)
          (arriving [] [stubCatway] [stubStay] 0))
  = Some (Json (VArr [VReservation stubStay])).
Proof.
  cbv zeta. split.
  - destruct (@catway_reservations_listed stubExternals
                (requestFor "60c72b2f9f1b2c001c9a9e84")
                (arriving [] [stubCatway] [] 0) stubCatway eq_refl eq_refl)
      as (_ & Hnone & _).
    apply Hnone. intros r Hr. inversion Hr.
  - destruct (@catway_reservations_listed stubExternals
                (requestFor "60c72b2f9f1b2c001c9a9e84")
                (arriving [] [stubCatway] [stubStay] 0) stubCatway
                eq_refl eq_refl)
      as (_ & _ & Hsome).
    apply Hsome. exists stubStay. split; [left | reflexivity].
Defined.

Lemma empty_collections_witness :
  sent (exec (server.catways_getAll noCookie) (arriving [] [] [] 0))
  = Some (Rendered "catways/list"
            (VObj [("catways", VArr []);
                   ("message", VStr "undefined<br>Aucun catway trouvée")])) /\
  statusCode (exec (server.reservations_getAll noCookie) (arriving [] [] [] 0))
  = 200.
Proof.
  unfold exec.
  destruct (empty_collections noCookie (arriving [] [] [] 0))
    as (Hcatways & Hreservations).
  destruct (Hcatways eq_refl) as (-> & _ & _).
  rewrite (Hreservations eq_refl).
  split; reflexivity.
Defined.

(** ** Users *)

(** X19.  The list of users is never served: the users service exports no
    [getAllUsers], the call made by [getUsersList] raises a TypeError
    inside the [try] block, and the answer is 501 with that error, whatever
    the store holds. *)
Theorem users_list_unavailable (req : Request) (w : World) :
  server.users_getUsersList req w =
    (Normal tt,
     set_sent (Json (VError (TypeError "userService.getAllUsers is not a function")))
       (set_statusCode 501 w)) /\
  users (exec (server.users_getUsersList req) w) = users w.
Proof. split; reflexivity. Qed.

Lemma falsy_assignTruthy (new : option string) (old : string) :
  falsy new -> assignTruthy new old = old.
Proof. now intros [-> | ->]. Qed.

Lemma falsy_assignTruthyOpt (new old : option string) :
  falsy new -> assignTruthyOpt new old = old.
Proof. now intros [-> | ->]. Qed.

(** X20.  The update of a user.  When no user has the identifier, the
    answer is 404 and [save] is not called.  When the three fields of the
    form are missing or empty, the stored user is saved as it is.  When
    [save] fails with the duplicate-key error of the unique index on the
    email, the answer is 501 with the error of the driver (where the
    creation of a user answers 400). *)
Theorem update_user_edges (findUserById : string -> Js (option User.doc))
    (save : User.doc -> Js User.doc) (req : Request) (w w1 : World) :
  (findUserById (param req "id") w = (Normal None, w1) ->
   usersController.update findUserById save req w =
     (Normal tt,
      set_sent (Json (VStr "Utilisateur non trouvé")) (set_statusCode 404 w1))) /\
  (forall user saved w2,
     findUserById (param req "id") w = (Normal (Some user), w1) ->
     falsy (b_name (body req)) ->
     falsy (b_email (body req)) ->
     falsy (b_password (body req)) ->
     save user w1 = (Normal saved, w2) ->
     usersController.update findUserById save req w =
       (Normal tt,
        set_sent (Rendered "users/edit_user"
                    (VObj [("user", VUser saved);
                           ("message",
                            VStr "L'utilisateur a été mis à jour avec succès")]))
          (set_statusCode 200 w2))) /\
  (forall user w2,
     findUserById (param req "id") w = (Normal (Some user), w1) ->
     save (User.mk (User._id user)
             (assignTruthy (b_name (body req)) (User.name user))
             (assignTruthy (b_email (body req)) (User.email user))
             (assignTruthyOpt (b_password (body req)) (User.password user))) w1
     = (Throw (DuplicateKeyError "email"), w2) ->
     usersController.update findUserById save req w =
       (Normal tt,
        set_sent (Json (VError (DuplicateKeyError "email")))
          (set_statusCode 501 w2))).
Proof.
  unfold usersController.update, try_catch, bind. conjuncts.
  - intros Hfind. rewrite Hfind. reflexivity.
  - intros user saved w2 Hfind Hn He Hp Hsave. rewrite Hfind. simpl.
    rewrite (falsy_assignTruthy _ _ Hn), (falsy_assignTruthy _ _ He),
      (falsy_assignTruthyOpt _ _ Hp).
    destruct user as [id name email password]. simpl in *.
    rewrite Hsave. reflexivity.
  - intros user w2 Hfind Hsave. rewrite Hfind. simpl.
    rewrite Hsave. reflexivity.
Qed.

Lemma update_user_edges_witness :
  let req := requestFor "60c72b2f9f1b2c001c9a9e84" in
  let w := arriving [stubUser] [] [] 0 in
  statusCode (exec (usersController.update findNobody throwingSave req) w) = 404 /\
  sent (exec (usersController.update findAlice sameSave req) w)
  = Some (Rendered "users/edit_user"
            (VObj [("user", VUser stubUser);
                   ("message", VStr "L'utilisateur a été mis à jour avec succès")])) /\
  statusCode (exec (usersController.update findAlice
                      (fun _ => throw (DuplicateKeyError "email")) req) w) = 501.
Proof.
  cbv zeta. unfold exec. split; [| split].
  - destruct (update_user_edges findNobody throwingSave
                (requestFor "60c72b2f9f1b2c001c9a9e84")
                (arriving [stubUser] [] [] 0) (arriving [stubUser] [] [] 0))
      as (Hnone & _).
    rewrite (Hnone eq_refl). reflexivity.
  - destruct (update_user_edges findAlice sameSave
                (requestFor "60c72b2f9f1b2c001c9a9e84")
                (arriving [stubUser] [] [] 0) (arriving [stubUser] [] [] 0))
      as (_ & Hsame & _).
    rewrite (Hsame stubUser stubUser (arriving [stubUser] [] [] 0) eq_refl
               (or_introl eq_refl) (or_introl eq_refl) (or_introl eq_refl)
               eq_refl).
    reflexivity.
  - destruct (update_user_edges findAlice
                (fun _ => throw (DuplicateKeyError "email"))
                (requestFor "60c72b2f9f1b2c001c9a9e84")
                (arriving [stubUser] [] [] 0) (arriving [stubUser] [] [] 0))
      as (_ & _ & Hdup).
    rewrite (Hdup stubUser (arriving [stubUser] [] [] 0) eq_refl eq_refl).
    reflexivity.
Defined.

(** ** The matcher of regular expressions *)

Lemma string_app_nil (s t : string) :
  s ++ t = EmptyString -> s = EmptyString /\ t = EmptyString.
Proof. destruct s; simpl; [auto | discriminate]. Qed.

Lemma string_app_cons (s t : string) (c : ascii) (u : string) :
  s ++ t = String c u ->
  (s = EmptyString /\ t = String c u) \/
  (exists s', s = String c s' /\ u = s' ++ t).
Proof.
  destruct s as [| x s]; simpl; [auto |].
  intros [= -> <-]. right. eauto.
Qed.

Lemma nullable_lang (r : regex) : nullable r = true <-> lang r EmptyString.
Proof.
  induction r as [| | p | r1 IH1 r2 IH2 | r1 IH1 r2 IH2 | r IH]; simpl.
  - split; [discriminate | intros Hl; inversion Hl].
  - split; [constructor | reflexivity].
  - split; [discriminate | intros Hl; inversion Hl].
  - rewrite andb_true_iff, IH1, IH2. split.
    + intros [H1 H2]. exact (lang_cat _ _ _ _ H1 H2).
    + intros Hl. inversion Hl as [| | ? ? s t Hs Ht | | | |]; subst.
      match goal with Hnil : _ ++ _ = EmptyString |- _ =>
        apply string_app_nil in Hnil as [-> ->] end.
      auto.
  - rewrite orb_true_iff, IH1, IH2. split.
    + intros [Hl | Hl]; [now apply lang_alt_l | now apply lang_alt_r].
    + intros Hl. inversion Hl; subst; auto.
  - split; [constructor | reflexivity].
Qed.

Lemma lang_star_cons_inv (r : regex) (c : ascii) (u : string) :
  lang (Star r) (String c u) ->
  exists s t, u = s ++ t /\ lang r (String c s) /\ lang (Star r) t.
Proof.
  intros Hl. remember (Star r) as sr eqn:Hsr.
  remember (String c u) as cu eqn:Hcu.
  induction Hl as [| | | | | | r' s t Hs _ Ht IHt]; try discriminate.
  injection Hsr as ->.
  destruct (string_app_cons _ _ _ _ Hcu) as [[-> ->] | (s' & -> & ->)].
  - now apply IHt.
  - eauto.
Qed.

Lemma lang_deriv (c : ascii) (r : regex) (s : string) :
  lang (deriv c r) s <-> lang r (String c s).
Proof.
  revert s.
  induction r as [| | p | r1 IH1 r2 IH2 | r1 IH1 r2 IH2 | r IH];
    intros s; simpl.
  - split; intros Hl; inversion Hl.
  - split; intros Hl; inversion Hl.
  - destruct (p c) eqn:Hp; split; intros Hl; inversion Hl; subst.
    + now constructor.
    + constructor.
    + congruence.
  - assert (Hleft : forall u,
               lang (Cat (deriv c r1) r2) u -> lang (Cat r1 r2) (String c u)).
    { intros u Hl. inversion Hl as [| | ? ? s1 s2 H1 H2 | | | |]; subst.
      apply IH1 in H1.
      exact (lang_cat _ _ _ _ H1 H2). }
    assert (Hsplit : lang (Cat r1 r2) (String c s) ->
               (lang r1 EmptyString /\ lang r2 (String c s)) \/
               lang (Cat (deriv c r1) r2) s).
    { intros Hl. inversion Hl as [| | ? ? s1 s2 H1 H2 | | | |]; subst.
      match goal with Heq : _ ++ _ = String _ _ |- _ =>
        destruct (string_app_cons _ _ _ _ Heq) as [[-> ->] | (s' & -> & ->)]
      end.
      - left. auto.
      - right. apply IH1 in H1. now constructor. }
    destruct (nullable r1) eqn:Hn.
    + split.
      * intros Hl. inversion Hl; subst; [now apply Hleft |].
        match goal with Hd : lang (deriv c r2) _ |- _ => apply IH2 in Hd;
          apply nullable_lang in Hn;
          exact (lang_cat _ _ _ _ Hn Hd) end.
      * intros Hl. destruct (Hsplit Hl) as [[_ H2] | Hd].
        -- apply lang_alt_r. now apply IH2.
        -- now apply lang_alt_l.
    + split; [apply Hleft |].
      intros Hl. destruct (Hsplit Hl) as [[H1 _] | Hd]; [| exact Hd].
      apply nullable_lang in H1. congruence.
  - split; intros Hl; inversion Hl; subst.
    + apply lang_alt_l. now apply IH1.
    + apply lang_alt_r. now apply IH2.
    + apply lang_alt_l. now apply IH1.
    + apply lang_alt_r. now apply IH2.
  - split.
    + intros Hl. inversion Hl as [| | ? ? s1 s2 H1 H2 | | | |]; subst.
      apply IH in H1.
      exact (lang_star_cons _ _ _ H1 H2).
    + intros Hl.
      destruct (lang_star_cons_inv _ _ _ Hl) as (s1 & s2 & -> & H1 & H2).
      apply IH in H1. now constructor.
Qed.

(** The matcher decides the language. *)
Lemma test_lang (r : regex) (s : string) : test r s = true <-> lang r s.
Proof.
  revert r. induction s as [| c s IH]; intros r; simpl.
  - apply nullable_lang.
  - rewrite IH. apply lang_deriv.
Qed.

Lemma lang_eps_inv (s : string) : lang Eps s <-> s = EmptyString.
Proof. split; [intros Hl; now inversion Hl | intros ->; constructor]. Qed.

Lemma lang_cons (p : ascii -> bool) (r : regex) (u : string) :
  lang (Cat (Class p) r) u <->
  exists c s, u = String c s /\ p c = true /\ lang r s.
Proof.
  split.
  - intros Hl. inversion Hl as [| | ? ? s1 s2 H1 H2 | | | |]; subst.
    inversion H1; subst. simpl. eauto.
  - intros (c & s & -> & Hp & Hs).
    exact (lang_cat _ _ _ _ (lang_class p c Hp) Hs).
Qed.

Lemma lang_opt (r : regex) (s : string) :
  lang (Opt r) s <-> s = EmptyString \/ lang r s.
Proof.
  unfold Opt. split.
  - intros Hl. inversion Hl; subst; [left; now apply lang_eps_inv | now right].
  - intros [-> | Hl]; [apply lang_alt_l; constructor | now apply lang_alt_r].
Qed.

Lemma lang_class_inv (p : ascii -> bool) (s : string) :
  lang (Class p) s <-> exists c, s = String c EmptyString /\ p c = true.
Proof.
  split.
  - intros Hl. inversion Hl; subst. eauto.
  - intros (c & -> & Hp). now constructor.
Qed.

Lemma allChars_app (p : ascii -> bool) (s t : string) :
  allChars p (s ++ t) = allChars p s && allChars p t.
Proof.
  induction s as [| c s IH]; simpl; [reflexivity |].
  now rewrite IH, andb_assoc.
Qed.

Lemma lang_star_class (p : ascii -> bool) (s : string) :
  lang (Star (Class p)) s <-> allChars p s = true.
Proof.
  split.
  - intros Hl. remember (Star (Class p)) as r eqn:Hr.
    induction Hl as [| | | | | | r' u t Hu _ Ht IHt]; try discriminate.
    + reflexivity.
    + injection Hr as ->. inversion Hu; subst. simpl.
      apply andb_true_iff. auto.
  - induction s as [| c s IH]; simpl; [constructor |].
    intros Hall. apply andb_true_iff in Hall as [Hc Hs].
    exact (lang_star_cons _ _ _ (lang_class p c Hc) (IH Hs)).
Qed.

Lemma lang_plus_class (p : ascii -> bool) (s : string) :
  lang (Plus (Class p)) s <-> s <> EmptyString /\ allChars p s = true.
Proof.
  unfold Plus. rewrite lang_cons. split.
  - intros (c & t & -> & Hc & Ht). apply lang_star_class in Ht.
    simpl. rewrite Hc, Ht. split; [discriminate | reflexivity].
  - intros [Hne Hall]. destruct s as [| c t]; [contradiction |].
    simpl in Hall. apply andb_true_iff in Hall as [Hc Ht].
    exists c, t. rewrite lang_star_class. auto.
Qed.

Lemma string_app_assoc (a b c : string) : (a ++ b) ++ c = a ++ (b ++ c).
Proof.
  induction a as [| x a IH]; [reflexivity |].
  change (String x ((a ++ b) ++ c) = String x (a ++ (b ++ c))).
  now rewrite IH.
Qed.

Lemma lang_label_dot (u : string) :
  lang (Cat (Plus (Class isLabelChar)) (Class (isChar "."))) u <->
  exists l, u = l ++ "." /\ labelOk l.
Proof.
  split.
  - intros Hl. inversion Hl as [| | ? ? s1 s2 H1 H2 | | | |]; subst.
    apply lang_plus_class in H1. apply lang_class_inv in H2 as (c & -> & Hc).
    apply Ascii.eqb_eq in Hc as <-. exists s1. split; [reflexivity | exact H1].
  - intros (l & -> & Hok). apply lang_cat.
    + now apply lang_plus_class.
    + now constructor.
Qed.

Lemma lang_labels (u : string) :
  lang (Star (Cat (Plus (Class isLabelChar)) (Class (isChar ".")))) u <->
  exists labels, u = dotted labels /\ Forall labelOk labels.
Proof.
  split.
  - intros Hl.
    remember (Star (Cat (Plus (Class isLabelChar)) (Class (isChar "."))))
      as r eqn:Hr.
    induction Hl as [| | | | | | r' s t Hs _ Ht IHt]; try discriminate.
    + exists []. split; [reflexivity | constructor].
    + injection Hr as ->.
      destruct (IHt eq_refl) as (labels & -> & Hall).
      apply lang_label_dot in Hs as (l & -> & Hok).
      exists (l :: labels). split; [| now constructor].
      exact (string_app_assoc l "." (dotted labels)).
  - intros (labels & -> & Hall).
    induction Hall as [| l labels Hok _ IH]; [constructor |].
    change (dotted (l :: labels)) with (l ++ ("." ++ dotted labels)).
    rewrite <- string_app_assoc.
    apply lang_star_cons; [| exact IH].
    apply lang_label_dot. eauto.
Qed.

Lemma lang_tld (t : string) :
  lang (Cat (Class isLabelChar)
          (Cat (Class isLabelChar)
             (Opt (Cat (Class isLabelChar) (Opt (Class isLabelChar)))))) t <->
  allChars isLabelChar t = true /\
  (2 <= String.length t)%nat /\ (String.length t <= 4)%nat.
Proof.
  split.
  - intros Hl.
    apply lang_cons in Hl as (a & t1 & -> & Ha & Hl).
    apply lang_cons in Hl as (b & t2 & -> & Hb & Hl).
    simpl. rewrite Ha, Hb. simpl.
    apply lang_opt in Hl as [-> | Hl]; [simpl; repeat split; lia |].
    apply lang_cons in Hl as (c & t3 & -> & Hc & Hl).
    simpl. rewrite Hc. simpl.
    apply lang_opt in Hl as [-> | Hl]; [simpl; repeat split; lia |].
    apply lang_class_inv in Hl as (d & -> & Hd).
    simpl. rewrite Hd. repeat split; lia.
  - intros (Hall & Hmin & Hmax).
    destruct t as [| a [| b t]]; simpl in Hmin; try lia.
    simpl in Hall.
    apply andb_true_iff in Hall as [Ha Hall].
    apply andb_true_iff in Hall as [Hb Hall].
    apply lang_cons. exists a, (String b t). repeat split; [exact Ha |].
    apply lang_cons. exists b, t. repeat split; [exact Hb |].
    apply lang_opt. destruct t as [| c t]; [now left | right].
    simpl in Hall. apply andb_true_iff in Hall as [Hc Hall].
    apply lang_cons. exists c, t. repeat split; [exact Hc |].
    apply lang_opt. destruct t as [| d t]; [now left | right].
    simpl in Hall. apply andb_true_iff in Hall as [Hd _].
    destruct t; [| simpl in Hmax; lia].
    now constructor.
Qed.

(** X21.  The addresses that the user schema accepts: a local part, not
    empty, of word characters, hyphens and dots; an ['@']; one or more
    labels, each not empty, of word characters and hyphens, and each
    followed by a dot; and a last label of 2 to 4 such characters. *)
Theorem email_accepted_iff (s : string) :
  test emailRegex s = true <->
  exists local labels tld,
    s = local ++ "@" ++ dotted labels ++ tld /\
    local <> EmptyString /\ allChars isLocalChar local = true /\
    labels <> [] /\ Forall labelOk labels /\
    allChars isLabelChar tld = true /\
    (2 <= String.length tld)%nat /\ (String.length tld <= 4)%nat.
Proof.
  rewrite test_lang. unfold emailRegex. split.
  - intros Hl. inversion Hl as [| | ? ? local rest Hlocal Hrest | | | |]; subst.
    apply lang_plus_class in Hlocal as [Hne Hall].
    apply lang_cons in Hrest as (c & rest' & -> & Hc & Hrest).
    apply Ascii.eqb_eq in Hc as <-.
    inversion Hrest as [| | ? ? dom tld Hdom Htld | | | |]; subst.
    apply lang_tld in Htld as (Htall & Hmin & Hmax).
    unfold Plus in Hdom.
    inversion Hdom as [| | ? ? first more Hfirst Hmore | | | |]; subst.
    apply lang_label_dot in Hfirst as (l & -> & Hok).
    apply lang_labels in Hmore as (labels & -> & Hlabels).
    exists local, (l :: labels), tld.
    repeat split; try assumption; try discriminate; [| now constructor].
    change (dotted (l :: labels)) with (l ++ ("." ++ dotted labels)).
    now rewrite <- (string_app_assoc l).
  - intros (local & labels & tld & -> & Hne & Hall & Hlabels & Hok & Htall
            & Hmin & Hmax).
    apply lang_cat; [now apply lang_plus_class |].
    apply lang_cons. exists "@"%char, (dotted labels ++ tld).
    repeat split.
    apply lang_cat; [| now apply lang_tld].
    destruct labels as [| l labels]; [contradiction |].
    inversion Hok as [| ? ? Hl Hrest]; subst.
    change (dotted (l :: labels)) with (l ++ ("." ++ dotted labels)).
    rewrite <- string_app_assoc. unfold Plus.
    apply lang_cat; [apply lang_label_dot; eauto |].
    apply lang_labels. eauto.
Qed.

Lemma occurrences_app (c : ascii) (s t : string) :
  occurrences c (s ++ t) = (occurrences c s + occurrences c t)%nat.
Proof.
  induction s as [| x s IH]; simpl; [reflexivity |]. rewrite IH. lia.
Qed.

Lemma occurrences_none (p : ascii -> bool) (c : ascii) (s : string) :
  p c = false -> allChars p s = true -> occurrences c s = 0%nat.
Proof.
  intros Hc. induction s as [| x s IH]; simpl; [reflexivity |].
  intros Hall. apply andb_true_iff in Hall as [Hx Hs].
  destruct (Ascii.eqb_spec c x) as [-> | _]; [congruence | auto].
Qed.

Lemma allChars_weaken (p q : ascii -> bool) (s : string) :
  (forall c, p c = true -> q c = true) ->
  allChars p s = true -> allChars q s = true.
Proof.
  intros Hpq. induction s as [| x s IH]; simpl; [reflexivity |].
  intros Hall. apply andb_true_iff in Hall as [Hx Hs].
  rewrite (Hpq _ Hx). auto.
Qed.

Lemma dotted_chars (labels : list string) :
  Forall labelOk labels ->
  allChars isLocalChar (dotted labels) = true /\
  occurrences "@" (dotted labels) = 0%nat.
Proof.
  induction 1 as [| l labels [_ Hl] _ [IHall IHocc]]; [simpl; auto |].
  change (dotted (l :: labels)) with (l ++ ("." ++ dotted labels)).
  split.
  - rewrite !allChars_app, IHall.
    rewrite (allChars_weaken isLabelChar isLocalChar l); [reflexivity | | exact Hl].
    intros c Hc. unfold isLocalChar, isLabelChar in *.
    apply orb_true_iff. now left.
  - rewrite !occurrences_app, IHocc.
    now rewrite (occurrences_none isLabelChar "@" l eq_refl Hl).
Qed.

(** X22.  An address that the user schema accepts has exactly one ['@']
    and no character other than letters, digits, ['_'], ['-'], ['.'] and
    that ['@']: an address with a ['+'], a space or an accented letter is
    refused. *)
Theorem email_accepted_shape (s : string) :
  test emailRegex s = true ->
  occurrences "@" s = 1%nat /\
  allChars (fun c => isLocalChar c || Ascii.eqb c "@") s = true.
Proof.
  intros Hs. apply test_lang in Hs. unfold emailRegex in Hs.
  inversion Hs as [| | ? ? local rest Hlocal Hrest | | | |]; subst.
  apply lang_plus_class in Hlocal as [_ Hall].
  apply lang_cons in Hrest as (c & rest' & -> & Hc & Hrest).
  apply Ascii.eqb_eq in Hc as <-.
  inversion Hrest as [| | ? ? dom tld Hdom Htld | | | |]; subst.
  apply lang_tld in Htld as (Htall & _).
  assert (Hlabels : exists labels, dom = dotted labels /\ Forall labelOk labels).
  { unfold Plus in Hdom.
    inversion Hdom as [| | ? ? first more Hfirst Hmore | | | |]; subst.
    apply lang_label_dot in Hfirst as (l & -> & Hok).
    apply lang_labels in Hmore as (labels & -> & Hlabels).
    exists (l :: labels). split; [| now constructor].
    exact (string_app_assoc l "." (dotted labels)). }
  destruct Hlabels as (labels & -> & Hlabels).
  destruct (dotted_chars labels Hlabels) as (Hdall & Hdocc).
  assert (Hweak : forall q, allChars isLocalChar q = true ->
             allChars (fun c => isLocalChar c || Ascii.eqb c "@") q = true).
  { intros q. apply allChars_weaken. intros x Hx. now rewrite Hx. }
  change (String "@" (dotted labels ++ tld))
    with ("@" ++ (dotted labels ++ tld)).
  split.
  - rewrite !occurrences_app, Hdocc.
    rewrite (occurrences_none isLocalChar "@" local eq_refl Hall).
    now rewrite (occurrences_none isLabelChar "@" tld eq_refl Htall).
  - rewrite !allChars_app.
    rewrite (Hweak _ Hall), (Hweak _ Hdall). simpl.
    apply allChars_weaken with (p := isLabelChar); [| exact Htall].
    intros x Hx. unfold isLocalChar, isLabelChar in *.
    apply orb_true_iff. left. apply orb_true_iff. now left.
Qed.

Lemma email_accepted_shape_witness :
  occurrences "@" "john@example.com" = 1%nat /\
  allChars (fun c => isLocalChar c || Ascii.eqb c "@") "john@example.com" = true.
Proof. apply (email_accepted_shape "john@example.com"). reflexivity. Defined.

(** X23.  The names that the user schema accepts, and what it stores: a
    name is valid exactly when, as [trim] leaves it, it has a length of 3
    to 50 (the [length] of JavaScript, in UTF-16 code units) and is made
    of letters of the ASCII alphabet only; a name with a space, a hyphen,
    a digit or an accented letter is refused. *)
Theorem user_name_accepted_iff (v : option string) (s : string) :
  userSchema.name v = inr s <->
  exists s0,
    v = Some s0 /\ trim s0 = s /\
    (3 <= jsLength s)%nat /\ (jsLength s <= 50)%nat /\
    allChars isLetter s = true.
Proof.
  assert (Hre : forall u, (3 <= jsLength u)%nat ->
            (test nameRegex u = true <-> allChars isLetter u = true)).
  { intros u Hlen. rewrite test_lang. unfold nameRegex.
    rewrite lang_plus_class. split; [tauto |].
    intros Hall. split; [| exact Hall].
    intros ->. simpl in Hlen. lia. }
  unfold userSchema.name. destruct v as [s0 |]; simpl.
  - destruct (truthy (trim s0)) eqn:Ht; simpl.
    + destruct (Nat.ltb_spec (jsLength (trim s0)) 3) as [Hmin | Hmin];
        [| destruct (Nat.ltb_spec 50 (jsLength (trim s0))) as [Hmax | Hmax];
           [| destruct (test nameRegex (trim s0)) eqn:Hre0]];
        split;
        try discriminate;
        try (intros (s1 & [= <-] & <- & Hmin' & Hmax' & Hall); lia).
      * intros [= <-]. exists s0. repeat split; try lia. now apply Hre.
      * intros (s1 & [= <-] & <- & _). reflexivity.
      * intros (s1 & [= <-] & <- & _ & _ & Hall).
        apply Hre in Hall; [congruence | exact Hmin].
    + apply truthy_false in Ht. split; [discriminate |].
      intros (s1 & [= <-] & <- & Hmin & _). rewrite Ht in Hmin.
      simpl in Hmin. lia.
  - split; [discriminate | intros (s1 & Hnone & _); discriminate].
Qed.

(** ** Creating a user *)

Section UserCreation.
Context `{Externals}.
Variable bcrypt_hash : option string -> nat -> Js string.

Lemma find_snoc_email (e : string) (us : list User.doc) (u : User.doc) :
  existsb (fun x => String.eqb (User.email x) e) us = false ->
  User.email u = e ->
  find (fun x => String.eqb (User.email x) e) (us ++ [u]) = Some u.
Proof.
  intros Hnone He. induction us as [| x us IH]; simpl in *.
  - subst e. now rewrite String.eqb_refl.
  - apply orb_false_iff in Hnone as [Hx Hus]. rewrite Hx. auto.
Qed.

Lemma addUser_result (d : UserData) (w : World) (n e p h : string) :
  userSchema.validate d = inr (n, e, p) ->
  bcrypt_hash (Some p) 10 (bump_idCounter w) = (Normal h, bump_idCounter w) ->
  userCreation.addUser bcrypt_hash d w =
    let newUser := User.mk (newObjectId (idCounter w)) n e (Some h) in
    if emailStored e w
    then (Throw (DuplicateKeyError "email"), bump_idCounter w)
    else (Normal newUser,
          set_users (users w ++ [newUser])%list (bump_idCounter w)).
Proof.
  intros Hv Hh. unfold userCreation.addUser, userSchema.preSave, Mongoose.newId.
  rewrite Hv. js_unfold. simpl. rewrite Hh. simpl.
  unfold emailStored. destruct (existsb _ (users w)); reflexivity.
Qed.

Lemma password_trimmed (d : UserData) (n e p : string) :
  userSchema.validate d = inr (n, e, p) ->
  exists p0,
    ud_password d = Some p0 /\ p = trim p0 /\ (6 <= jsLength p)%nat.
Proof.
  unfold userSchema.validate.
  destruct (userSchema.name (ud_name d)), (userSchema.email (ud_email d));
    destruct (userSchema.password (ud_password d)) as [m | p'] eqn:Hp;
    try discriminate.
  intros [= _ _ <-]. unfold userSchema.password in Hp.
  destruct (ud_password d) as [p0 |]; simpl in Hp; [| discriminate].
  destruct (truthy (trim p0)); simpl in Hp; [| discriminate].
  destruct (Nat.ltb_spec (jsLength (trim p0)) 6); [discriminate |].
  injection Hp as <-. eauto.
Qed.

(** X24.  A user who has just signed up, with an email that was not
    stored, is stored with the hash of the password of the form taken
    without the white space around it.  A login with that email then
    compares the password of the login form, as it is typed, with that
    hash: it is accepted when [bcrypt.compare] answers [true] and refused
    as a wrong password when it answers [false]. *)
Theorem created_user_logs_in (d : UserData) (login : Request) (w : World)
    (n e p h : string) :
  userSchema.validate d = inr (n, e, p) ->
  bcrypt_hash (Some p) 10 (bump_idCounter w) = (Normal h, bump_idCounter w) ->
  emailStored e w = false ->
  b_email (body login) = Some e ->
  let newUser := User.mk (newObjectId (idCounter w)) n e (Some h) in
  let w1 := exec (userCreation.addUser bcrypt_hash d) w in
  (exists p0, ud_password d = Some p0 /\ p = trim p0) /\
  completion (userCreation.addUser bcrypt_hash d) w = Normal newUser /\
  users w1 = (users w ++ [newUser])%list /\
  storedUser login w1 = Some newUser /\
  (forall err,
     bcrypt_compare (b_password (body login)) (Some h) = (err, true) ->
     sent (exec (app.users_authenticate login) w1)
     = Some (Rendered "dashboard/dashboard" VUndefined)) /\
  (bcrypt_compare (b_password (body login)) (Some h) = (None, false) ->
   sent (exec (app.users_authenticate login) w1)
   = Some (Rendered "home/home"
             (messageObj "mot de passe erroné, veuillez réessayer."))).
Proof.
  intros Hv Hh Hfresh Hlogin. cbv zeta.
  destruct (password_trimmed _ _ _ _ Hv) as (p0 & Hp0 & Htrim & _).
  unfold exec, completion. rewrite (addUser_result _ _ _ _ _ _ Hv Hh), Hfresh.
  cbv zeta. simpl.
  set (newUser := User.mk (newObjectId (idCounter w)) n e (Some h)).
  set (w1 := set_users (users w ++ [newUser])%list (bump_idCounter w)).
  assert (Hstored : storedUser login w1 = Some newUser).
  { unfold storedUser. rewrite Hlogin. simpl.
    now apply find_snoc_email. }
  split; [eauto |]. split; [reflexivity |]. split; [reflexivity |].
  split; [exact Hstored |]. split.
  - intros err Hc. rewrite (authenticate_found _ _ _ Hstored). simpl.
    rewrite Hc. reflexivity.
  - intros Hc. rewrite (authenticate_found _ _ _ Hstored). simpl.
    rewrite Hc. reflexivity.
Qed.

Lemma users_add_response (req : Request) (w : World) :
  userCreation.users_add bcrypt_hash req w =
    match userCreation.addUser bcrypt_hash (userDataOf req) w with
    | (Normal user, w1) =>
        (Normal tt,
         set_sent (Rendered "dashboard/dashboard"
                     (messageObj ("L'utilisateur " ++ User.name user
                                  ++ "a été créé avec succès"))) w1)
    | (Throw error, w1) =>
        if isValidationError error then
          (Normal tt,
           set_sent (Rendered "error/error" (errorMessages error))
             (set_statusCode 400 w1))
        else if isDuplicateKey error then
          (Normal tt,
           set_sent (Rendered "error/error"
                       (oneError "Cet email existe déjà dans notre base de données"))
             (set_statusCode 400 w1))
        else
          (Normal tt,
           set_sent (Json (internalServerError error)) (set_statusCode 500 w1))
    end.
Proof.
  unfold userCreation.users_add, usersController.add, userDataOf. js_unfold.
  destruct (userCreation.addUser _ _ w) as [[u | e] w1]; [reflexivity |].
  destruct (isValidationError e); [reflexivity |].
  destruct (isDuplicateKey e); reflexivity.
Qed.

(** X25.  Signing up with an email that a stored user already has (the
    same string, once the white space around it is removed) is refused by
    the unique index: [add] answers 400 with 'Cet email existe déjà dans
    notre base de données' and the stored users are as they were. *)
Theorem duplicate_email_rejected (req : Request) (w : World)
    (n e p h : string) :
  userSchema.validate (userDataOf req) = inr (n, e, p) ->
  bcrypt_hash (Some p) 10 (bump_idCounter w) = (Normal h, bump_idCounter w) ->
  emailStored e w = true ->
  let w' := exec (userCreation.users_add bcrypt_hash req) w in
  statusCode w' = 400 /\
  sent w' = Some (Rendered "error/error"
                    (oneError "Cet email existe déjà dans notre base de données")) /\
  users w' = users w.
Proof.
  intros Hv Hh Hdup. cbv zeta. unfold exec.
  rewrite users_add_response, (addUser_result _ _ _ _ _ _ Hv Hh), Hdup.
  simpl. auto.
Qed.

Lemma user_validate_errors (d : UserData) (errs : list (string * string)) :
  userSchema.validate d = inl errs -> errs <> [] /\ (length errs <= 3)%nat.
Proof.
  unfold userSchema.validate.
  destruct (userSchema.name (ud_name d)), (userSchema.email (ud_email d)),
    (userSchema.password (ud_password d));
    intros [= <-]; simpl; split; try discriminate; lia.
Qed.

(** X26.  A sign-up that fails validation is answered with status 400 and
    one message for each failing field (one to three); nothing is stored
    and the password is not hashed, the validation coming before the
    hook.  A password whose length, as [trim] leaves it, is less than 6
    (the [length] of JavaScript, in UTF-16 code units) always fails
    validation. *)
Theorem invalid_user_rejected (req : Request) (w : World) :
  (forall errs,
     userSchema.validate (userDataOf req) = inl errs ->
     errs <> [] /\ (length errs <= 3)%nat /\
     userCreation.users_add bcrypt_hash req w =
       (Normal tt,
        set_sent (Rendered "error/error"
                    (VObj [("errors", VArr (VStr <$> (snd <$> errs)))]))
          (set_statusCode 400 w))) /\
  (forall p0,
     b_password (body req) = Some p0 ->
     (jsLength (trim p0) < 6)%nat ->
     exists errs, userSchema.validate (userDataOf req) = inl errs).
Proof.
  split.
  - intros errs Hv. destruct (user_validate_errors _ _ Hv) as (Hne & Hlen).
    split; [exact Hne |]. split; [exact Hlen |].
    rewrite users_add_response. unfold userCreation.addUser.
    now rewrite Hv.
  - intros p0 Hp Hshort. unfold userSchema.validate, userDataOf. simpl.
    assert (Hpw : exists m, userSchema.password (b_password (body req)) = inl m).
    { unfold userSchema.password. rewrite Hp. simpl.
      destruct (truthy (trim p0)); simpl; [| eauto].
      destruct (Nat.ltb_spec (jsLength (trim p0)) 6); [eauto | lia]. }
    destruct Hpw as (m & ->).
    destruct (userSchema.name (b_name (body req))),
      (userSchema.email (b_email (body req))); eauto.
Qed.

End UserCreation.

Lemma created_user_logs_in_witness :
  let d := mkUserData (Some "Alice") (Some "alice@example.com") (Some " sesame ") in
  let w1 := exec (@userCreation.addUser stubExternals stubHash d)
              (arriving [] [] [] 0) in
  sent (exec (@app.users_authenticate stubExternals
                (loginRequest (Some "alice@example.com") (Some "sesame"))) w1)
  = Some (Rendered "dashboard/dashboard" VUndefined) /\
  sent (exec (@app.users_authenticate stubExternals
                (loginRequest (Some "alice@example.com") (Some " sesame "))) w1)
  = Some (Rendered "home/home"
            (messageObj "mot de passe erroné, veuillez réessayer.")).
Proof.
  cbv zeta. split.
  - destruct (@created_user_logs_in stubExternals stubHash
                (mkUserData (Some "Alice") (Some "alice@example.com")
                   (Some " sesame "))
                (loginRequest (Some "alice@example.com") (Some "sesame"))
                (arriving [] [] [] 0) "Alice" "alice@example.com" "sesame"
                "$2a$10$sesame" eq_refl eq_refl eq_refl eq_refl)
      as (_ & _ & _ & _ & Haccepted & _).
    apply (Haccepted None). reflexivity.
  - destruct (@created_user_logs_in stubExternals stubHash
                (mkUserData (Some "Alice") (Some "alice@example.com")
                   (Some " sesame "))
                (loginRequest (Some "alice@example.com") (Some " sesame "))
                (arriving [] [] [] 0) "Alice" "alice@example.com" "sesame"
                "$2a$10$sesame" eq_refl eq_refl eq_refl eq_refl)
      as (_ & _ & _ & _ & _ & Hrefused).
    apply Hrefused. reflexivity.
Defined.

Lemma duplicate_email_rejected_witness :
  let req := signupRequest "Carol" " alice@example.com " "secret1" in
  let w := arriving [stubUser] [] [] 0 in
  statusCode (exec (@userCreation.users_add stubExternals stubHash req) w) = 400 /\
  users (exec (@userCreation.users_add stubExternals stubHash req) w) = [stubUser].
Proof.
  cbv zeta.
  destruct (@duplicate_email_rejected stubExternals stubHash
              (signupRequest "Carol" " alice@example.com " "secret1")
              (arriving [stubUser] [] [] 0)
              "Carol" "alice@example.com" "secret1" "$2a$10$secret1"
              eq_refl eq_refl eq_refl)
    as (Hstatus & _ & Husers).
  split; [exact Hstatus | exact Husers].
Defined.

Lemma invalid_user_rejected_witness :
  let req := signupRequest "Alice Smith" "alice+marina@example.com" "12345" in
  sent (exec (@userCreation.users_add stubExternals throwingHash req)
          (arriving [] [] [] 0))
  = Some (Rendered "error/error"
            (VObj [("errors",
                    VArr [VStr "Alice Smith n'est pas valide ! Le nom ne doit contenir que des lettres.";
                          VStr "alice+marina@example.com n'est pas une adresse email valide !";
                          VStr "Le mot de passe doit comporter au moins 6 caractères"])])).
Proof.
  cbv zeta. unfold exec.
  destruct (@invalid_user_rejected stubExternals throwingHash
              (signupRequest "Alice Smith" "alice+marina@example.com" "12345")
              (arriving [] [] [] 0)) as (Hinvalid & _).
  destruct (Hinvalid _ eq_refl) as (_ & _ & ->).
  reflexivity.
Defined.
